(** * Session lifecycle of the Powerlift gym application

    A shallow embedding of [client/components/SessionManager.tsx] (idle
    timer, warning countdown, forced logout, AppState listener), of the
    photo-screen effects of [MemberDetailScreen.tsx] / [RegisterScreen.tsx]
    and of [PinScreen.tsx]'s [handleSubmit].

    The JavaScript event loop is single threaded: every handler below runs
    to completion, so each one is a function from state to state.  Timers
    ([setTimeout] / [setInterval]) are kept in an explicit queue and fired
    by a scheduler.  React state updates are taken to be committed (with
    the effects that depend on them re-run) before the next event is
    handled. *)

From Stdlib Require Import ZArith List Bool Ascii String Lia.
From Stdlib Require DecimalString DecimalZ.
Import ListNotations.
Local Open Scope Z_scope.

(** ** Constants of SessionManager.tsx *)

Definition IDLE_TIME : Z := 2 * 60 * 1000.
Definition COUNTDOWN_SECONDS : Z := 10.

(** ** Timers *)

(** The bodies handed to [setTimeout] / [setInterval] in the sources. *)
Inductive callback : Type :=
| CbIdleExpired        (* resetIdleTimer: setShowModal(true); startCountdown() *)
| CbCountdownTick      (* startCountdown: the setInterval body *)
| CbClearAuth          (* safeLogout: outer setTimeout, 0 ms *)
| CbNavigatePin        (* safeLogout: inner setTimeout, 150 ms *)
| CbStayReset (auth disabled : bool)
                       (* handleStay: () => resetIdleTimer(), 50 ms; the
                          closure keeps the isAuthenticated / timeoutDisabled
                          of the render that created it *)
| CbScreenFlagReset.   (* screen cleanup: setIsPhotoOperationScreen(false), 500 ms *)

Record timer : Type := mkTimer {
  t_id : nat;
  t_due : Z;                 (* milliseconds on the clock *)
  t_every : option Z;        (* Some p for setInterval(_, p) *)
  t_cb : callback
}.

(** ** Observable effects, in program order *)

Inductive effect : Type :=
| FxShowModal (b : bool)          (* setShowModal(b) *)
| FxSetAuthenticated (b : bool)   (* setAuthenticated(b) *)
| FxNavigate (route : string)     (* navigation.dispatch(CommonActions.navigate(route)) *)
| FxHapticImpact                  (* Haptics.impactAsync(Medium) *)
| FxHapticError                   (* Haptics.notificationAsync(Error) *)
| FxHapticSuccess.                (* Haptics.notificationAsync(Success) *)

(** ** State *)

Record state : Type := mkState {
  (* JavaScript runtime *)
  now : Z;
  nextId : nat;
  timers : list timer;            (* pending timers, in registration order *)
  (* AppContext *)
  isAuthenticated : bool;
  timeoutDisabled : bool;
  (* SessionManager component *)
  showModal : bool;
  countdown : Z;
  idleTimer : option nat;         (* idleTimer.current *)
  countdownTimer : option nat;    (* countdownTimer.current *)
  (* module-level ref: isPhotoOperationScreenRef.current, or
     photoOperationRef.current in the other revision *)
  photoFlag : bool;
  (* log of effects, oldest first *)
  trace : list effect
}.

Definition set_now (v : Z) (s : state) : state :=
  mkState v (nextId s) (timers s) (isAuthenticated s) (timeoutDisabled s)
          (showModal s) (countdown s) (idleTimer s) (countdownTimer s)
          (photoFlag s) (trace s).
Definition set_nextId (v : nat) (s : state) : state :=
  mkState (now s) v (timers s) (isAuthenticated s) (timeoutDisabled s)
          (showModal s) (countdown s) (idleTimer s) (countdownTimer s)
          (photoFlag s) (trace s).
Definition set_timers (v : list timer) (s : state) : state :=
  mkState (now s) (nextId s) v (isAuthenticated s) (timeoutDisabled s)
          (showModal s) (countdown s) (idleTimer s) (countdownTimer s)
          (photoFlag s) (trace s).
Definition set_isAuthenticated (v : bool) (s : state) : state :=
  mkState (now s) (nextId s) (timers s) v (timeoutDisabled s)
          (showModal s) (countdown s) (idleTimer s) (countdownTimer s)
          (photoFlag s) (trace s).
Definition set_timeoutDisabled (v : bool) (s : state) : state :=
  mkState (now s) (nextId s) (timers s) (isAuthenticated s) v
          (showModal s) (countdown s) (idleTimer s) (countdownTimer s)
          (photoFlag s) (trace s).
Definition set_showModal (v : bool) (s : state) : state :=
  mkState (now s) (nextId s) (timers s) (isAuthenticated s) (timeoutDisabled s)
          v (countdown s) (idleTimer s) (countdownTimer s)
          (photoFlag s) (trace s).
Definition set_countdown (v : Z) (s : state) : state :=
  mkState (now s) (nextId s) (timers s) (isAuthenticated s) (timeoutDisabled s)
          (showModal s) v (idleTimer s) (countdownTimer s)
          (photoFlag s) (trace s).
Definition set_idleTimer (v : option nat) (s : state) : state :=
  mkState (now s) (nextId s) (timers s) (isAuthenticated s) (timeoutDisabled s)
          (showModal s) (countdown s) v (countdownTimer s)
          (photoFlag s) (trace s).
Definition set_countdownTimer (v : option nat) (s : state) : state :=
  mkState (now s) (nextId s) (timers s) (isAuthenticated s) (timeoutDisabled s)
          (showModal s) (countdown s) (idleTimer s) v
          (photoFlag s) (trace s).
Definition set_photoFlag (v : bool) (s : state) : state :=
  mkState (now s) (nextId s) (timers s) (isAuthenticated s) (timeoutDisabled s)
          (showModal s) (countdown s) (idleTimer s) (countdownTimer s)
          v (trace s).
Definition set_trace (v : list effect) (s : state) : state :=
  mkState (now s) (nextId s) (timers s) (isAuthenticated s) (timeoutDisabled s)
          (showModal s) (countdown s) (idleTimer s) (countdownTimer s)
          (photoFlag s) v.

Definition emit (e : effect) (s : state) : state :=
  set_trace (trace s ++ [e]) s.

(** ** The timer API of the runtime *)

(** [setTimeout(cb, delay)]: a fresh handle, due [delay] ms from now. *)
Definition setTimeout (cb : callback) (delay : Z) (s : state) : nat * state :=
  (nextId s,
   set_nextId (S (nextId s))
     (set_timers (timers s ++ [mkTimer (nextId s) (now s + delay) None cb]) s)).

(** [setInterval(cb, period)]. *)
Definition setInterval (cb : callback) (period : Z) (s : state) : nat * state :=
  (nextId s,
   set_nextId (S (nextId s))
     (set_timers (timers s ++ [mkTimer (nextId s) (now s + period) (Some period) cb]) s)).

Definition keep_other (id : nat) (t : timer) : bool := negb (Nat.eqb (t_id t) id).

(** [clearTimeout(id)] / [clearInterval(id)]: one table of handles. *)
Definition clearTimer (id : nat) (s : state) : state :=
  set_timers (filter (keep_other id) (timers s)) s.

(** [if (ref.current) clearTimeout(ref.current)]; a ref is never reset to
    null by the component, so a stale handle is cleared again harmlessly. *)
Definition clearRef (r : option nat) (s : state) : state :=
  match r with
  | Some id => clearTimer id s
  | None => s
  end.

Definition pendingb (id : nat) (s : state) : bool :=
  existsb (fun t => Nat.eqb (t_id t) id) (timers s).

(** The idle deadline is armed: the handle in [idleTimer.current] is live. *)
Definition idleArmed (s : state) : bool :=
  match idleTimer s with
  | Some id => pendingb id s
  | None => false
  end.

(** The countdown runs: the handle in [countdownTimer.current] is live. *)
Definition countdownRunning (s : state) : bool :=
  match countdownTimer s with
  | Some id => pendingb id s
  | None => false
  end.

(** ** SessionManager.tsx *)

(** [setShowModal(v)] *)
Definition setShowModal (v : bool) (s : state) : state :=
  emit (FxShowModal v) (set_showModal v s).

(** [safeLogout]: hide the modal now, clear authentication in a 0 ms
    timeout; the navigation is scheduled by that timeout's body. *)
Definition safeLogout (s : state) : state :=
  snd (setTimeout CbClearAuth 0 (setShowModal false s)).

(** One run of the [setCountdown] updater registered by [startCountdown]. *)
Definition countdownTick (s : state) : state :=
  let prev := countdown s in
  let s1 := if prev =? 2 then emit FxHapticImpact s else s in
  let s2 := if prev <=? 1
            then safeLogout (emit FxHapticError (clearRef (countdownTimer s1) s1))
            else s1 in
  set_countdown (prev - 1) s2.

(** [startCountdown] *)
Definition startCountdown (s : state) : state :=
  let s1 := set_countdown COUNTDOWN_SECONDS s in
  let '(id, s2) := setInterval CbCountdownTick 1000 s1 in
  set_countdownTimer (Some id) s2.

(** The body of [resetIdleTimer], for the [isAuthenticated] and
    [timeoutDisabled] its closure was created with. *)
Definition resetIdleTimerWith (auth disabled : bool) (s : state) : state :=
  if negb auth || disabled then s
  else
    let s1 := clearRef (idleTimer s) s in
    let '(id, s2) := setTimeout CbIdleExpired IDLE_TIME s1 in
    set_idleTimer (Some id) s2.

(** [resetIdleTimer] of the current render. *)
Definition resetIdleTimer (s : state) : state :=
  resetIdleTimerWith (isAuthenticated s) (timeoutDisabled s) s.

(** Body of the idle timeout. *)
Definition idleExpired (s : state) : state :=
  startCountdown (setShowModal true s).

(** [handleUserInteraction] (onPress / onLongPress of the wrapping Pressable). *)
Definition handleUserInteraction (s : state) : state :=
  if negb (isAuthenticated s) || timeoutDisabled s then s
  else if negb (showModal s) then resetIdleTimer s
  else s.

(** [handleStay] ("I'm Still Here"). *)
Definition handleStay (s : state) : state :=
  let s1 := setShowModal false s in
  let s2 := clearRef (countdownTimer s1) s1 in
  snd (setTimeout (CbStayReset (isAuthenticated s) (timeoutDisabled s)) 50 s2).

(** The effect "Start timer when logged in", with dependencies
    [isAuthenticated, timeoutDisabled, resetIdleTimer].  It re-runs when one
    of the first two changes: first the cleanup returned by the previous run
    (there is one only if that run saw [isAuthenticated] true), then the body. *)
Definition sessionEffect (prevAuth : bool) (s : state) : state :=
  let s1 := if prevAuth
            then clearRef (countdownTimer s) (clearRef (idleTimer s) s)
            else s in
  if negb (isAuthenticated s1)
  then clearRef (countdownTimer s1) (clearRef (idleTimer s1) s1)
  else resetIdleTimer s1.

(** AppContext's [setAuthenticated(value)], followed by the commit. *)
Definition setAuthenticated (v : bool) (s : state) : state :=
  let s1 := emit (FxSetAuthenticated v) s in
  if Bool.eqb v (isAuthenticated s) then s1
  else sessionEffect (isAuthenticated s) (set_isAuthenticated v s1).

(** AppContext's [setTimeoutDisabled(value)], followed by the commit. *)
Definition setTimeoutDisabled (v : bool) (s : state) : state :=
  if Bool.eqb v (timeoutDisabled s) then s
  else sessionEffect (isAuthenticated s) (set_timeoutDisabled v s).

(** *** The AppState listener, one definition per revision *)

(** Values of React Native's AppState that reach the listener. *)
Inductive appStatus : Type :=
| Active        (* "active": foreground *)
| Background    (* "background" *)
| Inactive.     (* "inactive" and the other values, which no branch handles *)

Inductive revision : Type :=
| RevIdleOnly      (* the revision without a photo flag: active => resetIdleTimer() *)
| RevScreenFlag    (* SessionManager.tsx, isPhotoOperationScreenRef *)
| RevPhotoOp.      (* SessionManager.tsx, photoOperationRef *)

(** Revision without photo flag: the listener is subscribed whatever
    [isAuthenticated] is, and only re-arms the idle timer. *)
Definition listenerIdleOnly (st : appStatus) (s : state) : state :=
  match st with
  | Active => resetIdleTimer s
  | _ => s
  end.

(** Both later revisions share the background branch. *)
Definition onBackground (s : state) : state :=
  let s1 := clearRef (idleTimer s) s in
  let s2 := clearRef (countdownTimer s1) s1 in
  setShowModal false s2.

(** isPhotoOperationScreenRef revision: the flag is read, never written. *)
Definition listenerScreenFlag (st : appStatus) (s : state) : state :=
  match st with
  | Background => onBackground s
  | Active => if photoFlag s then s else safeLogout s
  | Inactive => s
  end.

(** photoOperationRef revision: a pending flag is consumed. *)
Definition listenerPhotoOp (st : appStatus) (s : state) : state :=
  match st with
  | Background => onBackground s
  | Active => if photoFlag s then set_photoFlag false s else safeLogout s
  | Inactive => s
  end.

(** Delivery of an AppState change.  In the two later revisions the effect
    that subscribes starts with [if (!isAuthenticated) return] and has
    [isAuthenticated] among its dependencies, so a listener exists exactly
    while [isAuthenticated] is true. *)
Definition onAppStateChange (rev : revision) (st : appStatus) (s : state) : state :=
  match rev with
  | RevIdleOnly => listenerIdleOnly st s
  | RevScreenFlag => if negb (isAuthenticated s) then s else listenerScreenFlag st s
  | RevPhotoOp => if negb (isAuthenticated s) then s else listenerPhotoOp st s
  end.

(** The exported setter: [setIsPhotoOperationScreen] /
    [setPhotoOperationInProgress]. *)
Definition setIsPhotoOperationScreen (v : bool) (s : state) : state :=
  set_photoFlag v s.
Definition setPhotoOperationInProgress (v : bool) (s : state) : state :=
  set_photoFlag v s.

(** ** MemberDetailScreen.tsx and RegisterScreen.tsx *)

(** The mount effect. *)
Definition screenMount (s : state) : state :=
  setIsPhotoOperationScreen true s.

(** Its cleanup, run at unmount: the flag is put back 500 ms later. *)
Definition screenUnmount (s : state) : state :=
  snd (setTimeout CbScreenFlagReset 500 s).

(** [pickImage] and [takePhoto] launch the picker or the camera and store
    the resulting uri; neither touches the session or the flag.  The
    background / active events they cause come from the OS. *)
Definition pickImage (s : state) : state := s.
Definition takePhoto (s : state) : state := s.

(** ** Running a timer body *)

Definition runCallback (cb : callback) (s : state) : state :=
  match cb with
  | CbIdleExpired => idleExpired s
  | CbCountdownTick => countdownTick s
  | CbClearAuth => snd (setTimeout CbNavigatePin 150 (setAuthenticated false s))
  | CbNavigatePin => emit (FxNavigate "Pin") s
  | CbStayReset auth disabled => resetIdleTimerWith auth disabled s
  | CbScreenFlagReset => setIsPhotoOperationScreen false s
  end.

(** ** The event loop *)

(** The pending timer that is due first; among equal due times the one
    registered first. *)
Fixpoint earliest (ts : list timer) : option timer :=
  match ts with
  | [] => None
  | t :: rest =>
      match earliest rest with
      | Some u => if t_due u <? t_due t then Some u else Some t
      | None => Some t
      end
  end.

(** Fire one timer: the clock reaches its due time, a timeout leaves the
    queue, an interval is re-armed one period later, then the body runs. *)
Definition fire (t : timer) (s : state) : state :=
  let s1 := set_now (Z.max (now s) (t_due t)) s in
  let s2 := clearTimer (t_id t) s1 in
  let s3 := match t_every t with
            | Some p => set_timers (timers s2 ++ [mkTimer (t_id t) (now s1 + p) (Some p) (t_cb t)]) s2
            | None => s2
            end in
  runCallback (t_cb t) s3.

Definition fireNext (s : state) : option state :=
  match earliest (timers s) with
  | Some t => Some (fire t s)
  | None => None
  end.

(** Run every timer due up to [deadline], in order, then let the clock
    reach [deadline].  [None] when [fuel] firings were not enough. *)
Fixpoint runUntil (fuel : nat) (deadline : Z) (s : state) : option state :=
  match earliest (timers s) with
  | Some t =>
      if t_due t <=? deadline
      then match fuel with
           | O => None
           | S fuel' => runUntil fuel' deadline (fire t s)
           end
      else Some (set_now (Z.max (now s) deadline) s)
  | None => Some (set_now (Z.max (now s) deadline) s)
  end.

(** [d] milliseconds pass without any input. *)
Definition elapse (fuel : nat) (d : Z) (s : state) : option state :=
  runUntil fuel (now s + d) s.

(** ** Events *)

Inductive event : Type :=
| EvAppState (st : appStatus)         (* the OS visibility signal *)
| EvPress                             (* press on the wrapping Pressable *)
| EvStay                              (* "I'm Still Here" *)
| EvSetAuthenticated (v : bool)       (* a screen calls setAuthenticated *)
| EvSetTimeoutDisabled (v : bool)     (* a screen calls setTimeoutDisabled *)
| EvSetFlag (v : bool)                (* a direct call of the exported setter *)
| EvScreenMount                       (* Register / MemberDetail mounts *)
| EvScreenUnmount                     (* ... unmounts *)
| EvPickImage
| EvTakePhoto
| EvFire                              (* the event loop runs the next timer *)
| EvClock (t : Z).                    (* the clock reaches t, nothing runs *)

Definition step (rev : revision) (e : event) (s : state) : state :=
  match e with
  | EvAppState st => onAppStateChange rev st s
  | EvPress => match rev with
               | RevIdleOnly => s     (* no Pressable wrapper in that revision *)
               | _ => handleUserInteraction s
               end
  | EvStay => handleStay s
  | EvSetAuthenticated v => setAuthenticated v s
  | EvSetTimeoutDisabled v => setTimeoutDisabled v s
  | EvSetFlag v => match rev with
                   | RevIdleOnly => s (* no flag in that revision *)
                   | RevScreenFlag => setIsPhotoOperationScreen v s
                   | RevPhotoOp => setPhotoOperationInProgress v s
                   end
  | EvScreenMount => match rev with RevScreenFlag => screenMount s | _ => s end
  | EvScreenUnmount => match rev with RevScreenFlag => screenUnmount s | _ => s end
  | EvPickImage => pickImage s
  | EvTakePhoto => takePhoto s
  | EvFire => match fireNext s with Some s' => s' | None => s end
  | EvClock t => set_now (Z.max (now s) t) s
  end.

Definition run (rev : revision) (es : list event) (s : state) : state :=
  fold_left (fun acc e => step rev e acc) es s.

(** The application right after launch: AppProvider's initial state, no
    timer, modal hidden. *)
Definition initial : state :=
  mkState 0 1 [] false false false COUNTDOWN_SECONDS None None false [].

(** * Properties *)

(** ** Foreground re-entry and the photo flag *)

Definition roundTrip (rev : revision) (s : state) : state :=
  onAppStateChange rev Active (onAppStateChange rev Background s).

(** What [clearRef] leaves alone: everything but the timer queue. *)
Section ClearRefFrame.
Variables (r : option nat) (s : state).

Lemma clearRef_auth : isAuthenticated (clearRef r s) = isAuthenticated s.
  Proof. destruct r; reflexivity. Qed.
Lemma clearRef_disabled : timeoutDisabled (clearRef r s) = timeoutDisabled s.
  Proof. destruct r; reflexivity. Qed.
Lemma clearRef_flag : photoFlag (clearRef r s) = photoFlag s.
  Proof. destruct r; reflexivity. Qed.
Lemma clearRef_modal : showModal (clearRef r s) = showModal s.
  Proof. destruct r; reflexivity. Qed.
Lemma clearRef_countdown : countdown (clearRef r s) = countdown s.
  Proof. destruct r; reflexivity. Qed.
Lemma clearRef_idleTimer : idleTimer (clearRef r s) = idleTimer s.
  Proof. destruct r; reflexivity. Qed.
Lemma clearRef_countdownTimer : countdownTimer (clearRef r s) = countdownTimer s.
  Proof. destruct r; reflexivity. Qed.
Lemma clearRef_trace : trace (clearRef r s) = trace s.
  Proof. destruct r; reflexivity. Qed.
Lemma clearRef_now : now (clearRef r s) = now s.
  Proof. destruct r; reflexivity. Qed.
Lemma clearRef_nextId : nextId (clearRef r s) = nextId s.
  Proof. destruct r; reflexivity. Qed.
End ClearRefFrame.

Create Rewrite HintDb frame.
#[local] Hint Rewrite clearRef_auth clearRef_disabled clearRef_flag
  clearRef_modal clearRef_countdown clearRef_idleTimer clearRef_countdownTimer
  clearRef_trace clearRef_now clearRef_nextId : frame.

Lemma onBackground_auth (s : state) :
  isAuthenticated (onBackground s) = isAuthenticated s.
Proof. unfold onBackground; cbn; now autorewrite with frame. Qed.

Lemma onBackground_flag (s : state) :
  photoFlag (onBackground s) = photoFlag s.
Proof. unfold onBackground; cbn; now autorewrite with frame. Qed.

(** A logged-in session right after PIN entry, used to exercise the
    statements below on a concrete input. *)
Definition loggedIn : state := setAuthenticated true initial.

(** C1, as stated, fails in the isPhotoOperationScreenRef revision: after
    the flag is set and one background / active round trip is processed,
    the flag is still true, and a second round trip is not followed by a
    forced logout either. *)
Lemma C1_screen_flag_not_consumed :
  isAuthenticated loggedIn = true /\
  photoFlag (roundTrip RevScreenFlag (setIsPhotoOperationScreen true loggedIn)) = true /\
  roundTrip RevScreenFlag
    (roundTrip RevScreenFlag (setIsPhotoOperationScreen true loggedIn))
  <> safeLogout
       (onAppStateChange RevScreenFlag Background
          (roundTrip RevScreenFlag (setIsPhotoOperationScreen true loggedIn))).
Proof.
  vm_compute. repeat split; try reflexivity. discriminate.
Qed.

(** C1 (amended).  photoOperationRef revision: with the session
    authenticated, setting the flag and processing one background / active
    round trip schedules nothing and logs nothing beyond what the background
    branch did, leaves the session authenticated and the flag false; the
    next round trip calls safeLogout.  isPhotoOperationScreenRef revision:
    the active branch returns without writing the flag, so the flag is still
    true and the next round trip is skipped as well. *)
Theorem C1_bypass_by_revision (s : state) (Hauth : isAuthenticated s = true) :
  (let b := onAppStateChange RevPhotoOp Background (setPhotoOperationInProgress true s) in
   let s1 := onAppStateChange RevPhotoOp Active b in
   s1 = set_photoFlag false b /\
   isAuthenticated s1 = true /\
   photoFlag s1 = false /\
   roundTrip RevPhotoOp s1 = safeLogout (onAppStateChange RevPhotoOp Background s1))
  /\
  (let b := onAppStateChange RevScreenFlag Background (setIsPhotoOperationScreen true s) in
   let s1 := onAppStateChange RevScreenFlag Active b in
   s1 = b /\
   isAuthenticated s1 = true /\
   photoFlag s1 = true /\
   roundTrip RevScreenFlag s1 = onAppStateChange RevScreenFlag Background s1).
Proof.
  assert (Bg : forall rev s', rev <> RevIdleOnly -> isAuthenticated s' = true ->
               onAppStateChange rev Background s' = onBackground s').
  { intros rev s' Hr Ha'. destruct rev; [congruence | |];
      unfold onAppStateChange; now rewrite Ha'. }
  assert (Hb : forall v, isAuthenticated (onBackground (set_photoFlag v s)) = true)
    by (intro v; now rewrite onBackground_auth).
  assert (Hf : forall v, photoFlag (onBackground (set_photoFlag v s)) = v)
    by (intro v; now rewrite onBackground_flag).
  unfold roundTrip, setPhotoOperationInProgress, setIsPhotoOperationScreen.
  cbv zeta. rewrite !(Bg _ (set_photoFlag true s)) by (discriminate || exact Hauth).
  set (b := onBackground (set_photoFlag true s)) in *.
  specialize (Hb true). specialize (Hf true). fold b in Hb, Hf.
  split.
  - assert (E1 : onAppStateChange RevPhotoOp Active b = set_photoFlag false b).
    { unfold onAppStateChange. rewrite Hb. cbn [negb listenerPhotoOp].
      now rewrite Hf. }
    rewrite E1.
    split; [reflexivity|]. split; [exact Hb|]. split; [reflexivity|].
    rewrite (Bg RevPhotoOp (set_photoFlag false b)) by (discriminate || exact Hb).
    set (b2 := onBackground (set_photoFlag false b)).
    unfold onAppStateChange.
    assert (Ha2 : isAuthenticated b2 = true)
      by (unfold b2; rewrite onBackground_auth; exact Hb).
    assert (Hf2 : photoFlag b2 = false)
      by (unfold b2; now rewrite onBackground_flag).
    rewrite Ha2. cbn [negb listenerPhotoOp]. now rewrite Hf2.
  - assert (E1 : onAppStateChange RevScreenFlag Active b = b).
    { unfold onAppStateChange. rewrite Hb. cbn [negb listenerScreenFlag].
      now rewrite Hf. }
    rewrite E1.
    split; [reflexivity|]. split; [exact Hb|]. split; [exact Hf|].
    rewrite (Bg RevScreenFlag b) by (discriminate || exact Hb).
    set (b2 := onBackground b).
    unfold onAppStateChange.
    assert (Ha2 : isAuthenticated b2 = true)
      by (unfold b2; rewrite onBackground_auth; exact Hb).
    assert (Hf2 : photoFlag b2 = true)
      by (unfold b2; rewrite onBackground_flag; exact Hf).
    rewrite Ha2. cbn [negb listenerScreenFlag]. now rewrite Hf2.
Qed.

Lemma C1_bypass_by_revision_witness :
  isAuthenticated loggedIn = true /\
  photoFlag (roundTrip RevPhotoOp (setPhotoOperationInProgress true loggedIn)) = false.
Proof.
  split; [reflexivity |].
  exact (proj1 (proj2 (proj2 (proj1 (C1_bypass_by_revision loggedIn eq_refl))))).
Defined.

(** ** Going to the background *)

Lemma pendingb_clearTimer_same (id : nat) (s : state) :
  pendingb id (clearTimer id s) = false.
Proof.
  unfold pendingb, clearTimer; cbn.
  induction (timers s) as [|t ts IH]; cbn; [reflexivity|].
  unfold keep_other at 1.
  destruct (Nat.eqb (t_id t) id) eqn:E; cbn; [exact IH|].
  now rewrite E.
Qed.

Lemma pendingb_clearTimer_mono (id j : nat) (s : state) :
  pendingb id s = false -> pendingb id (clearTimer j s) = false.
Proof.
  unfold pendingb, clearTimer; cbn.
  induction (timers s) as [|t ts IH]; cbn; [reflexivity|].
  intros H. apply orb_false_iff in H as [H1 H2].
  destruct (keep_other j t); cbn; [rewrite H1|]; auto.
Qed.

Lemma pendingb_clearRef_mono (id : nat) (r : option nat) (s : state) :
  pendingb id s = false -> pendingb id (clearRef r s) = false.
Proof. destruct r; cbn; [apply pendingb_clearTimer_mono | auto]. Qed.

Lemma onBackground_cancels (s : state) :
  idleArmed (onBackground s) = false /\
  countdownRunning (onBackground s) = false /\
  showModal (onBackground s) = false.
Proof.
  unfold idleArmed, countdownRunning, onBackground, setShowModal, emit.
  cbn. autorewrite with frame.
  repeat split.
  - destruct (idleTimer s) as [i|]; [|reflexivity].
    change (pendingb i (clearRef (countdownTimer s) (clearTimer i s)) = false).
    apply pendingb_clearRef_mono, pendingb_clearTimer_same.
  - destruct (countdownTimer s) as [c|]; [|reflexivity].
    change (pendingb c (clearTimer c (clearRef (idleTimer s) s)) = false).
    apply pendingb_clearTimer_same.
Qed.

Lemma safeLogout_timers (s : state) :
  timers (safeLogout s) = timers s ++ [mkTimer (nextId s) (now s + 0) None CbClearAuth].
Proof. reflexivity. Qed.

Lemma pendingb_app_fresh (id : nat) (s : state) (t : timer) :
  pendingb id s = false -> t_id t <> id ->
  existsb (fun u => Nat.eqb (t_id u) id) (timers s ++ [t]) = false.
Proof.
  unfold pendingb. intros H Hn.
  rewrite existsb_app, H. cbn.
  apply Nat.eqb_neq in Hn. now rewrite Hn.
Qed.

(** ** Unauthenticated sessions *)

(** C7.  While [isAuthenticated] is false, delivering any AppState value
    returns the state unchanged: in the two revisions of SessionManager.tsx
    because no listener is subscribed, in the revision without a flag
    because [resetIdleTimer] returns at once. *)
Theorem C7_unauthenticated_noop (rev : revision) (st : appStatus) (s : state)
    (Hauth : isAuthenticated s = false) :
  onAppStateChange rev st s = s.
Proof.
  destruct rev; unfold onAppStateChange; try (now rewrite Hauth).
  destruct st; cbn; try reflexivity.
  unfold resetIdleTimer, resetIdleTimerWith. now rewrite Hauth.
Qed.

Lemma C7_unauthenticated_noop_witness :
  isAuthenticated initial = false /\
  onAppStateChange RevScreenFlag Active initial = initial.
Proof.
  split; [reflexivity |].
  exact (C7_unauthenticated_noop RevScreenFlag Active initial eq_refl).
Defined.

(** ** Facts about the timer queue *)

Lemma earliest_In (ts : list timer) (t : timer) :
  earliest ts = Some t -> In t ts.
Proof.
  revert t. induction ts as [|a ts IH]; cbn; [discriminate|].
  intros t. destruct (earliest ts) as [u|].
  - destruct (t_due u <? t_due a); intros [= <-]; auto.
  - intros [= <-]; auto.
Qed.

(** Every pending timer has a body accepted by [P]. *)
Definition allCb (P : callback -> bool) (s : state) : bool :=
  forallb (fun t => P (t_cb t)) (timers s).

Section AllCb.
Variable P : callback -> bool.

Lemma forallb_filter_keep (f : timer -> bool) (ts : list timer) :
    forallb (fun t => P (t_cb t)) ts = true ->
    forallb (fun t => P (t_cb t)) (filter f ts) = true.
  Proof.
    induction ts as [|a ts IH]; cbn; [auto|].
    intros H. apply andb_true_iff in H as [Ha Hts].
    destruct (f a); cbn; [rewrite Ha|]; auto.
  Qed.

Lemma allCb_clearRef (r : option nat) (s : state) :
    allCb P s = true -> allCb P (clearRef r s) = true.
  Proof. destruct r; cbn; [apply forallb_filter_keep | auto]. Qed.

Lemma allCb_setTimeout (cb : callback) (d : Z) (s : state) :
    allCb P s = true -> P cb = true -> allCb P (snd (setTimeout cb d s)) = true.
  Proof.
    unfold allCb; cbn. intros H Hc. rewrite forallb_app, H; cbn. now rewrite Hc.
  Qed.

Lemma allCb_setInterval (cb : callback) (d : Z) (s : state) :
    allCb P s = true -> P cb = true -> allCb P (snd (setInterval cb d s)) = true.
  Proof.
    unfold allCb; cbn. intros H Hc. rewrite forallb_app, H; cbn. now rewrite Hc.
  Qed.

Lemma allCb_earliest (s : state) (t : timer) :
    allCb P s = true -> earliest (timers s) = Some t -> P (t_cb t) = true.
  Proof.
    unfold allCb. intros H E. apply earliest_In in E.
    rewrite forallb_forall in H. now apply H.
  Qed.

  (** Only the queue matters. *)
Lemma allCb_ext (s s' : state) :
    timers s' = timers s -> allCb P s' = allCb P s.
  Proof. unfold allCb; now intros ->. Qed.

Lemma allCb_safeLogout (s : state) :
    allCb P s = true -> P CbClearAuth = true -> allCb P (safeLogout s) = true.
  Proof. intros H Hc. unfold safeLogout. now apply allCb_setTimeout. Qed.

Lemma allCb_onBackground (s : state) :
    allCb P s = true -> allCb P (onBackground s) = true.
  Proof.
    intros H. unfold onBackground, setShowModal, emit.
    erewrite allCb_ext by reflexivity.
    now apply allCb_clearRef, allCb_clearRef.
  Qed.

Lemma allCb_resetIdleTimerWith (a d : bool) (s : state) :
    allCb P s = true -> (a && negb d = true -> P CbIdleExpired = true) ->
    allCb P (resetIdleTimerWith a d s) = true.
  Proof.
    intros H Hc. unfold resetIdleTimerWith.
    destruct a, d; cbn [negb orb]; auto.
    erewrite allCb_ext by reflexivity.
    apply allCb_setTimeout; [now apply allCb_clearRef | now apply Hc].
  Qed.

Lemma allCb_sessionEffect (prev : bool) (s : state) :
    allCb P s = true ->
    (isAuthenticated s && negb (timeoutDisabled s) = true -> P CbIdleExpired = true) ->
    allCb P (sessionEffect prev s) = true.
  Proof.
    intros H Hc. unfold sessionEffect.
    set (s1 := if prev then _ else s).
    assert (H1 : allCb P s1 = true)
      by (subst s1; destruct prev; auto; now apply allCb_clearRef, allCb_clearRef).
    assert (Ea : isAuthenticated s1 = isAuthenticated s)
      by (subst s1; destruct prev; now autorewrite with frame).
    assert (Ed : timeoutDisabled s1 = timeoutDisabled s)
      by (subst s1; destruct prev; now autorewrite with frame).
    destruct (isAuthenticated s1) eqn:E1; cbn [negb].
    - unfold resetIdleTimer. apply allCb_resetIdleTimerWith; auto.
      rewrite E1, Ed. rewrite <- Ea in Hc. exact Hc.
    - now apply allCb_clearRef, allCb_clearRef.
  Qed.


Lemma allCb_fire_queue (t : timer) (s : state) :
    allCb P s = true -> P (t_cb t) = true ->
    allCb P
      (match t_every t with
       | Some p =>
           set_timers
             (timers (clearTimer (t_id t) (set_now (Z.max (now s) (t_due t)) s))
              ++ [mkTimer (t_id t) (now (set_now (Z.max (now s) (t_due t)) s) + p)
                    (Some p) (t_cb t)])
             (clearTimer (t_id t) (set_now (Z.max (now s) (t_due t)) s))
       | None => clearTimer (t_id t) (set_now (Z.max (now s) (t_due t)) s)
       end) = true.
  Proof.
    intros H Hc. unfold allCb in *.
    destruct (t_every t); cbn.
    - rewrite forallb_app, forallb_filter_keep by exact H. cbn. now rewrite Hc.
    - now apply forallb_filter_keep.
  Qed.
End AllCb.

(** ** The timeoutDisabled setting *)

(** Timer bodies that cannot arm the idle deadline or tick the countdown: no
    idle timeout, no countdown interval, and no "I'm Still Here" closure
    created while the timeout was enabled and the session authenticated. *)
Definition quietCb (cb : callback) : bool :=
  match cb with
  | CbIdleExpired | CbCountdownTick => false
  | CbStayReset a d => negb a || d
  | _ => true
  end.

(** Effects only the idle path produces: showing the modal, and the two
    haptics of the countdown. *)
Definition idleFx (e : effect) : bool :=
  match e with
  | FxShowModal true | FxHapticImpact | FxHapticError => true
  | _ => false
  end.

Definition idleTrace (s : state) : list effect := filter idleFx (trace s).

Lemma resetIdleTimer_disabled (s : state) :
  timeoutDisabled s = true -> resetIdleTimer s = s.
Proof.
  intros H. unfold resetIdleTimer, resetIdleTimerWith. rewrite H.
  now rewrite orb_true_r.
Qed.

Lemma handleUserInteraction_disabled (s : state) :
  timeoutDisabled s = true -> handleUserInteraction s = s.
Proof.
  intros H. unfold handleUserInteraction. rewrite H. now rewrite orb_true_r.
Qed.

Ltac break_state s :=
  destruct s as [nw nid ts au td sm cd it ct pf tr]; cbn in *.

Lemma sessionEffect_disabled_frame (prev : bool) (s : state) :
  timeoutDisabled s = true ->
  timeoutDisabled (sessionEffect prev s) = true /\
  trace (sessionEffect prev s) = trace s /\
  showModal (sessionEffect prev s) = showModal s.
Proof.
  intros H. break_state s. subst td. unfold sessionEffect.
  destruct prev, au, it, ct; cbn; auto.
Qed.

Lemma idleTrace_emit (e : effect) (s : state) :
  idleFx e = false -> idleTrace (emit e s) = idleTrace s.
Proof.
  intros H. unfold idleTrace, emit; cbn.
  rewrite filter_app; cbn. rewrite H. apply app_nil_r.
Qed.

Lemma step_disabled (rev : revision) (e : event) (s : state) :
  timeoutDisabled s = true ->
  allCb quietCb s = true ->
  e <> EvSetTimeoutDisabled false ->
  timeoutDisabled (step rev e s) = true /\
  allCb quietCb (step rev e s) = true /\
  idleTrace (step rev e s) = idleTrace s /\
  (showModal (step rev e s) = true -> showModal s = true).
Proof.
  intros Hd Hq He.
  destruct e as [st| | |v|v|v| | | | | |t]; cbn [step].
  - (* AppState *)
    destruct rev; cbn [onAppStateChange].
    + destruct st; cbn [listenerIdleOnly]; rewrite ?resetIdleTimer_disabled; auto.
    + destruct (isAuthenticated s); cbn [negb]; auto.
      destruct st; cbn [listenerScreenFlag]; auto.
      * destruct (photoFlag s); auto.
        repeat split; [exact Hd | now apply allCb_safeLogout | | discriminate].
        unfold safeLogout, setShowModal.
        break_state s. unfold idleTrace; cbn. rewrite filter_app; cbn.
        apply app_nil_r.
      * repeat split; [now rewrite <- Hd; break_state s; destruct it, ct
                      | now apply allCb_onBackground | |].
        -- break_state s. unfold idleTrace. destruct it, ct; cbn;
             rewrite filter_app; cbn; apply app_nil_r.
        -- break_state s. destruct it, ct; cbn; discriminate.
    + destruct (isAuthenticated s); cbn [negb]; auto.
      destruct st; cbn [listenerPhotoOp]; auto.
      * destruct (photoFlag s); auto.
        repeat split; [exact Hd | now apply allCb_safeLogout | | discriminate].
        unfold safeLogout, setShowModal.
        break_state s. unfold idleTrace; cbn. rewrite filter_app; cbn.
        apply app_nil_r.
      * repeat split; [now rewrite <- Hd; break_state s; destruct it, ct
                      | now apply allCb_onBackground | |].
        -- break_state s. unfold idleTrace. destruct it, ct; cbn;
             rewrite filter_app; cbn; apply app_nil_r.
        -- break_state s. destruct it, ct; cbn; discriminate.
  - (* press *)
    destruct rev; rewrite ?handleUserInteraction_disabled; auto.
  - (* stay *)
    repeat split.
    + rewrite <- Hd. break_state s. now destruct ct.
    + unfold handleStay. apply allCb_setTimeout.
      * apply allCb_clearRef. exact Hq.
      * cbn. rewrite Hd. apply orb_true_r.
    + break_state s. unfold idleTrace. destruct ct; cbn;
        rewrite filter_app; cbn; apply app_nil_r.
    + break_state s. destruct ct; cbn; discriminate.
  - (* setAuthenticated *)
    unfold setAuthenticated.
    destruct (Bool.eqb v (isAuthenticated s)).
    + repeat split; auto. now apply idleTrace_emit.
    + destruct (sessionEffect_disabled_frame (isAuthenticated s)
                  (set_isAuthenticated v (emit (FxSetAuthenticated v) s)) Hd)
        as (F1 & F2 & F3).
      repeat split; [exact F1 | | |].
      * apply allCb_sessionEffect; [exact Hq|].
        cbn. change (timeoutDisabled (set_isAuthenticated v (emit (FxSetAuthenticated v) s)))
          with (timeoutDisabled s).
        rewrite Hd, andb_false_r. discriminate.
      * unfold idleTrace. rewrite F2. now apply (idleTrace_emit (FxSetAuthenticated v)).
      * rewrite F3. auto.
  - (* setTimeoutDisabled *)
    destruct v; [|congruence].
    unfold setTimeoutDisabled. rewrite Hd. cbn. auto.
  - (* setter *)
    destruct rev; cbn; auto.
  - destruct rev; cbn; auto.
  - destruct rev; cbn [screenUnmount]; auto.
    repeat split; auto. now apply allCb_setTimeout.
  - auto.
  - auto.
  - (* the event loop *)
    unfold fireNext. destruct (earliest (timers s)) as [t|] eqn:E; [|auto].
    pose proof (allCb_earliest quietCb s t Hq E) as Ht.
    pose proof (allCb_fire_queue quietCb t s Hq Ht) as Hf.
    unfold fire. cbv zeta.
    set (q := match t_every t with Some _ => _ | None => _ end) in *.
    assert (Fq : timeoutDisabled q = true /\ trace q = trace s /\ showModal q = showModal s).
    { subst q. rewrite <- Hd. destruct (t_every t); auto. }
    destruct Fq as (Q1 & Q2 & Q3).
    destruct (t_cb t) as [| | | |a d|]; cbn in Ht; try discriminate; cbn [runCallback].
    + (* CbClearAuth *)
      unfold setAuthenticated.
      destruct (Bool.eqb false (isAuthenticated q)).
      * repeat split; [exact Q1 | | | cbn; rewrite Q3; auto].
        -- apply allCb_setTimeout; [|reflexivity]. exact Hf.
        -- unfold idleTrace; cbn. rewrite filter_app; cbn.
           rewrite app_nil_r. now rewrite Q2.
      * destruct (sessionEffect_disabled_frame (isAuthenticated q)
                    (set_isAuthenticated false (emit (FxSetAuthenticated false) q)) Q1)
          as (F1 & F2 & F3).
        repeat split; [exact F1 | | | cbn; rewrite F3; cbn; rewrite Q3; auto].
        -- apply allCb_setTimeout; [|reflexivity].
           apply allCb_sessionEffect; [exact Hf|]. cbn. discriminate.
        -- unfold idleTrace; cbn. rewrite F2; cbn. rewrite filter_app; cbn.
           rewrite app_nil_r. now rewrite Q2.
    + (* CbNavigatePin *)
      repeat split; [exact Q1 | exact Hf | | cbn; rewrite Q3; auto].
      unfold idleTrace; cbn. rewrite filter_app; cbn.
      rewrite app_nil_r. now rewrite Q2.
    + (* CbStayReset, a closure that returns at once *)
      unfold resetIdleTimerWith. rewrite Ht.
      repeat split; [exact Q1 | exact Hf | | rewrite Q3; auto].
      unfold idleTrace. now rewrite Q2.
    + (* CbScreenFlagReset *)
      repeat split; [exact Q1 | exact Hf | | cbn; rewrite Q3; auto].
      unfold idleTrace; cbn. now rewrite Q2.
  - repeat split; auto.
Qed.

(** The setting with no stale closure pending.  Start from a state where
    timeoutDisabled is true and nothing that could arm the idle deadline is
    pending.  Along every sequence of events
    that does not switch the setting off again, in every revision: the
    setting stays on, no idle timeout and no countdown interval is ever
    pending, the modal is not raised and none of the effects of the idle
    path (showing the modal, the countdown haptics that precede its
    safeLogout) is produced.  In the two revisions of SessionManager.tsx, a
    transition to Active in the resulting state, authenticated and with the
    flag not set, is nevertheless safeLogout. *)
Theorem timeout_disabled_quiet (rev : revision) (es : list event) (s : state)
    (Hd : timeoutDisabled s = true)
    (Hq : allCb quietCb s = true)
    (Hes : ~ In (EvSetTimeoutDisabled false) es) :
  timeoutDisabled (run rev es s) = true /\
  allCb quietCb (run rev es s) = true /\
  idleTrace (run rev es s) = idleTrace s /\
  (showModal (run rev es s) = true -> showModal s = true) /\
  resetIdleTimer (run rev es s) = run rev es s /\
  (rev <> RevIdleOnly ->
   isAuthenticated (run rev es s) = true ->
   photoFlag (run rev es s) = false ->
   onAppStateChange rev Active (run rev es s) = safeLogout (run rev es s)).
Proof.
  assert (Inv : timeoutDisabled (run rev es s) = true /\
                allCb quietCb (run rev es s) = true /\
                idleTrace (run rev es s) = idleTrace s /\
                (showModal (run rev es s) = true -> showModal s = true)).
  { revert s Hd Hq. unfold run.
    induction es as [|e es IH]; intros s Hd Hq; cbn [fold_left]; [auto|].
    assert (He : e <> EvSetTimeoutDisabled false)
      by (intros ->; apply Hes; now left).
    destruct (step_disabled rev e s Hd Hq He) as (S1 & S2 & S3 & S4).
    destruct (IH (fun H => Hes (or_intror H)) (step rev e s) S1 S2)
      as (I1 & I2 & I3 & I4).
    repeat split; auto. now rewrite I3. }
  destruct Inv as (I1 & I2 & I3 & I4).
  repeat split; auto.
  - now apply resetIdleTimer_disabled.
  - intros Hrev Ha Hf.
    destruct rev; [congruence | |]; unfold onAppStateChange;
      rewrite Ha; cbn; now rewrite Hf.
Qed.

Lemma timeout_disabled_quiet_witness :
  timeoutDisabled (setTimeoutDisabled true loggedIn) = true /\
  allCb quietCb (setTimeoutDisabled true loggedIn) = true /\
  allCb quietCb
    (run RevPhotoOp [EvPress; EvClock 500000; EvFire; EvAppState Background]
       (setTimeoutDisabled true loggedIn)) = true.
Proof.
  split; [reflexivity |]. split; [reflexivity |].
  refine (proj1 (proj2 (timeout_disabled_quiet RevPhotoOp
            [EvPress; EvClock 500000; EvFire; EvAppState Background]
            (setTimeoutDisabled true loggedIn) eq_refl eq_refl _))).
  cbn. intuition discriminate.
Defined.

(** *** The closure of "I'm Still Here" outlives the setting *)



(** ** Who clears authentication *)

Definition isClearAuth (cb : callback) : bool :=
  match cb with CbClearAuth => true | _ => false end.

(** Number of pending logout timeouts, that is of [safeLogout] calls whose
    0 ms timeout has not run yet. *)
Definition logoutsPending (s : state) : nat :=
  List.length (filter (fun t => isClearAuth (t_cb t)) (timers s)).

Lemma filter_filter_length_le {A} (f g : A -> bool) (l : list A) :
  (List.length (filter f (filter g l)) <= List.length (filter f l))%nat.
Proof.
  induction l as [|a l IH]; cbn; [lia|].
  destruct (g a), (f a) eqn:E; cbn; rewrite ?E; cbn; lia.
Qed.

Lemma logoutsPending_clearRef (r : option nat) (s : state) :
  (logoutsPending (clearRef r s) <= logoutsPending s)%nat.
Proof. destruct r; cbn; [apply filter_filter_length_le | lia]. Qed.

Lemma logoutsPending_setTimeout (cb : callback) (d : Z) (s : state) :
  logoutsPending (snd (setTimeout cb d s))
  = (logoutsPending s + if isClearAuth cb then 1 else 0)%nat.
Proof.
  unfold logoutsPending; cbn. rewrite filter_app, length_app; cbn.
  now destruct (isClearAuth cb).
Qed.

Lemma logoutsPending_ext (s s' : state) :
  timers s' = timers s -> logoutsPending s' = logoutsPending s.
Proof. unfold logoutsPending; now intros ->. Qed.

Lemma logoutsPending_onBackground (s : state) :
  (logoutsPending (onBackground s) <= logoutsPending s)%nat.
Proof.
  unfold onBackground, setShowModal, emit.
  erewrite logoutsPending_ext by reflexivity.
  etransitivity; [apply logoutsPending_clearRef|]. apply logoutsPending_clearRef.
Qed.

Lemma logoutsPending_resetIdleTimerWith (a d : bool) (s : state) :
  (logoutsPending (resetIdleTimerWith a d s) <= logoutsPending s)%nat.
Proof.
  unfold resetIdleTimerWith. destruct (negb a || d); [lia|].
  change (logoutsPending
            (snd (setTimeout CbIdleExpired IDLE_TIME (clearRef (idleTimer s) s)))
          <= logoutsPending s)%nat.
  rewrite logoutsPending_setTimeout; cbn [isClearAuth]. rewrite Nat.add_0_r.
  apply logoutsPending_clearRef.
Qed.

Lemma logoutsPending_sessionEffect (prev : bool) (s : state) :
  (logoutsPending (sessionEffect prev s) <= logoutsPending s)%nat.
Proof.
  unfold sessionEffect.
  set (s1 := if prev then _ else s).
  assert (H1 : (logoutsPending s1 <= logoutsPending s)%nat).
  { subst s1. destruct prev; [|lia].
    etransitivity; [apply logoutsPending_clearRef|]. apply logoutsPending_clearRef. }
  destruct (isAuthenticated s1); cbn [negb].
  - etransitivity; [apply logoutsPending_resetIdleTimerWith | exact H1].
  - etransitivity; [apply logoutsPending_clearRef|].
    etransitivity; [apply logoutsPending_clearRef | exact H1].
Qed.

Lemma logoutsPending_setAuthenticated (v : bool) (s : state) :
  (logoutsPending (setAuthenticated v s) <= logoutsPending s)%nat.
Proof.
  unfold setAuthenticated. destruct (Bool.eqb v (isAuthenticated s)).
  - apply Nat.le_refl.
  - apply (logoutsPending_sessionEffect _ (set_isAuthenticated v (emit _ s))).
Qed.

Lemma logoutsPending_fire_queue (t : timer) (s : state) :
  In t (timers s) ->
  (logoutsPending
     (match t_every t with
      | Some p =>
          set_timers
            (timers (clearTimer (t_id t) (set_now (Z.max (now s) (t_due t)) s))
             ++ [mkTimer (t_id t) (now (set_now (Z.max (now s) (t_due t)) s) + p)
                   (Some p) (t_cb t)])
            (clearTimer (t_id t) (set_now (Z.max (now s) (t_due t)) s))
      | None => clearTimer (t_id t) (set_now (Z.max (now s) (t_due t)) s)
      end) <= logoutsPending s)%nat.
Proof.
  intros Hin. unfold logoutsPending.
  assert (Hrm : (List.length (filter (fun u => isClearAuth (t_cb u))
                          (filter (keep_other (t_id t)) (timers s)))
                 + (if isClearAuth (t_cb t) then 1 else 0)
                 <= List.length (filter (fun u => isClearAuth (t_cb u)) (timers s)))%nat).
  { induction (timers s) as [|a l IH]; [destruct Hin|].
    destruct Hin as [->|Hin].
    - cbn. unfold keep_other at 1. rewrite Nat.eqb_refl; cbn.
      pose proof (filter_filter_length_le (fun u => isClearAuth (t_cb u))
                    (keep_other (t_id t)) l).
      destruct (isClearAuth (t_cb t)); cbn; lia.
    - specialize (IH Hin). cbn.
      destruct (keep_other (t_id t) a), (isClearAuth (t_cb a)) eqn:E;
        cbn; rewrite ?E; cbn; lia. }
  destruct (t_every t); cbn.
  - rewrite filter_app, length_app; cbn.
    destruct (isClearAuth (t_cb t)); cbn in *; lia.
  - lia.
Qed.

Ltac case_split :=
  repeat match goal with
         | |- context [match ?x with _ => _ end] => destruct x; cbn
         end.

Ltac frame_tac s :=
  break_state s; unfold clearRef, clearTimer; cbn; case_split; reflexivity.

Lemma resetIdleTimerWith_auth (a d : bool) (s : state) :
  isAuthenticated (resetIdleTimerWith a d s) = isAuthenticated s.
Proof. unfold resetIdleTimerWith. frame_tac s. Qed.

Lemma handleUserInteraction_auth (s : state) :
  isAuthenticated (handleUserInteraction s) = isAuthenticated s.
Proof. unfold handleUserInteraction, resetIdleTimer, resetIdleTimerWith. frame_tac s. Qed.

Lemma handleStay_auth (s : state) :
  isAuthenticated (handleStay s) = isAuthenticated s.
Proof. unfold handleStay. frame_tac s. Qed.

Lemma sessionEffect_auth (prev : bool) (s : state) :
  isAuthenticated (sessionEffect prev s) = isAuthenticated s.
Proof. unfold sessionEffect, resetIdleTimer, resetIdleTimerWith. frame_tac s. Qed.

Lemma setTimeoutDisabled_auth (v : bool) (s : state) :
  isAuthenticated (setTimeoutDisabled v s) = isAuthenticated s.
Proof.
  unfold setTimeoutDisabled. destruct (Bool.eqb v (timeoutDisabled s)); [reflexivity|].
  apply (sessionEffect_auth _ (set_timeoutDisabled v s)).
Qed.

Lemma onAppStateChange_auth (rev : revision) (st : appStatus) (s : state) :
  isAuthenticated (onAppStateChange rev st s) = isAuthenticated s.
Proof.
  unfold onAppStateChange, listenerIdleOnly, listenerScreenFlag, listenerPhotoOp,
    onBackground, safeLogout, resetIdleTimer, resetIdleTimerWith.
  destruct rev, st; frame_tac s.
Qed.

Lemma countdownTick_auth (s : state) :
  isAuthenticated (countdownTick s) = isAuthenticated s.
Proof. unfold countdownTick, safeLogout. frame_tac s. Qed.

Lemma idleExpired_auth (s : state) :
  isAuthenticated (idleExpired s) = isAuthenticated s.
Proof. reflexivity. Qed.

Lemma step_keeps_auth (rev : revision) (e : event) (s : state) :
  isAuthenticated (step rev e s) <> isAuthenticated s ->
  (exists v, e = EvSetAuthenticated v) \/
  (e = EvFire /\ exists t, earliest (timers s) = Some t /\ t_cb t = CbClearAuth).
Proof.
  destruct e as [st| | |v|v|v| | | | | |t]; cbn [step]; intros H.
  - now rewrite onAppStateChange_auth in H.
  - destruct rev; rewrite ?handleUserInteraction_auth in H; congruence.
  - now rewrite handleStay_auth in H.
  - left; now exists v.
  - now rewrite setTimeoutDisabled_auth in H.
  - destruct rev; cbn in H; congruence.
  - destruct rev; cbn in H; congruence.
  - destruct rev; cbn in H; congruence.
  - unfold pickImage in H; congruence.
  - unfold takePhoto in H; congruence.
  - right. split; [reflexivity|].
    unfold fireNext in H. destruct (earliest (timers s)) as [t|] eqn:E; [|congruence].
    exists t. split; [reflexivity|].
    unfold fire in H. cbv zeta in H.
    set (q := match t_every t with Some _ => _ | None => _ end) in *.
    assert (Eq : isAuthenticated q = isAuthenticated s)
      by (subst q; destruct (t_every t); reflexivity).
    destruct (t_cb t) as [| | | |a d|]; cbn [runCallback] in H;
      [ rewrite idleExpired_auth in H | rewrite countdownTick_auth in H
      | reflexivity | cbn in H | rewrite resetIdleTimerWith_auth in H | cbn in H ];
      congruence.
  - cbn in H; congruence.
Qed.

Lemma logoutsPending_step (rev : revision) (e : event) (s : state) :
  (logoutsPending s < logoutsPending (step rev e s))%nat ->
  (e = EvAppState Active /\ rev <> RevIdleOnly /\
   isAuthenticated s = true /\ photoFlag s = false)
  \/
  (e = EvFire /\ exists t, earliest (timers s) = Some t /\
                           t_cb t = CbCountdownTick /\ countdown s <= 1).
Proof.
  destruct e as [st| | |v|v|v| | | | | |t]; cbn [step]; intros H.
  - (* AppState *)
    destruct rev; cbn [onAppStateChange] in H.
    + destruct st; cbn [listenerIdleOnly] in H; try lia.
      pose proof (logoutsPending_resetIdleTimerWith
                    (isAuthenticated s) (timeoutDisabled s) s).
      unfold resetIdleTimer in H. lia.
    + destruct (isAuthenticated s) eqn:Ea; cbn [negb] in H; [|lia].
      destruct st; cbn [listenerScreenFlag] in H; try lia.
      * destruct (photoFlag s) eqn:Ef; [lia|]. left. repeat split; congruence.
      * pose proof (logoutsPending_onBackground s). lia.
    + destruct (isAuthenticated s) eqn:Ea; cbn [negb] in H; [|lia].
      destruct st; cbn [listenerPhotoOp] in H; try lia.
      * destruct (photoFlag s) eqn:Ef; [cbn in H; unfold logoutsPending in H; cbn in H; lia|].
        left. repeat split; congruence.
      * pose proof (logoutsPending_onBackground s). lia.
  - (* press *)
    assert (logoutsPending (handleUserInteraction s) <= logoutsPending s)%nat.
    { unfold handleUserInteraction.
      destruct (negb (isAuthenticated s) || timeoutDisabled s); [lia|].
      destruct (negb (showModal s)); [|lia].
      apply logoutsPending_resetIdleTimerWith. }
    destruct rev; lia.
  - (* stay *)
    unfold handleStay in H. rewrite logoutsPending_setTimeout in H.
    cbn [isClearAuth] in H.
    pose proof (logoutsPending_clearRef (countdownTimer (setShowModal false s))
                  (setShowModal false s)) as Hc.
    change (logoutsPending (setShowModal false s)) with (logoutsPending s) in Hc.
    lia.
  - pose proof (logoutsPending_setAuthenticated v s). lia.
  - unfold setTimeoutDisabled in H.
    destruct (Bool.eqb v (timeoutDisabled s)); [lia|].
    pose proof (logoutsPending_sessionEffect (isAuthenticated s) (set_timeoutDisabled v s)) as Hc.
    change (logoutsPending (set_timeoutDisabled v s)) with (logoutsPending s) in Hc.
    lia.
  - destruct rev; cbn in H; unfold logoutsPending in H; cbn in H; lia.
  - destruct rev; cbn in H; unfold logoutsPending in H; cbn in H; lia.
  - destruct rev; try lia. unfold screenUnmount in H.
    rewrite logoutsPending_setTimeout in H. cbn in H. lia.
  - unfold pickImage in H. lia.
  - unfold takePhoto in H. lia.
  - (* the event loop *)
    unfold fireNext in H. destruct (earliest (timers s)) as [t|] eqn:E; [|lia].
    pose proof (logoutsPending_fire_queue t s (earliest_In _ _ E)) as Hq.
    unfold fire in H. cbv zeta in H.
    set (q := match t_every t with Some _ => _ | None => _ end) in *.
    assert (Ec : countdown q = countdown s)
      by (subst q; destruct (t_every t); reflexivity).
    destruct (t_cb t) as [| | | |a d|] eqn:Ecb; cbn [runCallback] in H.
    + unfold idleExpired, startCountdown, setShowModal, emit, logoutsPending in H.
      cbn in H. rewrite filter_app, length_app in H. cbn in H.
      unfold logoutsPending in Hq. lia.
    + right. split; [reflexivity|]. exists t. repeat split; auto.
      rewrite <- Ec. unfold countdownTick in H.
      destruct (countdown q <=? 1) eqn:El; [lia|].
      exfalso.
      destruct (countdown q =? 2); unfold logoutsPending in H, Hq; cbn in H; lia.
    + rewrite logoutsPending_setTimeout in H. cbn [isClearAuth] in H.
      pose proof (logoutsPending_setAuthenticated false q). lia.
    + unfold logoutsPending in H, Hq; cbn in H; lia.
    + pose proof (logoutsPending_resetIdleTimerWith a d q). lia.
    + unfold logoutsPending in H, Hq; cbn in H; lia.
  - unfold logoutsPending in H; cbn in H; lia.
Qed.

Lemma onBackground_frame (s : state) :
  isAuthenticated (onBackground s) = isAuthenticated s /\
  photoFlag (onBackground s) = photoFlag s /\
  timeoutDisabled (onBackground s) = timeoutDisabled s /\
  countdown (onBackground s) = countdown s /\
  idleTimer (onBackground s) = idleTimer s /\
  countdownTimer (onBackground s) = countdownTimer s /\
  now (onBackground s) = now s /\
  nextId (onBackground s) = nextId s /\
  trace (onBackground s) = trace s ++ [FxShowModal false].
Proof.
  unfold onBackground, setShowModal, emit; cbn.
  autorewrite with frame. repeat split; reflexivity.
Qed.

(** C10.  In every revision, delivering Background leaves
    [isAuthenticated], the photo flag, [timeoutDisabled], the counter, both
    refs and the clock as they were; it writes the timer queue and the modal
    visibility only (logged as one setShowModal(false), or nothing at all
    when no branch handles the value).  In any state, a step that turns
    [isAuthenticated] from true to false is either a direct
    setAuthenticated(false) or the run of safeLogout's 0 ms timeout; and a
    step that adds such a pending timeout is either a transition to Active
    with the session authenticated and the flag not set, or a countdown tick
    that finds the counter at 1 or below. *)
Theorem C10_background_never_deauthenticates (rev : revision) (s : state) :
  (isAuthenticated (onAppStateChange rev Background s) = isAuthenticated s /\
   photoFlag (onAppStateChange rev Background s) = photoFlag s /\
   timeoutDisabled (onAppStateChange rev Background s) = timeoutDisabled s /\
   countdown (onAppStateChange rev Background s) = countdown s /\
   idleTimer (onAppStateChange rev Background s) = idleTimer s /\
   countdownTimer (onAppStateChange rev Background s) = countdownTimer s /\
   now (onAppStateChange rev Background s) = now s /\
   nextId (onAppStateChange rev Background s) = nextId s /\
   (trace (onAppStateChange rev Background s) = trace s \/
    trace (onAppStateChange rev Background s) = trace s ++ [FxShowModal false]))
  /\
  (forall e : event,
     isAuthenticated s = true -> isAuthenticated (step rev e s) = false ->
     e = EvSetAuthenticated false \/
     (e = EvFire /\
      exists t, earliest (timers s) = Some t /\ t_cb t = CbClearAuth))
  /\
  (forall e : event,
     (logoutsPending s < logoutsPending (step rev e s))%nat ->
     (e = EvAppState Active /\ rev <> RevIdleOnly /\
      isAuthenticated s = true /\ photoFlag s = false)
     \/
     (e = EvFire /\
      exists t, earliest (timers s) = Some t /\
                t_cb t = CbCountdownTick /\ countdown s <= 1)).
Proof.
  split; [|split].
  - destruct (onBackground_frame s) as (F1 & F2 & F3 & F4 & F5 & F6 & F7 & F8 & F9).
    destruct rev; unfold onAppStateChange; cbn [listenerIdleOnly].
    + repeat split; auto.
    + destruct (isAuthenticated s) eqn:Ea; cbn [negb listenerScreenFlag];
        repeat split; auto.
    + destruct (isAuthenticated s) eqn:Ea; cbn [negb listenerPhotoOp];
        repeat split; auto.
  - intros e Ha Hb.
    destruct (step_keeps_auth rev e s) as [[v ->]|H]; [congruence | | exact (or_intror H)].
    left. destruct v; [|reflexivity].
    exfalso. cbn [step] in Hb. unfold setAuthenticated in Hb.
    rewrite Ha in Hb. cbn in Hb. congruence.
  - intros e. apply logoutsPending_step.
Qed.

Lemma C10_background_never_deauthenticates_witness :
  isAuthenticated loggedIn = true /\
  isAuthenticated (onAppStateChange RevScreenFlag Background loggedIn) = true.
Proof.
  split; [reflexivity |].
  exact (proj1 (proj1 (C10_background_never_deauthenticates RevScreenFlag loggedIn))).
Defined.

(** ** Who writes the photo flag *)




Section FlagFrame.



Lemma sessionEffect_flag (prev : bool) (s : state) :
    photoFlag (sessionEffect prev s) = photoFlag s.
  Proof. unfold sessionEffect, resetIdleTimer, resetIdleTimerWith. frame_tac s. Qed.





End FlagFrame.





(** ** The order of a forced logout *)

(** What a trace has shown so far: a setShowModal(false); a
    setAuthenticated(false) that came after one; and whether every
    navigation came after such a setAuthenticated(false). *)
Record seen : Type := mkSeen { hid : bool; cleared : bool; ordered : bool }.

Definition seqStep (st : seen) (e : effect) : seen :=
  match e with
  | FxShowModal false => mkSeen true (cleared st) (ordered st)
  | FxSetAuthenticated false => mkSeen (hid st) (cleared st || hid st) (ordered st)
  | FxNavigate _ => mkSeen (hid st) (cleared st) (ordered st && cleared st)
  | _ => st
  end.

Definition scan (tr : list effect) : seen :=
  fold_left seqStep tr (mkSeen false false true).

(** A pending logout timeout must have been preceded by hiding the modal, a
    pending navigation by clearing authentication after that. *)
Definition seqCb (tr : list effect) (cb : callback) : bool :=
  match cb with
  | CbClearAuth => hid (scan tr)
  | CbNavigatePin => cleared (scan tr)
  | _ => true
  end.

Definition seqOK (s : state) : bool :=
  ordered (scan (trace s)) && allCb (seqCb (trace s)) s.

Lemma scan_snoc (tr : list effect) (e : effect) :
  scan (tr ++ [e]) = seqStep (scan tr) e.
Proof. unfold scan. now rewrite fold_left_app. Qed.

Lemma seqCb_mono (tr : list effect) (e : effect) (cb : callback) :
  seqCb tr cb = true -> seqCb (tr ++ [e]) cb = true.
Proof.
  unfold seqCb. rewrite scan_snoc.
  destruct cb; auto; destruct e as [[]|[]| | | |]; cbn; auto.
  intros ->. reflexivity.
Qed.

Lemma allCb_mono (P Q : callback -> bool) (s : state) :
  (forall cb, P cb = true -> Q cb = true) ->
  allCb P s = true -> allCb Q s = true.
Proof.
  intros HPQ. unfold allCb. rewrite !forallb_forall. auto.
Qed.

Definition isNavigate (e : effect) : bool :=
  match e with FxNavigate _ => true | _ => false end.

Lemma seqOK_emit (e : effect) (s : state) :
  isNavigate e = false -> seqOK s = true -> seqOK (emit e s) = true.
Proof.
  unfold seqOK. intros He H. apply andb_true_iff in H as [Ho Hq].
  apply andb_true_iff. split.
  - change (trace (emit e s)) with (trace s ++ [e]). rewrite scan_snoc.
    destruct e as [[]|[]| | | |]; cbn; auto; discriminate.
  - apply (allCb_mono (seqCb (trace s))); [apply seqCb_mono|exact Hq].
Qed.

Lemma seqOK_ext (s s' : state) :
  trace s' = trace s -> timers s' = timers s -> seqOK s' = seqOK s.
Proof. unfold seqOK, allCb. now intros -> ->. Qed.

Lemma seqOK_clearRef (r : option nat) (s : state) :
  seqOK s = true -> seqOK (clearRef r s) = true.
Proof.
  unfold seqOK. rewrite clearRef_trace. intros H.
  apply andb_true_iff in H as [Ho Hq]. rewrite Ho; cbn.
  now apply allCb_clearRef.
Qed.

Lemma seqOK_setTimeout (cb : callback) (d : Z) (s : state) :
  seqOK s = true -> seqCb (trace s) cb = true ->
  seqOK (snd (setTimeout cb d s)) = true.
Proof.
  unfold seqOK. intros H Hc. apply andb_true_iff in H as [Ho Hq].
  cbn [snd setTimeout]. change (trace (set_nextId _ _)) with (trace s).
  rewrite Ho; cbn [andb]. now apply (allCb_setTimeout _ cb d s).
Qed.

Lemma seqOK_setInterval (cb : callback) (d : Z) (s : state) :
  seqOK s = true -> seqCb (trace s) cb = true ->
  seqOK (snd (setInterval cb d s)) = true.
Proof.
  unfold seqOK. intros H Hc. apply andb_true_iff in H as [Ho Hq].
  cbn [snd setInterval]. change (trace (set_nextId _ _)) with (trace s).
  rewrite Ho; cbn [andb]. now apply (allCb_setInterval _ cb d s).
Qed.

Lemma hid_after_hide (s : state) :
  hid (scan (trace (setShowModal false s))) = true.
Proof.
  change (trace (setShowModal false s)) with (trace s ++ [FxShowModal false]).
  now rewrite scan_snoc.
Qed.

Lemma seqOK_setShowModal (v : bool) (s : state) :
  seqOK s = true -> seqOK (setShowModal v s) = true.
Proof.
  intros H. unfold setShowModal.
  apply seqOK_emit; [reflexivity|].
  now rewrite (seqOK_ext s) by reflexivity.
Qed.

Lemma seqOK_safeLogout (s : state) :
  seqOK s = true -> seqOK (safeLogout s) = true.
Proof.
  intros H. unfold safeLogout.
  apply seqOK_setTimeout; [now apply seqOK_setShowModal|].
  apply hid_after_hide.
Qed.

Lemma seqOK_resetIdleTimerWith (a d : bool) (s : state) :
  seqOK s = true -> seqOK (resetIdleTimerWith a d s) = true.
Proof.
  intros H. unfold resetIdleTimerWith. destruct (negb a || d); [exact H|].
  change (seqOK (set_idleTimer (Some (nextId (clearRef (idleTimer s) s)))
                   (snd (setTimeout CbIdleExpired IDLE_TIME (clearRef (idleTimer s) s))))
          = true).
  erewrite seqOK_ext by reflexivity.
  apply seqOK_setTimeout; [now apply seqOK_clearRef | reflexivity].
Qed.

Lemma seqOK_sessionEffect (prev : bool) (s : state) :
  seqOK s = true -> seqOK (sessionEffect prev s) = true.
Proof.
  intros H. unfold sessionEffect.
  set (s1 := if prev then _ else s).
  assert (H1 : seqOK s1 = true)
    by (subst s1; destruct prev; auto; now apply seqOK_clearRef, seqOK_clearRef).
  destruct (isAuthenticated s1); cbn [negb].
  - now apply seqOK_resetIdleTimerWith.
  - now apply seqOK_clearRef, seqOK_clearRef.
Qed.

Lemma seqOK_setAuthenticated (v : bool) (s : state) :
  seqOK s = true -> seqOK (setAuthenticated v s) = true.
Proof.
  intros H. unfold setAuthenticated.
  assert (He : seqOK (emit (FxSetAuthenticated v) s) = true)
    by (apply seqOK_emit; [reflexivity | exact H]).
  destruct (Bool.eqb v (isAuthenticated s)); [exact He|].
  apply seqOK_sessionEffect.
  now rewrite (seqOK_ext (emit (FxSetAuthenticated v) s)) by reflexivity.
Qed.

Lemma seqOK_onBackground (s : state) :
  seqOK s = true -> seqOK (onBackground s) = true.
Proof.
  intros H. unfold onBackground.
  now apply seqOK_setShowModal, seqOK_clearRef, seqOK_clearRef.
Qed.

Lemma seqOK_countdownTick (s : state) :
  seqOK s = true -> seqOK (countdownTick s) = true.
Proof.
  intros H. unfold countdownTick.
  assert (H1 : seqOK (if countdown s =? 2 then emit FxHapticImpact s else s) = true)
    by (destruct (countdown s =? 2); [apply seqOK_emit|]; auto).
  set (s1 := if countdown s =? 2 then _ else s) in *.
  erewrite seqOK_ext by reflexivity.
  destruct (countdown s <=? 1); [|exact H1].
  apply seqOK_safeLogout, seqOK_emit; [reflexivity|].
  now apply seqOK_clearRef.
Qed.

Lemma seqOK_idleExpired (s : state) :
  seqOK s = true -> seqOK (idleExpired s) = true.
Proof.
  intros H. unfold idleExpired, startCountdown.
  change (seqOK (set_countdownTimer (Some (nextId s))
            (snd (setInterval CbCountdownTick 1000
                    (set_countdown COUNTDOWN_SECONDS (setShowModal true s))))) = true).
  erewrite seqOK_ext by reflexivity.
  apply seqOK_setInterval; [|reflexivity].
  erewrite seqOK_ext by reflexivity.
  now apply (seqOK_setShowModal true).
Qed.

Lemma sessionEffect_trace (prev : bool) (s : state) :
  trace (sessionEffect prev s) = trace s.
Proof. unfold sessionEffect, resetIdleTimer, resetIdleTimerWith. frame_tac s. Qed.

Lemma setAuthenticated_trace (v : bool) (s : state) :
  trace (setAuthenticated v s) = trace s ++ [FxSetAuthenticated v].
Proof.
  unfold setAuthenticated. destruct (Bool.eqb v (isAuthenticated s)); [reflexivity|].
  apply (sessionEffect_trace _ (set_isAuthenticated v (emit _ s))).
Qed.

Lemma seqOK_step (rev : revision) (e : event) (s : state) :
  seqOK s = true -> seqOK (step rev e s) = true.
Proof.
  intros H.
  destruct e as [st| | |v|v|v| | | | | |t]; cbn [step].
  - destruct rev; unfold onAppStateChange.
    + destruct st; cbn [listenerIdleOnly]; auto.
      now apply seqOK_resetIdleTimerWith.
    + destruct (isAuthenticated s); cbn [negb]; auto.
      destruct st; cbn [listenerScreenFlag]; auto using seqOK_onBackground.
      destruct (photoFlag s); auto using seqOK_safeLogout.
    + destruct (isAuthenticated s); cbn [negb]; auto.
      destruct st; cbn [listenerPhotoOp]; auto using seqOK_onBackground.
      destruct (photoFlag s); auto using seqOK_safeLogout.
  - assert (seqOK (handleUserInteraction s) = true).
    { unfold handleUserInteraction.
      destruct (negb (isAuthenticated s) || timeoutDisabled s); auto.
      destruct (negb (showModal s)); auto.
      now apply seqOK_resetIdleTimerWith. }
    destruct rev; auto.
  - unfold handleStay. apply seqOK_setTimeout; [|reflexivity].
    now apply seqOK_clearRef, seqOK_setShowModal.
  - now apply seqOK_setAuthenticated.
  - unfold setTimeoutDisabled.
    destruct (Bool.eqb v (timeoutDisabled s)); auto.
    apply seqOK_sessionEffect. now rewrite (seqOK_ext s) by reflexivity.
  - destruct rev; auto.
  - destruct rev; auto.
  - destruct rev; auto. unfold screenUnmount. now apply seqOK_setTimeout.
  - exact H.
  - exact H.
  - unfold fireNext. destruct (earliest (timers s)) as [t|] eqn:E; [|exact H].
    pose proof H as H0. unfold seqOK in H0.
    apply andb_true_iff in H0 as [Ho Hq].
    pose proof (allCb_earliest _ s t Hq E) as Ht.
    pose proof (allCb_fire_queue _ t s Hq Ht) as Hf.
    unfold fire. cbv zeta.
    set (q := match t_every t with Some _ => _ | None => _ end) in *.
    assert (Etr : trace q = trace s) by (subst q; destruct (t_every t); reflexivity).
    assert (Hqok : seqOK q = true)
      by (unfold seqOK; rewrite Etr, Ho; exact Hf).
    destruct (t_cb t) as [| | | |a d|]; cbn [runCallback].
    + now apply seqOK_idleExpired.
    + now apply seqOK_countdownTick.
    + apply seqOK_setTimeout; [now apply seqOK_setAuthenticated|].
      rewrite setAuthenticated_trace, Etr. unfold seqCb. rewrite scan_snoc.
      cbn in Ht |- *. rewrite Ht. apply orb_true_r.
    + unfold seqOK. apply andb_true_iff. split.
      * change (trace (emit (FxNavigate "Pin") q)) with (trace q ++ [FxNavigate "Pin"]).
        rewrite scan_snoc, Etr. cbn in Ht |- *. now rewrite Ho, Ht.
      * apply (allCb_mono (seqCb (trace q))); [apply seqCb_mono|].
        now rewrite Etr.
    + now apply seqOK_resetIdleTimerWith.
    + exact Hqok.
  - exact H.
Qed.

Lemma seqOK_run (rev : revision) (es : list event) (s : state) :
  seqOK s = true -> seqOK (run rev es s) = true.
Proof.
  revert s. unfold run. induction es as [|e es IH]; intros s H; cbn; auto.
  apply IH. now apply seqOK_step.
Qed.

(** What the three flags of [scan] mean on a trace. *)
Lemma scan_hid_split (tr : list effect) :
  hid (scan tr) = true -> exists p1 p2, tr = p1 ++ FxShowModal false :: p2.
Proof.
  induction tr as [|e l IH] using rev_ind; [discriminate|].
  rewrite scan_snoc. intros H.
  assert (Hl : hid (scan l) = true -> exists p1 p2, l ++ [e] = p1 ++ FxShowModal false :: p2).
  { intros Hh. destruct (IH Hh) as (p1 & p2 & ->).
    exists p1, (p2 ++ [e]). now rewrite <- app_assoc. }
  destruct e as [[]|[]| | | |]; cbn in H; auto.
  exists l, []. reflexivity.
Qed.

Lemma scan_cleared_split (tr : list effect) :
  cleared (scan tr) = true ->
  exists p1 p2 p3,
    tr = p1 ++ FxShowModal false :: p2 ++ FxSetAuthenticated false :: p3.
Proof.
  induction tr as [|e l IH] using rev_ind; [discriminate|].
  rewrite scan_snoc. intros H.
  assert (Hl : cleared (scan l) = true ->
               exists p1 p2 p3,
                 l ++ [e] = p1 ++ FxShowModal false :: p2 ++ FxSetAuthenticated false :: p3).
  { intros Hc. destruct (IH Hc) as (p1 & p2 & p3 & ->).
    exists p1, p2, (p3 ++ [e]).
    rewrite <- app_assoc. cbn. now rewrite <- app_assoc. }
  destruct e as [[]|[]| | | |]; cbn in H; auto.
  apply orb_true_iff in H as [H|H]; [auto|].
  destruct (scan_hid_split l H) as (p1 & p2 & ->).
  exists p1, p2, []. rewrite <- app_assoc. reflexivity.
Qed.

Lemma ordered_fold_antitone (post : list effect) (st : seen) :
  ordered (fold_left seqStep post st) = true -> ordered st = true.
Proof.
  revert st. induction post as [|e post IH]; intros st H; [exact H|].
  cbn in H. apply IH in H.
  destruct e as [[]|[]| | | |]; cbn in H; auto.
  now apply andb_true_iff in H as [H _].
Qed.

Lemma scan_ordered_navigate (pre post : list effect) (r : string) :
  ordered (scan (pre ++ FxNavigate r :: post)) = true ->
  exists p1 p2 p3,
    pre = p1 ++ FxShowModal false :: p2 ++ FxSetAuthenticated false :: p3.
Proof.
  unfold scan. rewrite fold_left_app. cbn [fold_left]. intros H.
  apply ordered_fold_antitone in H. cbn in H.
  apply andb_true_iff in H as [_ H].
  now apply scan_cleared_split.
Qed.

(** ** Running the event loop on a queue of one timer *)

Lemma runUntil_fire (f : nat) (dl : Z) (s : state) (t : timer) :
  earliest (timers s) = Some t -> t_due t <= dl ->
  runUntil (S f) dl s = runUntil f dl (fire t s).
Proof.
  intros E H. cbn [runUntil]. rewrite E.
  apply Z.leb_le in H. now rewrite H.
Qed.

Lemma runUntil_nothing_due (f : nat) (dl : Z) (s : state) :
  match earliest (timers s) with
  | Some t => dl < t_due t
  | None => True
  end ->
  runUntil f dl s = Some (set_now (Z.max (now s) dl) s).
Proof.
  intros H. destruct f; cbn [runUntil];
    destruct (earliest (timers s)) as [t|]; auto;
    apply Z.leb_gt in H; now rewrite H.
Qed.

Ltac unfold_model :=
  cbv [fire runCallback idleExpired startCountdown safeLogout
       setShowModal emit setTimeout setInterval clearTimer clearRef
       resetIdleTimerWith resetIdleTimer setAuthenticated sessionEffect
       handleStay handleUserInteraction setIsPhotoOperationScreen
       set_now set_nextId set_timers set_isAuthenticated set_timeoutDisabled
       set_showModal set_countdown set_idleTimer set_countdownTimer
       set_photoFlag set_trace
       now nextId timers isAuthenticated timeoutDisabled showModal countdown
       idleTimer countdownTimer photoFlag trace
       t_id t_due t_every t_cb
       filter keep_other negb orb andb Bool.eqb fst snd].

Ltac one_timer :=
  repeat (unfold_model; rewrite ?Nat.eqb_refl; cbn [app]);
  rewrite ?Z.max_r by lia; try reflexivity.

Section OneTimer.
Variables (nw : Z) (nid : nat) (au td sm : bool) (cd : Z)
            (it ct : option nat) (pf : bool) (tr : list effect).
Variables (id : nat) (T : Z).
Hypothesis HT : nw <= T.

Let st (ts : list timer) : state := mkState nw nid ts au td sm cd it ct pf tr.

Lemma fire_idle_timer :
    fire (mkTimer id T None CbIdleExpired)
         (st [mkTimer id T None CbIdleExpired])
    = mkState T (S nid) [mkTimer nid (T + 1000) (Some 1000) CbCountdownTick]
        au td true COUNTDOWN_SECONDS it (Some nid) pf (tr ++ [FxShowModal true]).
  Proof. unfold st. one_timer. Qed.

Lemma fire_tick_running :
    1 < cd ->
    fire (mkTimer id T (Some 1000) CbCountdownTick)
         (st [mkTimer id T (Some 1000) CbCountdownTick])
    = mkState T nid [mkTimer id (T + 1000) (Some 1000) CbCountdownTick]
        au td sm (cd - 1) it ct pf
        (if cd =? 2 then tr ++ [FxHapticImpact] else tr).
  Proof.
    intros Hc. unfold st. one_timer. unfold countdownTick. one_timer.
    rewrite (proj2 (Z.leb_gt cd 1)) by lia.
    destruct (cd =? 2); reflexivity.
  Qed.

Lemma fire_tick_expiry :
    cd <= 1 -> ct = Some id ->
    fire (mkTimer id T (Some 1000) CbCountdownTick)
         (st [mkTimer id T (Some 1000) CbCountdownTick])
    = mkState T (S nid) [mkTimer nid (T + 0) None CbClearAuth]
        au td false (cd - 1) it ct pf
        ((tr ++ [FxHapticError]) ++ [FxShowModal false]).
  Proof.
    intros Hc Hct. unfold st. one_timer. unfold countdownTick. one_timer.
    rewrite (proj2 (Z.leb_le cd 1)) by lia.
    rewrite (proj2 (Z.eqb_neq cd 2)) by lia.
    subst ct. one_timer.
  Qed.

Lemma fire_clearAuth_timer :
    fire (mkTimer id T None CbClearAuth) (st [mkTimer id T None CbClearAuth])
    = mkState T (S nid) [mkTimer nid (T + 150) None CbNavigatePin]
        false td sm cd it ct pf (tr ++ [FxSetAuthenticated false]).
  Proof. unfold st. destruct au, it, ct; one_timer. Qed.

Lemma fire_navigate_timer :
    fire (mkTimer id T None CbNavigatePin) (st [mkTimer id T None CbNavigatePin])
    = mkState T nid [] au td sm cd it ct pf (tr ++ [FxNavigate "Pin"]).
  Proof. unfold st. one_timer. Qed.

Lemma fire_stay_timer :
    fire (mkTimer id T None (CbStayReset true false))
         (st [mkTimer id T None (CbStayReset true false)])
    = mkState T (S nid) [mkTimer nid (T + IDLE_TIME) None CbIdleExpired]
        au td sm cd (Some nid) ct pf tr.
  Proof. unfold st. destruct it; one_timer. Qed.
End OneTimer.

Lemma setAuthenticated_false_frame (s : state) :
  isAuthenticated (setAuthenticated false s) = false /\
  nextId (setAuthenticated false s) = nextId s /\
  now (setAuthenticated false s) = now s /\
  showModal (setAuthenticated false s) = showModal s.
Proof.
  unfold setAuthenticated, sessionEffect.
  break_state s. destruct au, it, ct; cbn; auto.
Qed.

(** C6.  For every state: (1) safeLogout itself hides the modal, logs only
    that, leaves [isAuthenticated] as it is and queues the 0 ms timeout;
    (2) the body of that timeout, whenever the event loop runs it, sets
    [isAuthenticated] to false and only then queues the navigation, 150 ms
    later, without navigating itself; (3) the body of the second timeout
    navigates to "Pin".  (4) With no other timer pending, running the event
    loop after safeLogout clears authentication in the first turn and
    navigates in the second, the trace growing by exactly setShowModal(false),
    setAuthenticated(false), navigate("Pin") in that order.  (5) Along any
    sequence of events, in any revision, every navigation in the trace is
    preceded by a setAuthenticated(false) that is itself preceded by a
    setShowModal(false). *)
Theorem C6_forced_logout_sequence (s : state) :
  (showModal (safeLogout s) = false /\
   trace (safeLogout s) = trace s ++ [FxShowModal false] /\
   isAuthenticated (safeLogout s) = isAuthenticated s /\
   timers (safeLogout s)
     = timers s ++ [mkTimer (nextId s) (now s + 0) None CbClearAuth])
  /\
  (isAuthenticated (runCallback CbClearAuth s) = false /\
   trace (runCallback CbClearAuth s) = trace s ++ [FxSetAuthenticated false] /\
   exists q,
     timers (runCallback CbClearAuth s)
       = q ++ [mkTimer (nextId s) (now s + 150) None CbNavigatePin])
  /\
  trace (runCallback CbNavigatePin s) = trace s ++ [FxNavigate "Pin"]
  /\
  (timers s = [] ->
   exists s1 s2,
     runUntil 1 (now s) (safeLogout s) = Some s1 /\
     isAuthenticated s1 = false /\
     trace s1 = trace s ++ [FxShowModal false; FxSetAuthenticated false] /\
     timers s1 = [mkTimer (S (nextId s)) (now s + 150) None CbNavigatePin] /\
     runUntil 2 (now s + 150) (safeLogout s) = Some s2 /\
     isAuthenticated s2 = false /\
     showModal s2 = false /\
     timers s2 = [] /\
     trace s2 = trace s ++ [FxShowModal false; FxSetAuthenticated false;
                            FxNavigate "Pin"])
  /\
  (seqOK s = true ->
   forall (rev : revision) (es : list event) (pre post : list effect) (r : string),
     trace (run rev es s) = pre ++ FxNavigate r :: post ->
     exists p1 p2 p3,
       pre = p1 ++ FxShowModal false :: p2 ++ FxSetAuthenticated false :: p3).
Proof.
  split; [|split; [|split; [|split]]].
  - repeat split; reflexivity.
  - destruct (setAuthenticated_false_frame s) as (F1 & F2 & F3 & _).
    cbn [runCallback]. repeat split.
    + exact F1.
    + apply setAuthenticated_trace.
    + exists (timers (setAuthenticated false s)).
      unfold setTimeout; cbn. now rewrite F2, F3.
  - reflexivity.
  - intros Ht. destruct s as [nw nid ts au td sm cd it ct pf tr].
    cbn in Ht. subst ts. cbn [now nextId trace].
    assert (E1 : fire (mkTimer nid (nw + 0) None CbClearAuth)
                   (safeLogout (mkState nw nid [] au td sm cd it ct pf tr))
                 = mkState nw (S (S nid))
                     [mkTimer (S nid) (nw + 150) None CbNavigatePin]
                     false td false cd it ct pf
                     ((tr ++ [FxShowModal false]) ++ [FxSetAuthenticated false])).
    { change (safeLogout (mkState nw nid [] au td sm cd it ct pf tr))
        with (mkState nw (S nid) [mkTimer nid (nw + 0) None CbClearAuth]
                au td false cd it ct pf (tr ++ [FxShowModal false])).
      rewrite fire_clearAuth_timer by lia.
      now rewrite Z.add_0_r. }
    eexists. eexists.
    split.
    { rewrite (runUntil_fire 0 nw _ (mkTimer nid (nw + 0) None CbClearAuth));
        [| reflexivity | cbn; lia].
      rewrite E1. apply runUntil_nothing_due. cbn. lia. }
    cbn [isAuthenticated trace timers set_now].
    rewrite <- app_assoc.
    split; [reflexivity|]. split; [reflexivity|]. split; [reflexivity|].
    split.
    { rewrite (runUntil_fire 1 (nw + 150) _ (mkTimer nid (nw + 0) None CbClearAuth));
        [| reflexivity | cbn; lia].
      rewrite E1.
      rewrite (runUntil_fire 0 _ _ (mkTimer (S nid) (nw + 150) None CbNavigatePin));
        [| reflexivity | cbn; lia].
      rewrite fire_navigate_timer by lia.
      apply runUntil_nothing_due. exact I. }
    cbn [isAuthenticated showModal trace timers set_now].
    rewrite <- !app_assoc. repeat split; reflexivity.
  - intros Hs rev es pre post r Htr.
    pose proof (seqOK_run rev es s Hs) as H.
    unfold seqOK in H. apply andb_true_iff in H as [Ho _].
    rewrite Htr in Ho. now apply scan_ordered_navigate in Ho.
Qed.

Lemma C6_forced_logout_sequence_witness :
  timers (onAppStateChange RevPhotoOp Background loggedIn) = [] /\
  exists s2,
    runUntil 2 (now (onAppStateChange RevPhotoOp Background loggedIn) + 150)
      (safeLogout (onAppStateChange RevPhotoOp Background loggedIn)) = Some s2 /\
    isAuthenticated s2 = false.
Proof.
  split; [reflexivity |].
  destruct (proj1 (proj2 (proj2 (proj2
              (C6_forced_logout_sequence
                 (onAppStateChange RevPhotoOp Background loggedIn))))) eq_refl)
    as (s1 & s2 & _ & _ & _ & _ & H & Ha & _).
  exists s2. split; [exact H | exact Ha].
Defined.

(** ** The idle deadline *)

(** The session as it is while unlocked with the idle deadline armed: the
    only pending timer is the idle timeout [id], due at [T]. *)
Definition unlockedAt (nw : Z) (nid : nat) (cd : Z) (ct : option nat)
    (pf : bool) (tr : list effect) (id : nat) (T : Z) : state :=
  mkState nw nid [mkTimer id T None CbIdleExpired]
          true false false cd (Some id) ct pf tr.

(** Presses on the wrapper, each [g] milliseconds after the previous event;
    in between the event loop runs whatever is due. *)
Fixpoint pressEvery (fuel : nat) (gaps : list Z) (s : state) : option state :=
  match gaps with
  | [] => Some s
  | g :: rest =>
      match elapse fuel g s with
      | Some s1 => pressEvery fuel rest (handleUserInteraction s1)
      | None => None
      end
  end.

Section Unlocked.
Variables (cd : Z) (ct : option nat) (pf : bool) (tr : list effect).

Lemma wait_before_deadline (nw : Z) (nid id : nat) (T : Z) (f : nat) (t : Z) :
    nw <= t < T ->
    runUntil f t (unlockedAt nw nid cd ct pf tr id T)
    = Some (unlockedAt t nid cd ct pf tr id T).
  Proof.
    intros Ht. rewrite runUntil_nothing_due by (cbn; lia).
    unfold unlockedAt, set_now; cbn. now rewrite Z.max_r by lia.
  Qed.

Lemma press_rearms (nw : Z) (nid id : nat) (T : Z) :
    handleUserInteraction (unlockedAt nw nid cd ct pf tr id T)
    = unlockedAt nw (S nid) cd ct pf tr nid (nw + IDLE_TIME).
  Proof. unfold unlockedAt. one_timer. Qed.

Lemma expiry_starts_countdown (nw : Z) (nid id : nat) (T : Z) :
    nw <= T ->
    fire (mkTimer id T None CbIdleExpired) (unlockedAt nw nid cd ct pf tr id T)
    = mkState T (S nid) [mkTimer nid (T + 1000) (Some 1000) CbCountdownTick]
        true false true COUNTDOWN_SECONDS (Some id) (Some nid) pf
        (tr ++ [FxShowModal true]).
  Proof. intros H. unfold unlockedAt. now rewrite fire_idle_timer. Qed.

Lemma pressEvery_keeps_unlocked (f : nat) (gaps : list Z) :
    Forall (fun g => 0 <= g < IDLE_TIME) gaps ->
    forall (nw : Z) (nid id : nat),
    exists nw' nid' id',
      pressEvery f gaps (unlockedAt nw nid cd ct pf tr id (nw + IDLE_TIME))
      = Some (unlockedAt nw' nid' cd ct pf tr id' (nw' + IDLE_TIME)).
  Proof.
    induction 1 as [|g gaps Hg _ IH]; intros nw nid id; cbn [pressEvery].
    - now exists nw, nid, id.
    - unfold elapse. change (now (unlockedAt nw nid cd ct pf tr id (nw + IDLE_TIME))) with nw.
      rewrite wait_before_deadline by lia.
      rewrite press_rearms. apply IH.
  Qed.
End Unlocked.

Lemma unlockedAt_eta (s : state) (id : nat) (T : Z) :
  isAuthenticated s = true -> timeoutDisabled s = false -> showModal s = false ->
  timers s = [mkTimer id T None CbIdleExpired] -> idleTimer s = Some id ->
  s = unlockedAt (now s) (nextId s) (countdown s) (countdownTimer s)
        (photoFlag s) (trace s) id T.
Proof.
  destruct s as [nw nid ts au td sm cd it ct pf tr]; cbn.
  now intros -> -> -> -> ->.
Qed.

Lemma handleUserInteraction_modal (s : state) :
  showModal s = true -> handleUserInteraction s = s.
Proof.
  intros H. unfold handleUserInteraction. rewrite H.
  now destruct (negb (isAuthenticated s) || timeoutDisabled s).
Qed.

(** While the deadline is armed.  Take the session unlocked (authenticated,
    timeout enabled, modal hidden) with the idle timeout as the only pending
    timer, due at [T].
    (a) Whatever later time the event loop is run to, its first action is
    to run the idle timeout at [T]; that shows the modal, sets the counter
    to COUNTDOWN_SECONDS and starts the 1 s interval.  (b) Running the loop
    to any time strictly before [T] runs nothing, and a press then replaces
    the pending timeout by one due IDLE_TIME after the press, the modal
    still hidden.  (c) If presses keep arriving less than IDLE_TIME apart,
    the modal is never shown, however long that goes on.  (d) While the
    modal is showing a press changes nothing. *)
Theorem armed_deadline_behaviour (s : state) (id : nat) (T : Z)
    (Hauth : isAuthenticated s = true)
    (Hen : timeoutDisabled s = false)
    (Hmodal : showModal s = false)
    (Hq : timers s = [mkTimer id T None CbIdleExpired])
    (Href : idleTimer s = Some id)
    (HT : now s <= T) :
  (forall (fuel : nat) (dl : Z), T <= dl ->
     runUntil (S fuel) dl s
     = runUntil fuel dl (fire (mkTimer id T None CbIdleExpired) s))
  /\
  (runUntil 1 T s = Some (fire (mkTimer id T None CbIdleExpired) s) /\
   now (fire (mkTimer id T None CbIdleExpired) s) = T /\
   isAuthenticated (fire (mkTimer id T None CbIdleExpired) s) = true /\
   showModal (fire (mkTimer id T None CbIdleExpired) s) = true /\
   countdown (fire (mkTimer id T None CbIdleExpired) s) = COUNTDOWN_SECONDS /\
   countdownRunning (fire (mkTimer id T None CbIdleExpired) s) = true /\
   timers (fire (mkTimer id T None CbIdleExpired) s)
     = [mkTimer (nextId s) (T + 1000) (Some 1000) CbCountdownTick] /\
   trace (fire (mkTimer id T None CbIdleExpired) s)
     = trace s ++ [FxShowModal true])
  /\
  (forall (fuel : nat) (t : Z), now s <= t < T ->
     exists s1,
       runUntil fuel t s = Some s1 /\
       showModal s1 = false /\ trace s1 = trace s /\
       timers (handleUserInteraction s1)
         = [mkTimer (nextId s) (t + IDLE_TIME) None CbIdleExpired] /\
       idleTimer (handleUserInteraction s1) = Some (nextId s) /\
       showModal (handleUserInteraction s1) = false /\
       trace (handleUserInteraction s1) = trace s)
  /\
  (T = now s + IDLE_TIME ->
   forall (fuel : nat) (gaps : list Z),
     Forall (fun g => 0 <= g < IDLE_TIME) gaps ->
     exists s',
       pressEvery fuel gaps s = Some s' /\
       isAuthenticated s' = true /\ showModal s' = false /\
       idleArmed s' = true /\ trace s' = trace s)
  /\
  (forall s' : state, showModal s' = true -> handleUserInteraction s' = s').
Proof.
  rewrite (unlockedAt_eta s id T Hauth Hen Hmodal Hq Href).
  set (nw := now s) in *. set (nid := nextId s). set (cd := countdown s).
  set (ct := countdownTimer s). set (pf := photoFlag s). set (tr := trace s).
  cbn [now nextId trace unlockedAt].
  fold (unlockedAt nw nid cd ct pf tr id T).
  split; [|split; [|split; [|split]]].
  - intros fuel dl Hdl. apply runUntil_fire; [reflexivity | exact Hdl].
  - rewrite expiry_starts_countdown by exact HT.
    repeat split.
    + rewrite (runUntil_fire 0 T _ (mkTimer id T None CbIdleExpired));
        [| reflexivity | cbn; lia].
      rewrite expiry_starts_countdown by exact HT.
      rewrite runUntil_nothing_due by (cbn; lia).
      unfold set_now; cbn. now rewrite Z.max_id.
    + unfold countdownRunning, pendingb; cbn. now rewrite Nat.eqb_refl.
  - intros fuel t Ht. eexists. split; [now apply wait_before_deadline|].
    rewrite press_rearms. repeat split.
  - intros -> fuel gaps Hg.
    destruct (pressEvery_keeps_unlocked cd ct pf tr fuel gaps Hg nw nid id)
      as (nw' & nid' & id' & E).
    eexists. split; [exact E|]. repeat split.
    unfold idleArmed, pendingb; cbn. now rewrite Nat.eqb_refl.
  - apply handleUserInteraction_modal.
Qed.

Lemma armed_deadline_behaviour_witness :
  timers loggedIn = [mkTimer 1 120000 None CbIdleExpired] /\
  exists w, runUntil 1 120000 loggedIn = Some w /\ showModal w = true.
Proof.
  split; [reflexivity |].
  destruct (armed_deadline_behaviour loggedIn 1 120000
              eq_refl eq_refl eq_refl eq_refl eq_refl)
    as (_ & (Hrun & _ & _ & Hshow & _) & _).
  - cbn. lia.
  - eexists. split; [exact Hrun | exact Hshow].
Defined.

(** *** An unlocked session without a deadline *)

(** Login, the photo flag set by the screen, then the round trip through
    the camera: Background, Active. *)
Definition afterCamera (rev : revision) : state :=
  run rev [EvSetAuthenticated true;
           match rev with RevScreenFlag => EvScreenMount | _ => EvSetFlag true end;
           EvAppState Background; EvAppState Active] initial.

(** Unlocked, and nothing in the timer queue: whatever time passes, the
    event loop runs nothing, the modal stays hidden and no countdown
    starts; the next press arms the deadline. *)
Definition unlockedNoDeadline (s : state) : Prop :=
  isAuthenticated s = true /\
  timeoutDisabled s = false /\
  showModal s = false /\
  timers s = [] /\
  idleArmed s = false /\
  (forall (fuel : nat) (d : Z),
     exists s',
       elapse fuel d s = Some s' /\
       isAuthenticated s' = true /\ showModal s' = false /\
       countdownRunning s' = false /\ timers s' = [] /\
       trace s' = trace s) /\
  idleArmed (handleUserInteraction s) = true /\
  timers (handleUserInteraction s)
  = [mkTimer (nextId s) (now s + IDLE_TIME) None CbIdleExpired].

(** C5 does not hold of the code.  After a login and one round trip
    through the camera with the flag set, in both revisions of
    SessionManager.tsx the session is unlocked (authenticated, timeout
    enabled, modal hidden, nobody logged out) but the Background branch has
    cancelled the idle timeout and the Active branch returned without
    arming it again: the timer queue is empty.  However long the user then
    stays away, the event loop has nothing to run; the modal is never
    shown and the countdown never starts.  Only the next press arms the
    deadline again.  The revision without a flag does arm it on the return
    to the foreground, and there IDLE_TIME of inactivity shows the
    countdown. *)
Theorem C5_no_deadline_after_camera_round_trip :
  unlockedNoDeadline (afterCamera RevScreenFlag) /\
  unlockedNoDeadline (afterCamera RevPhotoOp) /\
  (exists s',
     elapse 1 IDLE_TIME (afterCamera RevPhotoOp) = Some s' /\
     now s' = IDLE_TIME /\ showModal s' = false /\
     trace s' = [FxSetAuthenticated true; FxShowModal false]) /\
  idleArmed (afterCamera RevIdleOnly) = true /\
  (exists s',
     elapse 1 IDLE_TIME (afterCamera RevIdleOnly) = Some s' /\
     showModal s' = true /\ countdownRunning s' = true).
Proof.
  assert (G : forall pf,
            unlockedNoDeadline
              (mkState 0 2 [] true false false 10 (Some 1%nat) None pf
                 [FxSetAuthenticated true; FxShowModal false])).
  { intros pf. unfold unlockedNoDeadline. repeat split.
    intros fuel d. eexists. split.
    { unfold elapse. destruct fuel; cbn [runUntil timers earliest]; reflexivity. }
    repeat split. }
  split; [|split; [|split; [|split]]].
  - exact (G true).
  - exact (G false).
  - eexists. split; [vm_compute; reflexivity|]. repeat split.
  - reflexivity.
  - eexists. split; [vm_compute; reflexivity|]. split; reflexivity.
Qed.

(** ** The warning countdown *)

(** The session while the countdown runs, at the instant of a tick (or of
    its start): modal shown, counter at [c], the interval [id] as the only
    pending timer, due one second from now. *)
Definition countingAt (nw : Z) (nid : nat) (td : bool) (it : option nat)
    (pf : bool) (tr : list effect) (id : nat) (c : Z) : state :=
  mkState nw nid [mkTimer id (nw + 1000) (Some 1000) CbCountdownTick]
          true td true c it (Some id) pf tr.

Section Counting.
Variables (nid : nat) (td : bool) (it : option nat) (pf : bool) (id : nat).

Lemma tick_running (nw c : Z) (tr : list effect) :
    1 < c ->
    fire (mkTimer id (nw + 1000) (Some 1000) CbCountdownTick)
         (countingAt nw nid td it pf tr id c)
    = countingAt (nw + 1000) nid td it pf
        (if c =? 2 then tr ++ [FxHapticImpact] else tr) id (c - 1).
  Proof.
    intros Hc. unfold countingAt. now rewrite fire_tick_running by lia.
  Qed.

  (** [j] ticks, none of which finds the counter at 1. *)
Lemma ticks_prefix (j : nat) :
    forall (f : nat) (dl nw c : Z) (tr : list effect),
      1 <= c - Z.of_nat j -> nw + 1000 * Z.of_nat j <= dl ->
      runUntil (j + f) dl (countingAt nw nid td it pf tr id c)
      = runUntil f dl
          (countingAt (nw + 1000 * Z.of_nat j) nid td it pf
             (if (c - Z.of_nat j =? 1) && (0 <? Z.of_nat j)
              then tr ++ [FxHapticImpact] else tr)
             id (c - Z.of_nat j)).
  Proof.
    induction j as [|j IH]; intros f dl nw c tr Hc Hdl.
    - cbn [Nat.add Z.of_nat]. rewrite Z.mul_0_r, Z.add_0_r, Z.sub_0_r.
      now rewrite andb_false_r.
    - rewrite Nat2Z.inj_succ in *. cbn [Nat.add].
      rewrite (runUntil_fire _ dl _ (mkTimer id (nw + 1000) (Some 1000) CbCountdownTick));
        [| reflexivity | cbn; lia].
      rewrite tick_running by lia.
      rewrite IH by lia.
      replace (nw + 1000 + 1000 * Z.of_nat j) with (nw + 1000 * Z.succ (Z.of_nat j)) by lia.
      replace (c - 1 - Z.of_nat j) with (c - Z.succ (Z.of_nat j)) by lia.
      f_equal. f_equal.
      rewrite (proj2 (Z.ltb_lt 0 (Z.succ (Z.of_nat j)))) by lia.
      rewrite andb_true_r.
      destruct (c =? 2) eqn:E2.
      + apply Z.eqb_eq in E2.
        assert (j = 0%nat) by lia. subst j c. reflexivity.
      + apply Z.eqb_neq in E2.
        destruct (c - Z.succ (Z.of_nat j) =? 1) eqn:E1.
        * apply Z.eqb_eq in E1.
          rewrite (proj2 (Z.ltb_lt 0 (Z.of_nat j))) by lia. reflexivity.
        * now rewrite andb_false_l.
  Qed.

  (** The tick that finds the counter at 1, and the logout timeout behind it. *)
Lemma expiry_run (nw dl : Z) (tr : list effect) :
    nw + 1000 <= dl < nw + 1150 ->
    runUntil 2 dl (countingAt nw nid td it pf tr id 1)
    = Some (mkState dl (S (S nid))
              [mkTimer (S nid) (nw + 1150) None CbNavigatePin]
              false td false 0 it (Some id) pf
              (tr ++ [FxHapticError; FxShowModal false; FxSetAuthenticated false])).
  Proof.
    intros Hdl. unfold countingAt.
    rewrite (runUntil_fire 1 dl _ (mkTimer id (nw + 1000) (Some 1000) CbCountdownTick));
      [| reflexivity | cbn; lia].
    rewrite fire_tick_expiry by (lia || reflexivity).
    rewrite (runUntil_fire 0 dl _ (mkTimer nid (nw + 1000 + 0) None CbClearAuth));
      [| reflexivity | cbn; lia].
    rewrite fire_clearAuth_timer by lia.
    rewrite runUntil_nothing_due by (cbn; lia).
    unfold set_now; cbn. rewrite Z.max_r by lia.
    rewrite <- !app_assoc. cbn [app].
    now replace (nw + 1000 + 0 + 150) with (nw + 1150) by lia.
  Qed.

Lemma expiry_navigates (nw : Z) (tr : list effect) :
    runUntil 3 (nw + 1150) (countingAt nw nid td it pf tr id 1)
    = Some (mkState (nw + 1150) (S (S nid)) []
              false td false 0 it (Some id) pf
              (tr ++ [FxHapticError; FxShowModal false; FxSetAuthenticated false;
                      FxNavigate "Pin"])).
  Proof.
    unfold countingAt.
    rewrite (runUntil_fire 2 _ _ (mkTimer id (nw + 1000) (Some 1000) CbCountdownTick));
      [| reflexivity | cbn; lia].
    rewrite fire_tick_expiry by (lia || reflexivity).
    rewrite (runUntil_fire 1 _ _ (mkTimer nid (nw + 1000 + 0) None CbClearAuth));
      [| reflexivity | cbn; lia].
    rewrite fire_clearAuth_timer by lia.
    rewrite (runUntil_fire 0 _ _ (mkTimer (S nid) (nw + 1000 + 0 + 150) None CbNavigatePin));
      [| reflexivity | cbn; lia].
    rewrite fire_navigate_timer by lia.
    rewrite runUntil_nothing_due by exact I.
    unfold set_now; cbn. rewrite Z.max_r by lia.
    rewrite <- !app_assoc. cbn [app].
    now replace (nw + 1000 + 0 + 150) with (nw + 1150) by lia.
  Qed.

  (** "I'm Still Here" during the countdown, timeout enabled. *)
Lemma stay_rearms (nw c : Z) (tr : list effect) :
    td = false ->
    handleStay (countingAt nw nid td it pf tr id c)
    = mkState nw (S nid) [mkTimer nid (nw + 50) None (CbStayReset true false)]
        true false false c it (Some id) pf (tr ++ [FxShowModal false])
    /\
    runUntil 1 (nw + 50) (handleStay (countingAt nw nid td it pf tr id c))
    = Some (mkState (nw + 50) (S (S nid))
              [mkTimer (S nid) (nw + 50 + IDLE_TIME) None CbIdleExpired]
              true false false c (Some (S nid)) (Some id) pf
              (tr ++ [FxShowModal false])).
  Proof.
    intros ->.
    assert (E : handleStay (countingAt nw nid false it pf tr id c)
                = mkState nw (S nid) [mkTimer nid (nw + 50) None (CbStayReset true false)]
                    true false false c it (Some id) pf (tr ++ [FxShowModal false]))
      by (unfold countingAt; one_timer).
    split; [exact E|]. rewrite E.
    rewrite (runUntil_fire 0 _ _ (mkTimer nid (nw + 50) None (CbStayReset true false)));
      [| reflexivity | cbn; lia].
    rewrite fire_stay_timer by lia.
    rewrite runUntil_nothing_due by (cbn; unfold IDLE_TIME; lia).
    unfold set_now; cbn. now rewrite Z.max_id.
  Qed.
End Counting.

Lemma countingAt_eta (s : state) (id : nat) :
  isAuthenticated s = true -> showModal s = true -> countdownTimer s = Some id ->
  timers s = [mkTimer id (now s + 1000) (Some 1000) CbCountdownTick] ->
  s = countingAt (now s) (nextId s) (timeoutDisabled s) (idleTimer s)
        (photoFlag s) (trace s) id (countdown s).
Proof.
  destruct s as [nw nid ts au td sm cd it ct pf tr]; cbn.
  now intros -> -> -> ->.
Qed.

(** The state in which the countdown has just started, two minutes after
    login without any input. *)
Definition countdownStarted : state :=
  match runUntil 1 IDLE_TIME loggedIn with
  | Some w => w
  | None => loggedIn
  end.

(** C4.  Take the session at the start of the countdown: authenticated,
    timeout enabled, modal shown, counter at COUNTDOWN_SECONDS, the 1 s
    interval as the only pending timer.  (1) After [k <= 9] seconds the
    event loop has run [k] ticks: the session is still authenticated, the
    modal still shown, the counter at 10 - k, no logout timeout pending, and
    the only effect so far is the haptic impact, produced by the ninth tick
    (the one that finds the counter at 2).  Pressing "I'm Still Here" in any
    of these states hides the modal and stops the interval, and 50 ms later
    the idle timeout is the only pending timer, due IDLE_TIME after that,
    the session authenticated.  (2) At 10 seconds the tenth tick calls
    safeLogout and the logout timeout runs: the session is no longer
    authenticated, the modal hidden.  (3) 150 ms later the navigation to
    "Pin" is issued and nothing is left pending. *)
Theorem C4_countdown_terminality (s : state) (id : nat)
    (Hauth : isAuthenticated s = true)
    (Hen : timeoutDisabled s = false)
    (Hmodal : showModal s = true)
    (Hc : countdown s = COUNTDOWN_SECONDS)
    (Hct : countdownTimer s = Some id)
    (Hfresh : (id < nextId s)%nat)
    (Hq : timers s = [mkTimer id (now s + 1000) (Some 1000) CbCountdownTick]) :
  (forall k : nat, (k <= 9)%nat ->
     exists s',
       runUntil k (now s + 1000 * Z.of_nat k) s = Some s' /\
       now s' = now s + 1000 * Z.of_nat k /\
       isAuthenticated s' = true /\
       showModal s' = true /\
       countdown s' = COUNTDOWN_SECONDS - Z.of_nat k /\
       countdownRunning s' = true /\
       logoutsPending s' = 0%nat /\
       trace s' = (if Nat.eqb k 9 then trace s ++ [FxHapticImpact] else trace s) /\
       showModal (handleStay s') = false /\
       countdownRunning (handleStay s') = false /\
       exists u,
         runUntil 1 (now s' + 50) (handleStay s') = Some u /\
         isAuthenticated u = true /\
         showModal u = false /\
         idleArmed u = true /\
         timers u = [mkTimer (S (nextId s)) (now s' + 50 + IDLE_TIME) None CbIdleExpired])
  /\
  (exists s',
     runUntil 11 (now s + 10000) s = Some s' /\
     isAuthenticated s' = false /\
     showModal s' = false /\
     timers s' = [mkTimer (S (nextId s)) (now s + 10150) None CbNavigatePin] /\
     trace s' = trace s ++ [FxHapticImpact; FxHapticError; FxShowModal false;
                            FxSetAuthenticated false])
  /\
  (exists s',
     runUntil 12 (now s + 10150) s = Some s' /\
     isAuthenticated s' = false /\
     timers s' = [] /\
     trace s' = trace s ++ [FxHapticImpact; FxHapticError; FxShowModal false;
                            FxSetAuthenticated false; FxNavigate "Pin"]).
Proof.
  rewrite (countingAt_eta s id Hauth Hmodal Hct Hq).
  set (nw := now s) in *. set (nid := nextId s) in *.
  set (it := idleTimer s). set (pf := photoFlag s). set (tr := trace s).
  rewrite Hen, Hc. cbn [now nextId trace countingAt].
  fold (countingAt nw nid false it pf tr id COUNTDOWN_SECONDS).
  unfold COUNTDOWN_SECONDS.
  split; [|split].
  - intros k Hk.
    set (trk := if (10 - Z.of_nat k =? 1) && (0 <? Z.of_nat k)
                then tr ++ [FxHapticImpact] else tr).
    assert (Hrun : runUntil k (nw + 1000 * Z.of_nat k)
                     (countingAt nw nid false it pf tr id 10)
                   = Some (countingAt (nw + 1000 * Z.of_nat k) nid false it pf
                             trk id (10 - Z.of_nat k))).
    { replace k with (k + 0)%nat at 1 by lia.
      rewrite ticks_prefix by lia.
      rewrite runUntil_nothing_due by (cbn; lia).
      unfold set_now, countingAt; cbn. now rewrite Z.max_id. }
    exists (countingAt (nw + 1000 * Z.of_nat k) nid false it pf trk id (10 - Z.of_nat k)).
    split; [exact Hrun|].
    cbn [now nextId timers isAuthenticated showModal countdown trace countingAt].
    fold (countingAt (nw + 1000 * Z.of_nat k) nid false it pf trk id (10 - Z.of_nat k)).
    subst trk.
    destruct (stay_rearms nid false it pf id (nw + 1000 * Z.of_nat k)
                (10 - Z.of_nat k)
                (if (10 - Z.of_nat k =? 1) && (0 <? Z.of_nat k)
                 then tr ++ [FxHapticImpact] else tr) eq_refl) as [Es Er].
    rewrite Er, Es.
    repeat split.
    + unfold countdownRunning, pendingb; cbn. now rewrite Nat.eqb_refl.
    + destruct (Nat.eqb k 9) eqn:E9.
      * apply Nat.eqb_eq in E9. subst k. reflexivity.
      * apply Nat.eqb_neq in E9.
        rewrite (proj2 (Z.eqb_neq (10 - Z.of_nat k) 1)) by lia. reflexivity.
    + unfold countdownRunning, pendingb; cbn.
      rewrite (proj2 (Nat.eqb_neq nid id)) by lia. reflexivity.
    + eexists. split; [reflexivity|]. repeat split.
      unfold idleArmed, pendingb; cbn. now rewrite Nat.eqb_refl.
  - change 11%nat with (9 + 2)%nat.
    rewrite ticks_prefix by lia.
    change (10 - Z.of_nat 9) with 1. change (nw + 1000 * Z.of_nat 9) with (nw + 9000).
    rewrite expiry_run by lia.
    eexists. split; [reflexivity|]. cbn.
    rewrite <- app_assoc.
    repeat split. now replace (nw + 9000 + 1150) with (nw + 10150) by lia.
  - change 12%nat with (9 + 3)%nat.
    rewrite ticks_prefix by lia.
    change (10 - Z.of_nat 9) with 1. change (nw + 1000 * Z.of_nat 9) with (nw + 9000).
    replace (nw + 10150) with (nw + 9000 + 1150) by lia.
    rewrite expiry_navigates.
    eexists. split; [reflexivity|]. cbn.
    rewrite <- app_assoc. repeat split.
Qed.

Lemma C4_countdown_terminality_witness :
  timers countdownStarted
    = [mkTimer 2 (now countdownStarted + 1000) (Some 1000) CbCountdownTick] /\
  exists s',
    runUntil 11 (now countdownStarted + 10000) countdownStarted = Some s' /\
    isAuthenticated s' = false.
Proof.
  split; [reflexivity |].
  destruct (C4_countdown_terminality countdownStarted 2
              eq_refl eq_refl eq_refl eq_refl eq_refl)
    as (_ & (s' & Hrun & Ha & _) & _).
  - cbn. lia.
  - reflexivity.
  - exists s'. split; [exact Hrun | exact Ha].
Defined.

(** * PinScreen.tsx *)

Module PinScreen.

(** Haptics calls of the screen. *)
Inductive haptic : Type :=
| ImpactLight       (* Haptics.impactAsync(Light) *)
| ImpactMedium      (* Haptics.impactAsync(Medium) *)
| NotifyError       (* Haptics.notificationAsync(Error) *)
| NotifySuccess.    (* Haptics.notificationAsync(Success) *)

(** The component's useState cells. *)
Record screen : Type := mkScreen {
  pin : string;
  confirmPin : string;
  isCreating : bool;
  isConfirming : bool;
  error : string;
  storedPin : option string       (* string | null *)
}.

(** What the screen reaches outside itself: the session behind
    [setAuthenticated], AppContext's [hasPin], the item stored under
    PIN_KEY (SecureStore, or localStorage on the web), and the haptics. *)
Record app : Type := mkApp {
  session : state;
  hasPin : bool;
  store : option string;
  haptics : list haptic
}.

Definition set_pin (v : string) (p : screen) : screen :=
  mkScreen v (confirmPin p) (isCreating p) (isConfirming p) (error p) (storedPin p).
Definition set_confirmPin (v : string) (p : screen) : screen :=
  mkScreen (pin p) v (isCreating p) (isConfirming p) (error p) (storedPin p).
Definition set_isCreating (v : bool) (p : screen) : screen :=
  mkScreen (pin p) (confirmPin p) v (isConfirming p) (error p) (storedPin p).
Definition set_isConfirming (v : bool) (p : screen) : screen :=
  mkScreen (pin p) (confirmPin p) (isCreating p) v (error p) (storedPin p).
Definition set_error (v : string) (p : screen) : screen :=
  mkScreen (pin p) (confirmPin p) (isCreating p) (isConfirming p) v (storedPin p).
Definition set_storedPin (v : option string) (p : screen) : screen :=
  mkScreen (pin p) (confirmPin p) (isCreating p) (isConfirming p) (error p) v.

Definition set_session (v : state) (a : app) : app :=
  mkApp v (hasPin a) (store a) (haptics a).
Definition set_hasPin (v : bool) (a : app) : app :=
  mkApp (session a) v (store a) (haptics a).
Definition set_store (v : option string) (a : app) : app :=
  mkApp (session a) (hasPin a) v (haptics a).
Definition buzz (h : haptic) (a : app) : app :=
  mkApp (session a) (hasPin a) (store a) (haptics a ++ [h]).

(** The screen's call of AppContext's [setAuthenticated(true)]. *)
Definition authenticate (a : app) : app :=
  set_session (setAuthenticated true (session a)) a.

(** [pin === storedPin], a string against a string or null. *)
Definition matchesStored (entered : string) (stored : option string) : bool :=
  match stored with
  | Some s => String.eqb entered s
  | None => false
  end.

(** [handleSubmit], for the render [c] whose closure is called (the
    timeout of the auto-submit effect keeps the closure of the render that
    scheduled it) and the current cells [p]; [writeOk] tells whether the
    write to the store went through or threw into the catch. *)
Definition handleSubmitWith (c : screen) (writeOk : bool)
    (p : screen) (a : app) : screen * app :=
  if isCreating c then
    if negb (Nat.eqb (String.length (pin c)) 4) then
      (set_error "PIN must be 4 digits" p, buzz NotifyError a)
    else if negb (isConfirming c) then
      (set_isConfirming true p, a)
    else if negb (String.eqb (pin c) (confirmPin c)) then
      (set_confirmPin "" (set_error "PINs do not match" p), buzz NotifyError a)
    else if writeOk then
      (p, buzz NotifySuccess
            (authenticate (set_hasPin true (set_store (Some (pin c)) a))))
    else
      (set_error "Failed to save PIN" p, a)
  else
    if matchesStored (pin c) (storedPin c) then
      (p, buzz NotifySuccess (authenticate a))
    else
      (set_pin "" (set_error "Incorrect PIN" p), buzz NotifyError a).

(** [handleSubmit] called from the current render. *)
Definition handleSubmit (writeOk : bool) (p : screen) (a : app) : screen * app :=
  handleSubmitWith p writeOk p a.

(** C8.  In login mode ([isCreating] false), when the entered PIN is not
    the stored one (or none is stored), [handleSubmit] completes with the
    error cell set to "Incorrect PIN" and the entered PIN cleared; the other
    cells are kept, one error haptic is produced, and the session is the
    very same state, so [isAuthenticated] stays false, nothing is written
    to the store and [hasPin] is kept.  There is no exceptional exit: the
    outcome is the pair of states the function returns. *)
Theorem C8_mismatch_recoverable (writeOk : bool) (p : screen) (a : app)
    (Hmode : isCreating p = false)
    (Hwrong : storedPin p <> Some (pin p)) :
  error (fst (handleSubmit writeOk p a)) = "Incorrect PIN"%string /\
  pin (fst (handleSubmit writeOk p a)) = ""%string /\
  confirmPin (fst (handleSubmit writeOk p a)) = confirmPin p /\
  isCreating (fst (handleSubmit writeOk p a)) = false /\
  storedPin (fst (handleSubmit writeOk p a)) = storedPin p /\
  session (snd (handleSubmit writeOk p a)) = session a /\
  (isAuthenticated (session a) = false ->
   isAuthenticated (session (snd (handleSubmit writeOk p a))) = false) /\
  store (snd (handleSubmit writeOk p a)) = store a /\
  hasPin (snd (handleSubmit writeOk p a)) = hasPin a /\
  haptics (snd (handleSubmit writeOk p a)) = haptics a ++ [NotifyError].
Proof.
  assert (Hm : matchesStored (pin p) (storedPin p) = false).
  { unfold matchesStored. destruct (storedPin p) as [s|]; [|reflexivity].
    apply String.eqb_neq. congruence. }
  unfold handleSubmit, handleSubmitWith. rewrite Hmode, Hm. cbn.
  repeat split; auto.
Qed.

Lemma C8_mismatch_recoverable_witness :
  error (fst (handleSubmit true
                (mkScreen "1234" "" false false "" (Some "4321"%string))
                (mkApp initial true (Some "4321"%string) [])))
  = "Incorrect PIN"%string.
Proof.
  refine (proj1 (C8_mismatch_recoverable true
            (mkScreen "1234" "" false false "" (Some "4321"%string))
            (mkApp initial true (Some "4321"%string) []) eq_refl _)).
  discriminate.
Defined.

End PinScreen.

(** * Further properties of SessionManager.tsx *)

(** ** The effect "Start timer when logged in" *)

Lemma pendingb_snoc_same (id : nat) (d : Z) (e : option Z) (cb : callback)
    (ts : list timer) :
  existsb (fun t => Nat.eqb (t_id t) id) (ts ++ [mkTimer id d e cb]) = true.
Proof.
  rewrite existsb_app. cbn. rewrite Nat.eqb_refl. now rewrite orb_true_r.
Qed.

(** Logging in (PinScreen's setAuthenticated(true)) with the timeout
    enabled arms the idle timeout, due IDLE_TIME from now, under a fresh
    handle that [idleTimer.current] then holds; with the timeout disabled
    the queue is left as it is.  The modal flag is not touched. *)
Theorem login_arms_idle_timeout (s : state)
    (Hun : isAuthenticated s = false) :
  isAuthenticated (setAuthenticated true s) = true /\
  showModal (setAuthenticated true s) = showModal s /\
  trace (setAuthenticated true s) = trace s ++ [FxSetAuthenticated true] /\
  (timeoutDisabled s = false ->
   idleTimer (setAuthenticated true s) = Some (nextId s) /\
   idleArmed (setAuthenticated true s) = true /\
   timers (setAuthenticated true s)
     = timers (clearRef (idleTimer s) s)
       ++ [mkTimer (nextId s) (now s + IDLE_TIME) None CbIdleExpired]) /\
  (timeoutDisabled s = true ->
   timers (setAuthenticated true s) = timers s /\
   idleTimer (setAuthenticated true s) = idleTimer s).
Proof.
  destruct s as [nw nid ts au td sm cd it ct pf tr]. cbn in Hun. subst au.
  unfold setAuthenticated, sessionEffect, resetIdleTimer, resetIdleTimerWith.
  cbn [Bool.eqb isAuthenticated set_isAuthenticated emit set_trace negb
       timeoutDisabled orb].
  split; [|split; [|split; [|split]]].
  - destruct td, it; reflexivity.
  - destruct td, it; reflexivity.
  - destruct td, it; reflexivity.
  - cbn. intros ->. cbn. split; [now destruct it|]. split.
    + unfold idleArmed, pendingb. destruct it; cbn; apply pendingb_snoc_same.
    + destruct it; reflexivity.
  - cbn. intros ->. split; reflexivity.
Qed.

Lemma login_arms_idle_timeout_witness :
  isAuthenticated initial = false /\
  idleArmed (setAuthenticated true initial) = true.
Proof.
  split; [reflexivity |].
  exact (proj1 (proj2 (proj1 (proj2 (proj2 (proj2
           (login_arms_idle_timeout initial eq_refl)))) eq_refl))).
Defined.

Lemma sessionEffect_cancels (s : state) :
  isAuthenticated s = false \/ timeoutDisabled s = true ->
  idleArmed (sessionEffect true s) = false /\
  countdownRunning (sessionEffect true s) = false /\
  showModal (sessionEffect true s) = showModal s /\
  countdown (sessionEffect true s) = countdown s /\
  nextId (sessionEffect true s) = nextId s.
Proof.
  intros H. unfold sessionEffect.
  set (s1 := clearRef (countdownTimer s) (clearRef (idleTimer s) s)).
  assert (Hi : idleArmed s1 = false).
  { unfold idleArmed. subst s1. autorewrite with frame.
    destruct (idleTimer s) as [i|]; [|reflexivity].
    apply pendingb_clearRef_mono, pendingb_clearTimer_same. }
  assert (Hc : countdownRunning s1 = false).
  { unfold countdownRunning. subst s1. autorewrite with frame.
    destruct (countdownTimer s) as [c|]; [|reflexivity].
    apply (pendingb_clearTimer_same c (clearRef (idleTimer s) s)). }
  assert (Ea : isAuthenticated s1 = isAuthenticated s)
    by (subst s1; now autorewrite with frame).
  assert (Ed : timeoutDisabled s1 = timeoutDisabled s)
    by (subst s1; now autorewrite with frame).
  assert (F : showModal s1 = showModal s /\ countdown s1 = countdown s /\
              nextId s1 = nextId s)
    by (subst s1; now autorewrite with frame).
  destruct F as (F1 & F2 & F3).
  cbn [negb]. destruct (isAuthenticated s1) eqn:E1; cbn [negb].
  - assert (Hd : timeoutDisabled s1 = true)
      by (destruct H as [H|H]; congruence).
    rewrite (resetIdleTimer_disabled s1 Hd). repeat split; auto.
  - repeat split; autorewrite with frame; auto.
    + unfold idleArmed in *. autorewrite with frame.
      destruct (idleTimer s1) as [i|]; [|reflexivity].
      now apply pendingb_clearRef_mono, pendingb_clearTimer_mono.
    + unfold countdownRunning in *. autorewrite with frame.
      destruct (countdownTimer s1) as [c|]; [|reflexivity].
      apply (pendingb_clearTimer_same c (clearRef (idleTimer s1) s1)).
Qed.

(** Clearing authentication (the body of safeLogout's timeout, or any
    direct setAuthenticated(false)) while authenticated cancels the idle
    timeout and the countdown interval held in the two refs.  It writes
    neither the modal flag nor the counter: a modal that is showing stays
    on screen. *)
Theorem logout_cancels_timers (s : state)
    (Hauth : isAuthenticated s = true) :
  isAuthenticated (setAuthenticated false s) = false /\
  idleArmed (setAuthenticated false s) = false /\
  countdownRunning (setAuthenticated false s) = false /\
  showModal (setAuthenticated false s) = showModal s /\
  countdown (setAuthenticated false s) = countdown s /\
  nextId (setAuthenticated false s) = nextId s.
Proof.
  destruct (setAuthenticated_false_frame s) as (F1 & _).
  split; [exact F1|].
  unfold setAuthenticated. rewrite Hauth. cbn [Bool.eqb].
  apply (sessionEffect_cancels
           (set_isAuthenticated false (emit (FxSetAuthenticated false) s))).
  now left.
Qed.

Lemma logout_cancels_timers_witness :
  isAuthenticated countdownStarted = true /\
  countdownRunning countdownStarted = true /\
  countdownRunning (setAuthenticated false countdownStarted) = false /\
  showModal (setAuthenticated false countdownStarted) = true.
Proof.
  split; [reflexivity |]. split; [reflexivity |].
  destruct (logout_cancels_timers countdownStarted eq_refl)
    as (_ & _ & Hc & Hm & _).
  split; [exact Hc | exact Hm].
Defined.

(** Switching timeoutDisabled on while authenticated cancels the idle
    timeout and the countdown interval, but leaves the modal flag alone.
    If the countdown modal was showing it stays up with the counter frozen,
    and presses on the wrapper do nothing from then on. *)
Theorem disabling_freezes_countdown (s : state)
    (Hauth : isAuthenticated s = true)
    (Hen : timeoutDisabled s = false) :
  timeoutDisabled (setTimeoutDisabled true s) = true /\
  idleArmed (setTimeoutDisabled true s) = false /\
  countdownRunning (setTimeoutDisabled true s) = false /\
  showModal (setTimeoutDisabled true s) = showModal s /\
  countdown (setTimeoutDisabled true s) = countdown s /\
  isAuthenticated (setTimeoutDisabled true s) = true /\
  handleUserInteraction (setTimeoutDisabled true s) = setTimeoutDisabled true s.
Proof.
  assert (Hd : timeoutDisabled (setTimeoutDisabled true s) = true).
  { unfold setTimeoutDisabled. rewrite Hen. cbn [Bool.eqb].
    apply (sessionEffect_disabled_frame _ (set_timeoutDisabled true s)).
    reflexivity. }
  split; [exact Hd|].
  rewrite setTimeoutDisabled_auth, Hauth.
  rewrite (handleUserInteraction_disabled _ Hd).
  unfold setTimeoutDisabled. rewrite Hen, Hauth. cbn [Bool.eqb].
  destruct (sessionEffect_cancels (set_timeoutDisabled true s) (or_intror eq_refl))
    as (C1 & C2 & C3 & C4 & _).
  repeat split; auto.
Qed.

Lemma disabling_freezes_countdown_witness :
  showModal countdownStarted = true /\
  showModal (setTimeoutDisabled true countdownStarted) = true /\
  countdownRunning (setTimeoutDisabled true countdownStarted) = false.
Proof.
  split; [reflexivity |].
  destruct (disabling_freezes_countdown countdownStarted eq_refl eq_refl)
    as (_ & _ & Hc & Hm & _).
  split; [exact Hm | exact Hc].
Defined.

(** ** Unmounting one photo screen and mounting another *)

Lemma earliest_snoc_first (ts : list timer) (t0 : timer) :
  (forall t, In t ts -> t_due t0 < t_due t) ->
  earliest (ts ++ [t0]) = Some t0.
Proof.
  induction ts as [|a ts IH]; intros H; cbn; [reflexivity|].
  rewrite IH by (intros t Ht; apply H; now right).
  assert (Ha : t_due t0 < t_due a) by (apply H; now left).
  apply Z.ltb_lt in Ha. now rewrite Ha.
Qed.

(** The cleanup of a photo screen (MemberDetail, Register) schedules the
    reset of the flag 500 ms ahead and nothing cancels that timeout.  If a
    photo screen mounts again in the meantime, with no other timer due
    before, the flag it has just set is put back to false when the timeout
    runs; while authenticated, the next transition to Active is then
    safeLogout although a photo screen is mounted. *)
Theorem remount_loses_photo_flag (s : state)
    (Hlater : forall t, In t (timers s) -> now s + 500 < t_due t) :
  photoFlag (screenMount (screenUnmount s)) = true /\
  exists s2,
    runUntil 1 (now s + 500) (screenMount (screenUnmount s)) = Some s2 /\
    now s2 = now s + 500 /\
    photoFlag s2 = false /\
    isAuthenticated s2 = isAuthenticated s /\
    (isAuthenticated s = true ->
     onAppStateChange RevScreenFlag Active s2 = safeLogout s2).
Proof.
  split; [reflexivity|].
  set (t0 := mkTimer (nextId s) (now s + 500) None CbScreenFlagReset).
  assert (E : earliest (timers (screenMount (screenUnmount s))) = Some t0).
  { change (timers (screenMount (screenUnmount s))) with (timers s ++ [t0]).
    apply earliest_snoc_first. exact Hlater. }
  rewrite (runUntil_fire 0 _ _ t0 E) by (cbn; lia).
  set (s1 := fire t0 (screenMount (screenUnmount s))).
  assert (Ht : timers s1 = filter (keep_other (nextId s)) (timers s ++ [t0]))
    by reflexivity.
  assert (Hn : now s1 = Z.max (now s) (now s + 500)) by reflexivity.
  rewrite runUntil_nothing_due.
  - eexists. split; [reflexivity|].
    cbn [now set_now]. rewrite Hn, !Z.max_r by lia.
    split; [reflexivity|]. split; [reflexivity|]. split; [reflexivity|].
    intros Ha. unfold onAppStateChange.
    change (isAuthenticated (set_now (now s + 500) s1)) with (isAuthenticated s).
    now rewrite Ha.
  - destruct (earliest (timers s1)) as [t|] eqn:Et; [|exact I].
    apply earliest_In in Et. rewrite Ht in Et.
    apply filter_In in Et as [Hin Hk].
    apply in_app_or in Hin as [Hin|[<-|[]]].
    + now apply Hlater.
    + unfold keep_other in Hk. cbn in Hk. now rewrite Nat.eqb_refl in Hk.
Qed.

Lemma remount_loses_photo_flag_witness :
  timers (screenMount loggedIn) = [mkTimer 1 120000 None CbIdleExpired] /\
  exists s2,
    runUntil 1 (now (screenMount loggedIn) + 500)
      (screenMount (screenUnmount (screenMount loggedIn))) = Some s2 /\
    photoFlag s2 = false.
Proof.
  split; [reflexivity |].
  destruct (remount_loses_photo_flag (screenMount loggedIn)) as (_ & s2 & Hr & _ & Hf & _).
  - intros t [<-|[]]. cbn. lia.
  - exists s2. split; [exact Hr | exact Hf].
Defined.

(** ** Timer handles and the single idle timeout *)

Definition isIdleCb (cb : callback) : bool :=
  match cb with CbIdleExpired => true | _ => false end.

(** Number of idle timeouts pending at once. *)
Definition idleTimeoutsPending (s : state) : nat :=
  List.length (filter (fun t => isIdleCb (t_cb t)) (timers s)).

(** Handles are pairwise distinct and were all issued already; every
    pending idle timeout is the one [idleTimer.current] refers to. *)
Record timersWf (s : state) : Prop := mkTimersWf {
  wf_nodup : NoDup (map t_id (timers s));
  wf_bound : forall t, In t (timers s) -> (t_id t < nextId s)%nat;
  wf_idle : forall t, In t (timers s) -> t_cb t = CbIdleExpired ->
                      idleTimer s = Some (t_id t)
}.

Lemma timersWf_ext (s s' : state) :
  timers s' = timers s -> nextId s' = nextId s -> idleTimer s' = idleTimer s ->
  timersWf s -> timersWf s'.
Proof.
  intros Et En Ei [H1 H2 H3]. constructor; rewrite ?Et, ?En, ?Ei; auto.
Qed.

Lemma NoDup_map_filter {A B} (f : A -> B) (g : A -> bool) (l : list A) :
  NoDup (map f l) -> NoDup (map f (filter g l)).
Proof.
  induction l as [|a l IH]; cbn; [auto|].
  intros H. inversion H as [|x xs Hn Hd]; subst.
  destruct (g a); cbn; [constructor|]; auto.
  intros Hin. apply Hn. apply in_map_iff in Hin as (y & Ey & Hy).
  apply filter_In in Hy as [Hy _]. apply in_map_iff. now exists y.
Qed.

Lemma timersWf_clearTimer (id : nat) (s : state) :
  timersWf s -> timersWf (clearTimer id s).
Proof.
  intros [H1 H2 H3]. constructor; cbn.
  - now apply NoDup_map_filter.
  - intros t Ht. apply filter_In in Ht as [Ht _]. auto.
  - intros t Ht. apply filter_In in Ht as [Ht _]. auto.
Qed.

Lemma timersWf_clearRef (r : option nat) (s : state) :
  timersWf s -> timersWf (clearRef r s).
Proof. destruct r; cbn [clearRef]; [apply timersWf_clearTimer | auto]. Qed.

Lemma NoDup_map_snoc_fresh (ts : list timer) (t0 : timer) :
  NoDup (map t_id ts) -> (forall t, In t ts -> t_id t <> t_id t0) ->
  NoDup (map t_id (ts ++ [t0])).
Proof.
  intros Hn Hf. rewrite map_app. cbn.
  apply NoDup_app; [exact Hn | repeat constructor; auto |].
  intros x Hx [<-|[]]. apply in_map_iff in Hx as (y & Ey & Hy).
  exact (Hf y Hy Ey).
Qed.

(** Registering a timer that is no idle timeout. *)
Lemma timersWf_setTimeout (cb : callback) (d : Z) (s : state) :
  cb <> CbIdleExpired -> timersWf s -> timersWf (snd (setTimeout cb d s)).
Proof.
  intros Hcb [H1 H2 H3]. constructor; cbn.
  - apply NoDup_map_snoc_fresh; [exact H1|].
    intros t Ht. cbn. specialize (H2 t Ht). lia.
  - intros t Ht. apply in_app_or in Ht as [Ht|[<-|[]]]; cbn.
    + specialize (H2 t Ht). lia.
    + lia.
  - intros t Ht Hi. apply in_app_or in Ht as [Ht|[<-|[]]]; auto.
    cbn in Hi. congruence.
Qed.

Lemma timersWf_setInterval (cb : callback) (d : Z) (s : state) :
  cb <> CbIdleExpired -> timersWf s -> timersWf (snd (setInterval cb d s)).
Proof.
  intros Hcb [H1 H2 H3]. constructor; cbn.
  - apply NoDup_map_snoc_fresh; [exact H1|].
    intros t Ht. cbn. specialize (H2 t Ht). lia.
  - intros t Ht. apply in_app_or in Ht as [Ht|[<-|[]]]; cbn.
    + specialize (H2 t Ht). lia.
    + lia.
  - intros t Ht Hi. apply in_app_or in Ht as [Ht|[<-|[]]]; auto.
    cbn in Hi. congruence.
Qed.

(** Re-arming: the previous idle timeout is cleared before the new one is
    registered, so the new one is the only one. *)
Lemma timersWf_resetIdleTimerWith (a d : bool) (s : state) :
  timersWf s -> timersWf (resetIdleTimerWith a d s).
Proof.
  intros Hwf. unfold resetIdleTimerWith. destruct (negb a || d); [exact Hwf|].
  pose proof (timersWf_clearRef (idleTimer s) s Hwf) as [H1 H2 H3].
  assert (Hnone : forall t, In t (timers (clearRef (idleTimer s) s)) ->
                            t_cb t <> CbIdleExpired).
  { intros t Ht Hi. pose proof (H3 t Ht Hi) as Hr.
    rewrite clearRef_idleTimer in Hr. rewrite Hr in Ht. cbn in Ht.
    apply filter_In in Ht as [_ Hk]. unfold keep_other in Hk.
    now rewrite Nat.eqb_refl in Hk. }
  rewrite clearRef_nextId in H2.
  constructor; cbn -[clearRef]; rewrite ?clearRef_nextId, ?clearRef_now.
  - apply NoDup_map_snoc_fresh; [exact H1|].
    intros t Ht. cbn. specialize (H2 t Ht). lia.
  - intros t Ht. apply in_app_or in Ht as [Ht|[<-|[]]]; cbn.
    + specialize (H2 t Ht). lia.
    + lia.
  - intros t Ht Hi. apply in_app_or in Ht as [Ht|[<-|[]]]; [|reflexivity].
    now apply Hnone in Ht.
Qed.

Lemma timersWf_sessionEffect (prev : bool) (s : state) :
  timersWf s -> timersWf (sessionEffect prev s).
Proof.
  intros H. unfold sessionEffect.
  set (s1 := if prev then _ else s).
  assert (H1 : timersWf s1)
    by (subst s1; destruct prev; auto; now apply timersWf_clearRef, timersWf_clearRef).
  destruct (isAuthenticated s1); cbn [negb].
  - now apply timersWf_resetIdleTimerWith.
  - now apply timersWf_clearRef, timersWf_clearRef.
Qed.

Lemma timersWf_setAuthenticated (v : bool) (s : state) :
  timersWf s -> timersWf (setAuthenticated v s).
Proof.
  intros H. unfold setAuthenticated.
  destruct (Bool.eqb v (isAuthenticated s)).
  - now apply (timersWf_ext s).
  - apply timersWf_sessionEffect. now apply (timersWf_ext s).
Qed.

Lemma timersWf_safeLogout (s : state) : timersWf s -> timersWf (safeLogout s).
Proof.
  intros H. unfold safeLogout. apply timersWf_setTimeout; [discriminate|].
  now apply (timersWf_ext s).
Qed.

Lemma timersWf_onBackground (s : state) : timersWf s -> timersWf (onBackground s).
Proof.
  intros H. unfold onBackground.
  apply (timersWf_ext (clearRef (countdownTimer (clearRef (idleTimer s) s))
                         (clearRef (idleTimer s) s))); try reflexivity.
  now apply timersWf_clearRef, timersWf_clearRef.
Qed.

Lemma timersWf_countdownTick (s : state) : timersWf s -> timersWf (countdownTick s).
Proof.
  intros H. unfold countdownTick.
  set (s1 := if countdown s =? 2 then _ else s).
  assert (H1 : timersWf s1)
    by (subst s1; destruct (countdown s =? 2); auto; now apply (timersWf_ext s)).
  set (s2 := if countdown s <=? 1 then _ else s1).
  assert (H2 : timersWf s2).
  { subst s2. destruct (countdown s <=? 1); [|exact H1].
    apply timersWf_safeLogout.
    apply (timersWf_ext (clearRef (countdownTimer s1) s1)); try reflexivity.
    now apply timersWf_clearRef. }
  now apply (timersWf_ext s2).
Qed.

Lemma timersWf_idleExpired (s : state) : timersWf s -> timersWf (idleExpired s).
Proof.
  intros H. unfold idleExpired, startCountdown.
  apply (timersWf_ext
           (snd (setInterval CbCountdownTick 1000
                   (set_countdown COUNTDOWN_SECONDS (setShowModal true s)))));
    try reflexivity.
  apply timersWf_setInterval; [discriminate|].
  now apply (timersWf_ext s).
Qed.

Lemma timersWf_handleStay (s : state) : timersWf s -> timersWf (handleStay s).
Proof.
  intros H. unfold handleStay. apply timersWf_setTimeout; [discriminate|].
  apply timersWf_clearRef. now apply (timersWf_ext s).
Qed.

Lemma timersWf_handleUserInteraction (s : state) :
  timersWf s -> timersWf (handleUserInteraction s).
Proof.
  intros H. unfold handleUserInteraction.
  destruct (negb (isAuthenticated s) || timeoutDisabled s); [exact H|].
  destruct (negb (showModal s)); [|exact H].
  now apply timersWf_resetIdleTimerWith.
Qed.

Lemma timersWf_onAppStateChange (rev : revision) (st : appStatus) (s : state) :
  timersWf s -> timersWf (onAppStateChange rev st s).
Proof.
  intros H. destruct rev; unfold onAppStateChange.
  - destruct st; cbn [listenerIdleOnly]; auto.
    now apply timersWf_resetIdleTimerWith.
  - destruct (isAuthenticated s); cbn [negb]; auto.
    destruct st; cbn [listenerScreenFlag]; auto using timersWf_onBackground.
    destruct (photoFlag s); auto using timersWf_safeLogout.
  - destruct (isAuthenticated s); cbn [negb]; auto.
    destruct st; cbn [listenerPhotoOp]; auto using timersWf_onBackground.
    destruct (photoFlag s); auto using timersWf_safeLogout.
    now apply (timersWf_ext s).
Qed.

(** Taking the fired timer off the queue, or putting an interval back
    under its own handle. *)
Lemma timersWf_fire_queue (t : timer) (s : state) :
  timersWf s -> In t (timers s) ->
  timersWf
    (match t_every t with
     | Some p =>
         set_timers
           (timers (clearTimer (t_id t) (set_now (Z.max (now s) (t_due t)) s))
            ++ [mkTimer (t_id t) (now (set_now (Z.max (now s) (t_due t)) s) + p)
                  (Some p) (t_cb t)])
           (clearTimer (t_id t) (set_now (Z.max (now s) (t_due t)) s))
     | None => clearTimer (t_id t) (set_now (Z.max (now s) (t_due t)) s)
     end).
Proof.
  intros Hwf Hin.
  assert (Hc : timersWf (clearTimer (t_id t) (set_now (Z.max (now s) (t_due t)) s)))
    by (apply timersWf_clearTimer; now apply (timersWf_ext s)).
  destruct (t_every t) as [p|]; [|exact Hc].
  destruct Hc as [H1 H2 H3]. destruct Hwf as [W1 W2 W3].
  constructor; cbn in *.
  - apply NoDup_map_snoc_fresh; [exact H1|].
    intros u Hu. cbn. apply filter_In in Hu as [_ Hk].
    unfold keep_other in Hk. apply negb_true_iff, Nat.eqb_neq in Hk. exact Hk.
  - intros u Hu. apply in_app_or in Hu as [Hu|[<-|[]]]; cbn; auto.
  - intros u Hu Hi. apply in_app_or in Hu as [Hu|[<-|[]]]; cbn in *; auto.
Qed.

Lemma timersWf_step (rev : revision) (e : event) (s : state) :
  timersWf s -> timersWf (step rev e s).
Proof.
  intros H.
  destruct e as [st| | |v|v|v| | | | | |t]; cbn [step].
  - now apply timersWf_onAppStateChange.
  - destruct rev; auto using timersWf_handleUserInteraction.
  - now apply timersWf_handleStay.
  - now apply timersWf_setAuthenticated.
  - unfold setTimeoutDisabled.
    destruct (Bool.eqb v (timeoutDisabled s)); auto.
    apply timersWf_sessionEffect. now apply (timersWf_ext s).
  - destruct rev; auto; now apply (timersWf_ext s).
  - destruct rev; auto; now apply (timersWf_ext s).
  - destruct rev; auto. unfold screenUnmount.
    now apply timersWf_setTimeout.
  - exact H.
  - exact H.
  - unfold fireNext. destruct (earliest (timers s)) as [t|] eqn:E; [|exact H].
    pose proof (timersWf_fire_queue t s H (earliest_In _ _ E)) as Hq.
    unfold fire. cbv zeta.
    set (q := match t_every t with Some _ => _ | None => _ end) in *.
    destruct (t_cb t) as [| | | |a d|]; cbn [runCallback].
    + now apply timersWf_idleExpired.
    + now apply timersWf_countdownTick.
    + apply timersWf_setTimeout; [discriminate|].
      now apply timersWf_setAuthenticated.
    + now apply (timersWf_ext q).
    + now apply timersWf_resetIdleTimerWith.
    + now apply (timersWf_ext q).
  - now apply (timersWf_ext s).
Qed.

Lemma timersWf_initial : timersWf initial.
Proof. constructor; cbn; [constructor | intros t [] | intros t []]. Qed.

Lemma timersWf_at_most_one_idle (s : state) :
  timersWf s -> (idleTimeoutsPending s <= 1)%nat.
Proof.
  intros [H1 _ H3]. unfold idleTimeoutsPending.
  assert (G : forall ts : list timer,
             NoDup (map t_id ts) ->
             (forall t, In t ts -> t_cb t = CbIdleExpired -> idleTimer s = Some (t_id t)) ->
             (List.length (filter (fun t => isIdleCb (t_cb t)) ts) <= 1)%nat).
  { induction ts as [|a ts IH]; intros Hn Hi; cbn; [lia|].
    inversion Hn as [|x xs Hna Hnd]; subst.
    assert (IH' := IH Hnd (fun t Ht => Hi t (or_intror Ht))).
    destruct (isIdleCb (t_cb a)) eqn:Ea; [|exact IH'].
    cbn. destruct (filter (fun t => isIdleCb (t_cb t)) ts) as [|b l] eqn:Ef; [cbn; lia|].
    exfalso.
    assert (Hb : In b (filter (fun t => isIdleCb (t_cb t)) ts))
      by (rewrite Ef; now left).
    apply filter_In in Hb as [Hb Hbi].
    assert (Ca : t_cb a = CbIdleExpired) by (destruct (t_cb a); cbn in Ea; congruence).
    assert (Cb : t_cb b = CbIdleExpired) by (destruct (t_cb b); cbn in Hbi; congruence).
    pose proof (Hi a (or_introl eq_refl) Ca) as Ra.
    pose proof (Hi b (or_intror Hb) Cb) as Rb.
    apply Hna. apply in_map_iff. exists b. split; [congruence | exact Hb]. }
  now apply G.
Qed.

(** From launch on, along every sequence of events and in every revision:
    the handles of the pending timers are pairwise distinct, every one of
    them was issued before (below [nextId]), and at most one idle timeout is
    pending, namely the one [idleTimer.current] refers to.  Re-arming never
    piles up idle timeouts. *)
Theorem idle_timeout_never_duplicated (rev : revision) (es : list event) :
  timersWf (run rev es initial) /\
  (idleTimeoutsPending (run rev es initial) <= 1)%nat /\
  (idleTimeoutsPending (run rev es initial) = 1%nat ->
   idleArmed (run rev es initial) = true).
Proof.
  assert (H : timersWf (run rev es initial)).
  { unfold run. generalize timersWf_initial. generalize initial.
    induction es as [|e es IH]; intros s Hs; cbn; auto.
    apply IH. now apply timersWf_step. }
  split; [exact H|]. split; [now apply timersWf_at_most_one_idle|].
  set (s := run rev es initial) in *.
  intros H1. unfold idleTimeoutsPending in H1.
  destruct (filter (fun t => isIdleCb (t_cb t)) (timers s)) as [|b l] eqn:Ef;
    [discriminate|].
  assert (Hb : In b (filter (fun t => isIdleCb (t_cb t)) (timers s)))
    by (rewrite Ef; now left).
  apply filter_In in Hb as [Hb Hbi].
  assert (Cb : t_cb b = CbIdleExpired) by (destruct (t_cb b); cbn in Hbi; congruence).
  unfold idleArmed. rewrite (wf_idle s H b Hb Cb).
  unfold pendingb. apply existsb_exists. exists b. split; [exact Hb|].
  apply Nat.eqb_refl.
Qed.

Lemma idle_timeout_never_duplicated_witness :
  idleTimeoutsPending (run RevPhotoOp [EvSetAuthenticated true; EvPress; EvPress] initial)
  = 1%nat /\
  idleArmed (run RevPhotoOp [EvSetAuthenticated true; EvPress; EvPress] initial) = true.
Proof.
  split; [reflexivity |].
  exact (proj2 (proj2 (idle_timeout_never_duplicated RevPhotoOp
                         [EvSetAuthenticated true; EvPress; EvPress])) eq_refl).
Defined.

(** ** Going to the background, by handle *)

(** The timer [t] is the one whose handle the ref [r] holds. *)
Definition heldBy (r : option nat) (t : timer) : bool :=
  match r with
  | Some id => Nat.eqb (t_id t) id
  | None => false
  end.

Lemma filter_twice {A : Type} (f g : A -> bool) (l : list A) :
  filter g (filter f l) = filter (fun x => f x && g x) l.
Proof.
  induction l as [|a l IH]; cbn; [reflexivity|].
  destruct (f a); cbn; [destruct (g a); now rewrite IH | exact IH].
Qed.

Lemma onBackground_timers (s : state) :
  timers (onBackground s)
  = filter (fun t => negb (heldBy (idleTimer s) t)
                     && negb (heldBy (countdownTimer s) t)) (timers s).
Proof.
  unfold onBackground, setShowModal, emit. cbn [timers set_trace set_showModal].
  rewrite clearRef_countdownTimer.
  destruct (idleTimer s) as [i|], (countdownTimer s) as [c|];
    cbn [clearRef clearTimer timers set_timers heldBy negb].
  - apply filter_twice.
  - apply filter_ext. intros t. unfold keep_other. now rewrite andb_true_r.
  - apply filter_ext. intros t. reflexivity.
  - clear. induction (timers s) as [|a l IH]; cbn; [reflexivity|]. now f_equal.
Qed.

Lemma onBackground_trace (s : state) :
  trace (onBackground s) = trace s ++ [FxShowModal false].
Proof.
  unfold onBackground, setShowModal, emit. cbn. now autorewrite with frame.
Qed.

Lemma held_not_pending (r : option nat) (s s' : state) (f : timer -> bool) :
  timers s' = filter f (timers s) ->
  (forall t, heldBy r t = true -> f t = false) ->
  forall id, r = Some id -> pendingb id s' = false.
Proof.
  intros Et Hf id ->. unfold pendingb. rewrite Et. clear Et.
  induction (timers s) as [|a l IH]; cbn; [reflexivity|].
  destruct (f a) eqn:Ea; cbn; [|exact IH].
  rewrite IH, orb_false_r.
  destruct (Nat.eqb (t_id a) id) eqn:E; [|reflexivity].
  rewrite (Hf a) in Ea; [discriminate | exact E].
Qed.

(** C3.  In both revisions of SessionManager.tsx that have a background
    branch, a transition to Background while authenticated takes out of
    the timer queue exactly the timers whose handles [idleTimer.current]
    and [countdownTimer.current] hold, and nothing else: the idle timeout
    that was pending and the countdown interval that was running are no
    longer pending, whatever the refs say afterwards; from a state of a
    run of the application no idle timeout is left in the queue at all.
    The modal is hidden and the user stays logged in.  If the flag is not
    set, the next transition to Active is safeLogout: the modal stays
    hidden, the 0 ms logout timeout is appended to the queue and nothing
    else is; no countdown interval is registered, the counter is not
    touched, and a countdown tick still pending afterwards is not the
    interval that was running. *)
Theorem C3_background_suspension (rev : revision) (s : state)
    (Hrev : rev <> RevIdleOnly) (Hauth : isAuthenticated s = true) :
  let b := onAppStateChange rev Background s in
  let a := onAppStateChange rev Active b in
  (timers b
   = filter (fun t => negb (heldBy (idleTimer s) t)
                      && negb (heldBy (countdownTimer s) t)) (timers s) /\
   (forall id, idleTimer s = Some id -> pendingb id b = false) /\
   (forall id, countdownTimer s = Some id -> pendingb id b = false) /\
   (timersWf s -> forall t, In t (timers b) -> t_cb t <> CbIdleExpired)) /\
  (idleArmed b = false /\ countdownRunning b = false /\ showModal b = false /\
   isAuthenticated b = true /\ trace b = trace s ++ [FxShowModal false]) /\
  (photoFlag s = false ->
   a = safeLogout b /\
   timers a = timers b ++ [mkTimer (nextId b) (now b + 0) None CbClearAuth] /\
   countdown a = countdown s /\
   showModal a = false /\
   isAuthenticated a = true /\
   trace a = trace s ++ [FxShowModal false; FxShowModal false] /\
   (forall t, In t (timers a) -> t_cb t = CbCountdownTick ->
      In t (timers s) /\ heldBy (countdownTimer s) t = false)).
Proof.
  assert (Hb : onAppStateChange rev Background s = onBackground s).
  { destruct rev; [congruence | |]; unfold onAppStateChange; now rewrite Hauth. }
  cbv zeta. rewrite Hb.
  pose proof (onBackground_timers s) as Ht.
  destruct (onBackground_cancels s) as (Hi & Hc & Hm).
  split; [|split].
  - split; [exact Ht|]. split; [|split].
    + apply (held_not_pending (idleTimer s) s _ _ Ht).
      intros t H. now rewrite H.
    + apply (held_not_pending (countdownTimer s) s _ _ Ht).
      intros t H. rewrite H. apply andb_false_r.
    + intros Hwf t Hin Hcb. rewrite Ht in Hin.
      apply filter_In in Hin as [Hin Hk].
      rewrite (wf_idle s Hwf t Hin Hcb) in Hk. cbn in Hk.
      now rewrite Nat.eqb_refl in Hk.
  - split; [exact Hi|]. split; [exact Hc|]. split; [exact Hm|].
    split; [now rewrite onBackground_auth | apply onBackground_trace].
  - intros Hf.
    assert (Ha : onAppStateChange rev Active (onBackground s)
                 = safeLogout (onBackground s)).
    { destruct rev; [congruence | |]; unfold onAppStateChange;
        rewrite onBackground_auth, Hauth;
        cbn [negb listenerScreenFlag listenerPhotoOp];
        now rewrite onBackground_flag, Hf. }
    rewrite Ha.
    assert (Hq : timers (safeLogout (onBackground s))
                 = timers (onBackground s)
                   ++ [mkTimer (nextId (onBackground s))
                         (now (onBackground s) + 0) None CbClearAuth])
      by reflexivity.
    split; [reflexivity|]. split; [exact Hq|].
    split; [unfold onBackground, safeLogout, setShowModal, emit; cbn;
            now autorewrite with frame|].
    split; [reflexivity|].
    split; [change (isAuthenticated (safeLogout (onBackground s)))
              with (isAuthenticated (onBackground s));
            now rewrite onBackground_auth|].
    split.
    + change (trace (safeLogout (onBackground s)))
        with (trace (onBackground s) ++ [FxShowModal false]).
      rewrite onBackground_trace. now rewrite <- app_assoc.
    + intros t Hin Hcb. rewrite Hq in Hin. apply in_app_or in Hin.
      destruct Hin as [Hin | [<- | []]]; [|discriminate].
      rewrite Ht in Hin. apply filter_In in Hin as [Hin Hk].
      split; [exact Hin|].
      apply andb_true_iff in Hk as [_ Hk]. now apply negb_true_iff in Hk.
Qed.

(** The session with the countdown running, ten seconds from logout. *)
Definition countingDown : state :=
  run RevPhotoOp [EvSetAuthenticated true; EvFire] initial.

Lemma C3_background_suspension_witness :
  RevPhotoOp <> RevIdleOnly /\ isAuthenticated countingDown = true /\
  countdownRunning countingDown = true /\
  countdownTimer countingDown = Some 2%nat /\
  pendingb 2 (onAppStateChange RevPhotoOp Background countingDown) = false /\
  timers (onAppStateChange RevPhotoOp Background countingDown) = [].
Proof.
  split; [discriminate|]. split; [reflexivity|]. split; [reflexivity|].
  split; [reflexivity|].
  assert (Hrev : RevPhotoOp <> RevIdleOnly) by discriminate.
  destruct (C3_background_suspension RevPhotoOp countingDown Hrev eq_refl)
    as ((Ht & _ & Hc & _) & _ & _).
  split; [now apply Hc | rewrite Ht; reflexivity].
Defined.

(** * The keypad of PinScreen.tsx *)

Module PinFlow.
Import PinScreen.

(** [prev.slice(0, -1)] *)
Fixpoint dropLast (s : string) : string :=
  match s with
  | EmptyString => EmptyString
  | String c rest =>
      match rest with
      | EmptyString => EmptyString
      | String _ _ => String c (dropLast rest)
      end
  end.

(** [isCreating && isConfirming]: the keypad edits [confirmPin]. *)
Definition confirmStage (p : screen) : bool := isCreating p && isConfirming p.

(** [handleNumberPress(num)] *)
Definition handleNumberPress (num : string) (p : screen) (a : app) : screen * app :=
  let p1 := set_error "" p in
  (if confirmStage p then
     if Nat.ltb (String.length (confirmPin p)) 4
     then set_confirmPin (confirmPin p ++ num) p1 else p1
   else
     if Nat.ltb (String.length (pin p)) 4
     then set_pin (pin p ++ num) p1 else p1,
   buzz ImpactLight a).

(** [handleBackspace] *)
Definition handleBackspace (p : screen) (a : app) : screen * app :=
  (if confirmStage p then set_confirmPin (dropLast (confirmPin p)) p
   else set_pin (dropLast (pin p)) p,
   buzz ImpactLight a).

(** [handleClear] *)
Definition handleClear (p : screen) (a : app) : screen * app :=
  (if confirmStage p then set_confirmPin "" p else set_pin "" p,
   buzz ImpactMedium a).

(** A value that [if (x)] accepts: a non-empty string. *)
Definition truthy (o : option string) : bool :=
  match o with
  | Some s => negb (String.eqb s "")
  | None => false
  end.

(** [checkExistingPin], once the read of the store has settled; [readOk]
    false stands for the read throwing into the catch.  The web and the
    native branch do the same with their store. *)
Definition checkExistingPin (readOk : bool) (p : screen) (a : app) : screen * app :=
  if readOk then
    if truthy (store a)
    then (set_storedPin (store a) p, set_hasPin true a)
    else (set_isCreating true p, a)
  else (set_isCreating true p, a).

(** What the effect on [pin, confirmPin] hands to [setTimeout(_, 200)]:
    the switch to confirmation, or [handleSubmit] of the render [c]. *)
Inductive scheduled : Type :=
| AutoConfirm
| AutoSubmit (c : screen).

Definition autoEffect (p : screen) : option scheduled :=
  if isCreating p && negb (isConfirming p) && Nat.eqb (String.length (pin p)) 4
  then Some AutoConfirm
  else if isCreating p && isConfirming p && Nat.eqb (String.length (confirmPin p)) 4
  then Some (AutoSubmit p)
  else if negb (isCreating p) && Nat.eqb (String.length (pin p)) 4
  then Some (AutoSubmit p)
  else None.

(** The screen, what it reaches, and the pending 200 ms timeouts in the
    order they were scheduled. *)
Record world : Type := mkWorld {
  scr : screen;
  env : app;
  queue : list scheduled
}.

(** After an event is handled the component renders again; the effect runs
    if [pin] or [confirmPin] changed. *)
Definition commit (old : screen) (q : list scheduled) (r : screen * app) : world :=
  let p := fst r in
  if String.eqb (pin old) (pin p) && String.eqb (confirmPin old) (confirmPin p)
  then mkWorld p (snd r) q
  else match autoEffect p with
       | Some k => mkWorld p (snd r) (q ++ [k])
       | None => mkWorld p (snd r) q
       end.

Definition runScheduled (k : scheduled) (writeOk : bool)
    (p : screen) (a : app) : screen * app :=
  match k with
  | AutoConfirm => (set_isConfirming true p, buzz ImpactLight a)
  | AutoSubmit c => handleSubmitWith c writeOk p a
  end.

Inductive event : Type :=
| Digit (num : string)        (* a number button *)
| Backspace
| Clear
| Timeout (writeOk : bool)    (* the oldest pending timeout runs *)
| Loaded (readOk : bool).     (* checkExistingPin settles *)

Definition step (e : event) (w : world) : world :=
  match e with
  | Digit num => commit (scr w) (queue w) (handleNumberPress num (scr w) (env w))
  | Backspace => commit (scr w) (queue w) (handleBackspace (scr w) (env w))
  | Clear => commit (scr w) (queue w) (handleClear (scr w) (env w))
  | Timeout writeOk =>
      match queue w with
      | k :: rest => commit (scr w) rest (runScheduled k writeOk (scr w) (env w))
      | [] => w
      end
  | Loaded readOk => commit (scr w) (queue w) (checkExistingPin readOk (scr w) (env w))
  end.

Definition run (es : list event) (w : world) : world :=
  fold_left (fun acc e => step e acc) es w.

(** The screen as mounted: every cell at its useState default. *)
Definition mounted (a : app) : world :=
  mkWorld (mkScreen "" "" false false "" None) a [].

(** The ten number buttons pass a one-character string. *)
Definition key (c : Ascii.ascii) : event := Digit (String c EmptyString).

(** ** Length of the entered PIN *)

Lemma length_append (s t : string) :
  String.length (s ++ t) = (String.length s + String.length t)%nat.
Proof. induction s as [|c s IH]; cbn; [reflexivity | now rewrite IH]. Qed.

Lemma length_dropLast (s : string) :
  String.length (dropLast s) = Nat.pred (String.length s).
Proof.
  induction s as [|c s IH]; [reflexivity|].
  destruct s as [|c' s']; [reflexivity|].
  cbn [dropLast String.length] in *. rewrite IH. reflexivity.
Qed.

Definition bounded (p : screen) : Prop :=
  (String.length (pin p) <= 4)%nat /\ (String.length (confirmPin p) <= 4)%nat.

(** An event the keypad can produce: number buttons pass one character. *)
Definition fromKeypad (e : event) : Prop :=
  match e with
  | Digit num => String.length num = 1%nat
  | _ => True
  end.

Lemma commit_scr (old : screen) (q : list scheduled) (r : screen * app) :
  scr (commit old q r) = fst r /\ env (commit old q r) = snd r.
Proof.
  unfold commit.
  destruct (String.eqb (pin old) (pin (fst r)) && String.eqb (confirmPin old) (confirmPin (fst r)));
    [split; reflexivity|].
  destruct (autoEffect (fst r)); split; reflexivity.
Qed.

Lemma handleSubmitWith_bounded (c : screen) (wk : bool) (p : screen) (a : app) :
  bounded p -> bounded (fst (handleSubmitWith c wk p a)).
Proof.
  intros [H1 H2]. unfold handleSubmitWith, bounded.
  destruct (isCreating c).
  - destruct (negb (Nat.eqb (String.length (pin c)) 4)); cbn; [auto|].
    destruct (negb (isConfirming c)); cbn; [auto|].
    destruct (negb (String.eqb (pin c) (confirmPin c))); cbn; [split; [auto|lia]|].
    destruct wk; cbn; auto.
  - destruct (matchesStored (pin c) (storedPin c)); cbn; [auto | split; [lia|auto]].
Qed.

Lemma step_bounded (e : event) (w : world) :
  fromKeypad e -> bounded (scr w) -> bounded (scr (step e w)).
Proof.
  intros He [H1 H2]. destruct e as [num| | |wk|rd]; cbn [step].
  - rewrite (proj1 (commit_scr _ _ _)). unfold handleNumberPress. cbn [fst].
    cbn in He. unfold bounded.
    destruct (confirmStage (scr w)).
    + destruct (Nat.ltb (String.length (confirmPin (scr w))) 4) eqn:E; cbn; [|auto].
      apply Nat.ltb_lt in E. rewrite length_append. split; [auto|lia].
    + destruct (Nat.ltb (String.length (pin (scr w))) 4) eqn:E; cbn; [|auto].
      apply Nat.ltb_lt in E. rewrite length_append. split; [lia|auto].
  - rewrite (proj1 (commit_scr _ _ _)). unfold handleBackspace, bounded. cbn [fst].
    destruct (confirmStage (scr w)); cbn; rewrite length_dropLast; split; auto; lia.
  - rewrite (proj1 (commit_scr _ _ _)). unfold handleClear, bounded. cbn [fst].
    destruct (confirmStage (scr w)); cbn; split; auto; lia.
  - destruct (queue w) as [|k rest]; [split; auto|].
    rewrite (proj1 (commit_scr _ _ _)).
    destruct k as [|c]; cbn [runScheduled].
    + split; auto.
    + apply handleSubmitWith_bounded. split; auto.
  - rewrite (proj1 (commit_scr _ _ _)). unfold checkExistingPin.
    destruct rd; [destruct (truthy (store (env w)))|]; split; auto.
Qed.

(** However the ten number buttons, backspace and clear are pressed, and
    whenever the pending timeouts and the load of the stored PIN happen in
    between, neither the entered PIN nor its confirmation ever holds more
    than four characters. *)
Theorem keypad_never_exceeds_four (es : list event) (w : world)
    (Hkeys : Forall fromKeypad es)
    (Hstart : bounded (scr w)) :
  (String.length (pin (scr (run es w))) <= 4)%nat /\
  (String.length (confirmPin (scr (run es w))) <= 4)%nat.
Proof.
  revert w Hstart. unfold run.
  induction Hkeys as [|e es He _ IH]; intros w Hw; cbn [fold_left]; [exact Hw|].
  apply IH. now apply step_bounded.
Qed.

Lemma keypad_never_exceeds_four_witness :
  (String.length
     (pin (scr (run [key "1"%char; key "2"%char; key "3"%char; key "4"%char; key "5"%char; Backspace; key "6"%char]
                  (mounted (mkApp initial true (Some "1236"%string) []))))) <= 4)%nat.
Proof.
  refine (proj1 (keypad_never_exceeds_four
            [key "1"%char; key "2"%char; key "3"%char; key "4"%char; key "5"%char; Backspace; key "6"%char]
            (mounted (mkApp initial true (Some "1236"%string) [])) _ _)).
  - repeat constructor.
  - split; cbn; lia.
Defined.

(** ** Once confirmation has started *)

(** A pending timeout that was scheduled during confirmation of the PIN [pn]. *)
Definition duringConfirm (pn : string) (k : scheduled) : Prop :=
  match k with
  | AutoConfirm => True
  | AutoSubmit c => isCreating c = true /\ isConfirming c = true /\ pin c = pn
  end.

(** Creation mode, confirmation started, and nothing older pending. *)
Definition confirming (w : world) : Prop :=
  isCreating (scr w) = true /\ isConfirming (scr w) = true /\
  Forall (duringConfirm (pin (scr w))) (queue w).

Lemma commit_confirming (old : screen) (q : list scheduled) (r : screen * app)
    (pn : string) :
  isCreating (fst r) = true -> isConfirming (fst r) = true -> pin (fst r) = pn ->
  Forall (duringConfirm pn) q ->
  confirming (commit old q r) /\ pin (scr (commit old q r)) = pn.
Proof.
  intros Hc Hf Hp Hq. unfold commit, confirming.
  destruct (String.eqb (pin old) (pin (fst r)) && String.eqb (confirmPin old) (confirmPin (fst r)));
    cbn; [rewrite Hp; auto|].
  unfold autoEffect. rewrite Hc, Hf. cbn [andb negb].
  destruct (Nat.eqb (String.length (confirmPin (fst r))) 4); cbn; rewrite Hp; auto.
  repeat split; auto. apply Forall_app. split; [exact Hq|].
  constructor; [|constructor]. cbn. auto.
Qed.

Lemma handleSubmitWith_confirming (c : screen) (wk : bool) (p : screen) (a : app) :
  isCreating c = true -> isConfirming c = true ->
  isCreating (fst (handleSubmitWith c wk p a)) = isCreating p /\
  isConfirming (fst (handleSubmitWith c wk p a)) = isConfirming p /\
  pin (fst (handleSubmitWith c wk p a)) = pin p /\
  (String.length (pin c) <> 4%nat ->
   session (snd (handleSubmitWith c wk p a)) = session a /\
   store (snd (handleSubmitWith c wk p a)) = store a).
Proof.
  intros Hc Hf. unfold handleSubmitWith. rewrite Hc, Hf. cbn [negb].
  destruct (Nat.eqb (String.length (pin c)) 4) eqn:E; cbn [negb].
  - apply Nat.eqb_eq in E.
    destruct (negb (String.eqb (pin c) (confirmPin c))); cbn;
      [|destruct wk; cbn]; repeat split; auto; congruence.
  - cbn. repeat split; auto.
Qed.

Lemma step_confirming (e : event) (w : world) :
  confirming w ->
  confirming (step e w) /\ pin (scr (step e w)) = pin (scr w) /\
  (String.length (pin (scr w)) <> 4%nat ->
   session (env (step e w)) = session (env w) /\
   store (env (step e w)) = store (env w)).
Proof.
  intros (Hc & Hf & Hq).
  assert (Hstage : confirmStage (scr w) = true)
    by (unfold confirmStage; now rewrite Hc, Hf).
  assert (Hcommit : forall q r,
             isCreating (fst r) = true -> isConfirming (fst r) = true ->
             pin (fst r) = pin (scr w) -> Forall (duringConfirm (pin (scr w))) q ->
             (String.length (pin (scr w)) <> 4%nat ->
              session (snd r) = session (env w) /\ store (snd r) = store (env w)) ->
             confirming (commit (scr w) q r) /\
             pin (scr (commit (scr w) q r)) = pin (scr w) /\
             (String.length (pin (scr w)) <> 4%nat ->
              session (env (commit (scr w) q r)) = session (env w) /\
              store (env (commit (scr w) q r)) = store (env w))).
  { intros q r R1 R2 R3 R4 R5.
    destruct (commit_confirming (scr w) q r (pin (scr w)) R1 R2 R3 R4) as [A B].
    rewrite (proj2 (commit_scr _ _ _)). auto. }
  destruct e as [num| | |wk|rd]; cbn [step].
  - unfold handleNumberPress. rewrite Hstage.
    destruct (Nat.ltb (String.length (confirmPin (scr w))) 4);
      apply Hcommit; auto.
  - unfold handleBackspace. rewrite Hstage. apply Hcommit; auto.
  - unfold handleClear. rewrite Hstage. apply Hcommit; auto.
  - destruct (queue w) as [|k rest] eqn:Eq.
    + split; [|auto]. unfold confirming. rewrite Eq. auto.
    + inversion Hq as [|k' rest' Hk Hrest]; subst.
      destruct k as [|c]; cbn [runScheduled].
      * apply Hcommit; auto.
      * destruct Hk as (Kc & Kf & Kp).
        destruct (handleSubmitWith_confirming c wk (scr w) (env w) Kc Kf)
          as (S1 & S2 & S3 & S4).
        apply Hcommit; auto; try congruence.
        intros Hl. apply S4. congruence.
  - unfold checkExistingPin.
    destruct rd; [destruct (truthy (store (env w)))|]; apply Hcommit; auto.
Qed.

(** In creation mode, once confirmation has started (and no timeout
    scheduled before that is still pending), the first PIN can no longer be
    edited: whatever is pressed and whichever timeouts run, [pin],
    [isCreating] and [isConfirming] keep their values.  The keypad only
    edits the confirmation. *)
Theorem first_pin_frozen_during_confirm (es : list event) (w : world)
    (Hw : confirming w) :
  confirming (run es w) /\ pin (scr (run es w)) = pin (scr w).
Proof.
  revert w Hw. unfold run.
  induction es as [|e es IH]; intros w Hw; cbn [fold_left]; [auto|].
  destruct (step_confirming e w Hw) as (S1 & S2 & _).
  destruct (IH _ S1) as (I1 & I2). split; [exact I1 | congruence].
Qed.

(** The race that leads there with a short PIN: four digits typed in
    creation mode, one removed before the 200 ms timeout switches to
    confirmation. *)
Definition shortPinConfirming : world :=
  run [Loaded false; key "1"%char; key "2"%char; key "3"%char; key "4"%char;
       Backspace; Timeout true]
      (mounted (mkApp initial false None [])).

Lemma first_pin_frozen_during_confirm_witness :
  confirming shortPinConfirming /\
  pin (scr (run [Clear; key "7"%char; Timeout true] shortPinConfirming))
  = "123"%string.
Proof.
  assert (H : confirming shortPinConfirming) by (repeat split; constructor).
  split; [exact H |].
  exact (proj2 (first_pin_frozen_during_confirm
                  [Clear; key "7"%char; Timeout true] shortPinConfirming H)).
Defined.

(** If confirmation has started while the first PIN does not have four
    characters (the 200 ms timeout that starts confirmation runs even when
    a digit was removed in the meantime), the screen is stuck: no sequence
    of presses and timeouts authenticates or writes the store; every
    submit ends in "PIN must be 4 digits". *)
Theorem short_first_pin_dead_end (es : list event) (w : world)
    (Hw : confirming w)
    (Hshort : String.length (pin (scr w)) <> 4%nat) :
  session (env (run es w)) = session (env w) /\
  store (env (run es w)) = store (env w).
Proof.
  revert w Hw Hshort. unfold run.
  induction es as [|e es IH]; intros w Hw Hs; cbn [fold_left]; [auto|].
  destruct (step_confirming e w Hw) as (S1 & S2 & S3).
  destruct (S3 Hs) as (E1 & E2).
  destruct (IH _ S1) as (I1 & I2); [congruence|].
  split; congruence.
Qed.

Lemma short_first_pin_dead_end_witness :
  confirming shortPinConfirming /\
  String.length (pin (scr shortPinConfirming)) = 3%nat /\
  store (env (run [key "1"%char; key "2"%char; key "3"%char; key "4"%char;
                   Timeout true] shortPinConfirming)) = None.
Proof.
  assert (H : confirming shortPinConfirming) by (repeat split; constructor).
  split; [exact H |]. split; [reflexivity |].
  refine (proj2 (short_first_pin_dead_end
            [key "1"%char; key "2"%char; key "3"%char; key "4"%char; Timeout true]
            shortPinConfirming H _)).
  vm_compute. discriminate.
Defined.

(** ** Creating a PIN and logging in with it *)

Lemma run_cons (e : event) (es : list event) (w : world) :
  run (e :: es) w = run es (step e w).
Proof. reflexivity. Qed.

Ltac eval_pin :=
  repeat (cbv [step commit handleNumberPress handleBackspace handleClear
               checkExistingPin runScheduled handleSubmitWith autoEffect
               confirmStage matchesStored key mounted dropLast truthy
               set_pin set_confirmPin set_isCreating set_isConfirming
               set_error set_storedPin
               pin confirmPin isCreating isConfirming error storedPin
               scr env queue
               String.length String.eqb String.append
               Nat.ltb Nat.leb Nat.eqb andb negb orb fst snd];
          rewrite ?Ascii.eqb_refl; cbn [List.app]).

Ltac step_pin := rewrite run_cons; eval_pin.

(** The four characters typed on the number buttons. *)
Definition typed (c1 c2 c3 c4 : ascii) : string :=
  String c1 (String c2 (String c3 (String c4 EmptyString))).

(** First launch, nothing stored: the screen goes to creation mode; typing
    four digits, letting the timeout start confirmation, typing the same
    four digits and letting the timeout submit (the write going through)
    stores exactly these four characters, sets [hasPin] and authenticates.
    On a later mount over a store that holds them, typing four digits and
    letting the timeout submit authenticates if they are the stored ones,
    and otherwise leaves the session as it is, shows "Incorrect PIN" and
    clears the entry. *)
Theorem created_pin_unlocks (c1 c2 c3 c4 e1 e2 e3 e4 : ascii)
    (a a' : app) (rd x y : bool)
    (Hnone : truthy (store a) = false)
    (Hkept : store a' = Some (typed c1 c2 c3 c4)) :
  (store (env (run [Loaded rd; key c1; key c2; key c3; key c4; Timeout x;
                    key c1; key c2; key c3; key c4; Timeout true]
                   (mounted a))) = Some (typed c1 c2 c3 c4) /\
   hasPin (env (run [Loaded rd; key c1; key c2; key c3; key c4; Timeout x;
                     key c1; key c2; key c3; key c4; Timeout true]
                    (mounted a))) = true /\
   session (env (run [Loaded rd; key c1; key c2; key c3; key c4; Timeout x;
                      key c1; key c2; key c3; key c4; Timeout true]
                     (mounted a))) = setAuthenticated true (session a) /\
   queue (run [Loaded rd; key c1; key c2; key c3; key c4; Timeout x;
               key c1; key c2; key c3; key c4; Timeout true]
              (mounted a)) = [])
  /\
  (typed e1 e2 e3 e4 = typed c1 c2 c3 c4 ->
   session (env (run [Loaded true; key e1; key e2; key e3; key e4; Timeout y]
                     (mounted a'))) = setAuthenticated true (session a') /\
   error (scr (run [Loaded true; key e1; key e2; key e3; key e4; Timeout y]
                   (mounted a'))) = ""%string)
  /\
  (typed e1 e2 e3 e4 <> typed c1 c2 c3 c4 ->
   session (env (run [Loaded true; key e1; key e2; key e3; key e4; Timeout y]
                     (mounted a'))) = session a' /\
   error (scr (run [Loaded true; key e1; key e2; key e3; key e4; Timeout y]
                   (mounted a'))) = "Incorrect PIN"%string /\
   pin (scr (run [Loaded true; key e1; key e2; key e3; key e4; Timeout y]
                 (mounted a'))) = ""%string).
Proof.
  unfold typed in *.
  split; [|split].
  - assert (E : step (Loaded rd) (mounted a)
                = mkWorld (mkScreen "" "" true false "" None) a []).
    { cbv [step checkExistingPin mounted scr env queue].
      rewrite Hnone. destruct rd; reflexivity. }
    rewrite run_cons, E. do 10 step_pin.
    repeat split; reflexivity.
  - intros Heq. injection Heq as -> -> -> ->.
    rewrite run_cons.
    cbv [step checkExistingPin mounted scr env queue]. rewrite Hkept.
    eval_pin. do 5 step_pin.
    split; reflexivity.
  - intros Hne.
    rewrite run_cons.
    cbv [step checkExistingPin mounted scr env queue]. rewrite Hkept.
    eval_pin. do 4 step_pin.
    rewrite run_cons.
    cbv [step queue runScheduled scr env handleSubmitWith isCreating
         matchesStored pin storedPin].
    rewrite (proj2 (String.eqb_neq _ _) Hne).
    eval_pin. repeat split; reflexivity.
Qed.

Lemma created_pin_unlocks_witness :
  session (env (run [Loaded true; key "1"%char; key "2"%char; key "3"%char;
                     key "4"%char; Timeout true]
                    (mounted (mkApp initial true (Some "1234"%string) []))))
  = setAuthenticated true initial.
Proof.
  refine (proj1 (proj1 (proj2 (created_pin_unlocks
            "1" "2" "3" "4" "1" "2" "3" "4"
            (mkApp initial false None [])
            (mkApp initial true (Some "1234"%string) [])
            true true true eq_refl eq_refl)) eq_refl)).
Defined.

(** ** When the screen authenticates *)

(** A pending submit was scheduled by the effect, for the render it closes over. *)
Definition fromEffect (k : scheduled) : Prop :=
  match k with
  | AutoConfirm => True
  | AutoSubmit c => autoEffect c = Some (AutoSubmit c)
  end.

Lemma autoEffect_fromEffect (p : screen) (k : scheduled) :
  autoEffect p = Some k -> fromEffect k.
Proof.
  unfold autoEffect.
  destruct (isCreating p && negb (isConfirming p) && Nat.eqb (String.length (pin p)) 4) eqn:E1.
  - intros [= <-]. exact I.
  - destruct (isCreating p && isConfirming p && Nat.eqb (String.length (confirmPin p)) 4) eqn:E2.
    + intros [= <-]. cbn. unfold autoEffect. now rewrite E1, E2.
    + destruct (negb (isCreating p) && Nat.eqb (String.length (pin p)) 4) eqn:E3;
        [|discriminate].
      intros [= <-]. cbn. unfold autoEffect. now rewrite E1, E2, E3.
Qed.

Lemma commit_queue (old : screen) (q : list scheduled) (r : screen * app) :
  Forall fromEffect q -> Forall fromEffect (queue (commit old q r)).
Proof.
  intros Hq. unfold commit.
  destruct (String.eqb (pin old) (pin (fst r)) && String.eqb (confirmPin old) (confirmPin (fst r)));
    [exact Hq|].
  destruct (autoEffect (fst r)) as [k|] eqn:E; [|exact Hq].
  cbn. apply Forall_app. split; [exact Hq|].
  constructor; [|constructor]. now apply (autoEffect_fromEffect (fst r)).
Qed.

Lemma step_queue (e : event) (w : world) :
  Forall fromEffect (queue w) -> Forall fromEffect (queue (step e w)).
Proof.
  intros Hq. destruct e as [num| | |wk|rd]; cbn [step];
    try (now apply commit_queue).
  destruct (queue w) as [|k rest] eqn:Eq; [now rewrite Eq|].
  apply commit_queue. now inversion Hq.
Qed.

Lemma run_queue (es : list event) (w : world) :
  Forall fromEffect (queue w) -> Forall fromEffect (queue (run es w)).
Proof.
  revert w. unfold run. induction es as [|e es IH]; intros w Hq; cbn; auto.
  apply IH. now apply step_queue.
Qed.

Lemma setAuthenticated_value (v : bool) (s : state) :
  isAuthenticated (setAuthenticated v s) = v.
Proof.
  unfold setAuthenticated.
  destruct (Bool.eqb v (isAuthenticated s)) eqn:E.
  - apply Bool.eqb_prop in E. now rewrite E.
  - apply (sessionEffect_auth _ (set_isAuthenticated v (emit _ s))).
Qed.

(** From the mounted screen on, whatever happens: a step that turns an
    unauthenticated session into an authenticated one is the run of a
    pending submit.  The render it was scheduled for held a four-character
    entry which, in login mode, is the stored PIN of that render, and in
    creation mode is equal to its four-character confirmation; in creation
    mode the write to the store went through and stored that entry.  No
    key press authenticates, and no entry of another length does. *)
Theorem authenticates_only_on_match (a : app) (es : list event) (e : event)
    (Hun : isAuthenticated (session (env (run es (mounted a)))) = false)
    (Hin : isAuthenticated (session (env (step e (run es (mounted a))))) = true) :
  exists wk c rest,
    e = Timeout wk /\
    queue (run es (mounted a)) = AutoSubmit c :: rest /\
    String.length (pin c) = 4%nat /\
    ((isCreating c = false /\ storedPin c = Some (pin c)) \/
     (isCreating c = true /\ isConfirming c = true /\
      pin c = confirmPin c /\ wk = true /\
      store (env (step e (run es (mounted a)))) = Some (pin c))).
Proof.
  assert (Hq : Forall fromEffect (queue (run es (mounted a))))
    by (apply run_queue; constructor).
  set (w := run es (mounted a)) in *.
  destruct e as [num| | |wk|rd]; cbn [step] in Hin.
  - rewrite (proj2 (commit_scr _ _ _)) in Hin. cbn in Hin. congruence.
  - rewrite (proj2 (commit_scr _ _ _)) in Hin. cbn in Hin. congruence.
  - rewrite (proj2 (commit_scr _ _ _)) in Hin. cbn in Hin. congruence.
  - destruct (queue w) as [|k rest] eqn:Eq; [congruence|].
    cbn [step]. rewrite Eq.
    rewrite (proj2 (commit_scr _ _ _)) in Hin |- *.
    inversion Hq as [|k' rest' Hk Hrest]; subst.
    destruct k as [|c]; cbn [runScheduled] in Hin |- *; [cbn in Hin; congruence|].
    exists wk, c, rest. split; [reflexivity|]. split; [reflexivity|].
    cbn in Hk. unfold autoEffect in Hk.
    unfold handleSubmitWith in Hin |- *.
    destruct (isCreating c) eqn:Ec; cbn [andb negb] in Hk.
    + destruct (isConfirming c) eqn:Ef; cbn [andb negb] in Hk.
      * destruct (Nat.eqb (String.length (pin c)) 4) eqn:El; cbn [negb] in Hin |- *;
          [|cbn in Hin; congruence].
        apply Nat.eqb_eq in El. split; [exact El|]. right.
        destruct (String.eqb (pin c) (confirmPin c)) eqn:Em; cbn [negb] in Hin |- *;
          [|cbn in Hin; congruence].
        apply String.eqb_eq in Em.
        destruct wk; [|cbn in Hin; congruence].
        repeat split; auto.
      * destruct (Nat.eqb (String.length (pin c)) 4); discriminate.
    + destruct (Nat.eqb (String.length (pin c)) 4) eqn:El; [|discriminate].
      apply Nat.eqb_eq in El. split; [exact El|]. left. split; [reflexivity|].
      unfold matchesStored in Hin.
      destruct (storedPin c) as [sp|]; [|cbn in Hin; congruence].
      destruct (String.eqb (pin c) sp) eqn:Em; [|cbn in Hin; congruence].
      apply String.eqb_eq in Em. now subst sp.
  - rewrite (proj2 (commit_scr _ _ _)) in Hin. unfold checkExistingPin in Hin.
    destruct rd; [destruct (truthy (store (env w)))|]; cbn in Hin; congruence.
Qed.

Lemma authenticates_only_on_match_witness :
  exists wk c rest,
    Timeout true = Timeout wk /\
    queue (run [Loaded true; key "1"%char; key "2"%char; key "3"%char; key "4"%char]
             (mounted (mkApp initial true (Some "1234"%string) [])))
    = AutoSubmit c :: rest /\
    String.length (pin c) = 4%nat.
Proof.
  destruct (authenticates_only_on_match
              (mkApp initial true (Some "1234"%string) [])
              [Loaded true; key "1"%char; key "2"%char; key "3"%char; key "4"%char]
              (Timeout true) eq_refl eq_refl)
    as (wk & c & rest & H1 & H2 & H3 & _).
  exists wk, c, rest. split; [exact H1|]. split; [exact H2 | exact H3].
Defined.

End PinFlow.

(** * AppContext.tsx: members, attendance and sales

    The functions the member screens call.  The database behind them is an
    outside collaborator: the ids it hands out, and the dates read from the
    clock, are arguments.  JavaScript numbers that these functions only
    store and copy (ages, prices) are kept abstract; ids are integers. *)

Module Members.

Inductive membershipType : Type := student | regular | senior.

Section Store.
Variable number : Type.

Record Member : Type := mkMember {
  id : Z;
  firstname : string;
  lastname : string;
  age : number;
  gender : string;
  email : string;
  phone : string;
  photo : string;
  qr_code : string;
  qr_image_path : string;
  membership_type : membershipType;
  is_member : number;
  subscription_start : option string;      (* string | null *)
  subscription_end : option string
}.

(** [Partial<Member>]: [None] for a key that is absent. *)
Record MemberUpdate : Type := mkUpdate {
  u_id : option Z;
  u_firstname : option string;
  u_lastname : option string;
  u_age : option number;
  u_gender : option string;
  u_email : option string;
  u_phone : option string;
  u_photo : option string;
  u_qr_code : option string;
  u_qr_image_path : option string;
  u_membership_type : option membershipType;
  u_is_member : option number;
  u_subscription_start : option (option string);
  u_subscription_end : option (option string)
}.

Definition noUpdate : MemberUpdate :=
  mkUpdate None None None None None None None None None None None None None None.

Definition pick {A : Type} (u : option A) (old : A) : A :=
  match u with Some v => v | None => old end.

(** [{ ...m, ...updates }] *)
Definition merge (m : Member) (u : MemberUpdate) : Member :=
  mkMember (pick (u_id u) (id m)) (pick (u_firstname u) (firstname m))
           (pick (u_lastname u) (lastname m)) (pick (u_age u) (age m))
           (pick (u_gender u) (gender m)) (pick (u_email u) (email m))
           (pick (u_phone u) (phone m)) (pick (u_photo u) (photo m))
           (pick (u_qr_code u) (qr_code m))
           (pick (u_qr_image_path u) (qr_image_path m))
           (pick (u_membership_type u) (membership_type m))
           (pick (u_is_member u) (is_member m))
           (pick (u_subscription_start u) (subscription_start m))
           (pick (u_subscription_end u) (subscription_end m)).

Record Attendance : Type := mkAttendance {
  at_id : Z; member_id : Z; at_date : string; at_time : string
}.

Record Sale : Type := mkSale {
  sale_id : Z; sale_type : string; amount : number;
  sale_date : string; note : string
}.

Record PriceSettings : Type := mkPrices {
  membership : number;
  student_monthly : number;
  regular_monthly : number;
  senior_monthly : number;
  session_member : number;
  session_nonmember : number
}.

(** The part of AppState these functions read and write. *)
Record data : Type := mkData {
  members : list Member;
  attendance : list Attendance;
  sales : list Sale;
  priceSettings : PriceSettings
}.

Definition set_members (v : list Member) (d : data) : data :=
  mkData v (attendance d) (sales d) (priceSettings d).
Definition set_attendance (v : list Attendance) (d : data) : data :=
  mkData (members d) v (sales d) (priceSettings d).
Definition set_sales (v : list Sale) (d : data) : data :=
  mkData (members d) (attendance d) v (priceSettings d).

(** [updateMember(id, updates)] *)
Definition updateMember (i : Z) (u : MemberUpdate) (d : data) : data :=
  set_members (map (fun m => if id m =? i then merge m u else m) (members d)) d.

(** [deleteMember(id)] *)
Definition deleteMember (i : Z) (d : data) : data :=
  set_members (filter (fun m => negb (id m =? i)) (members d)) d.

(** [getMember(id)]; [None] is undefined. *)
Definition getMember (i : Z) (d : data) : option Member :=
  find (fun m => id m =? i) (members d).

(** [getMemberByQR(qrCode)] *)
Definition getMemberByQR (qr : string) (d : data) : option Member :=
  find (fun m => String.eqb (qr_code m) qr) (members d).

(** A string or null that [if (x)] accepts. *)
Definition present (o : option string) : bool :=
  match o with
  | Some s => negb (String.eqb s "")
  | None => false
  end.

(** [a >= b] and [a < b] on strings. *)
Definition strGe (a b : string) : bool := String.leb b a.
Definition strLt (a b : string) : bool := String.ltb a b.

(** [getActiveMembers()], [today] being the date read from the clock. *)
Definition getActiveMembers (today : string) (d : data) : list Member :=
  filter (fun m => match subscription_end m with
                   | Some e => present (Some e) && strGe e today
                   | None => false
                   end) (members d).

(** [getExpiredMembers()] *)
Definition getExpiredMembers (today : string) (d : data) : list Member :=
  filter (fun m => match subscription_end m with
                   | Some e => negb (present (Some e)) || strLt e today
                   | None => true
                   end) (members d).

(** MemberDetailScreen's [isActive]. *)
Definition isActive (today : string) (m : Member) : bool :=
  match subscription_end m with
  | Some e => if negb (present (Some e)) then false else strGe e today
  | None => false
  end.

(** [addSale(type, amount, note)]; [newId] is what insertSale returns. *)
Definition addSale (today : string) (newId : Z)
    (ty : string) (amt : number) (nt : string) (d : data) : data :=
  set_sales (mkSale newId ty amt today nt :: sales d) d.

(** [addAttendance(memberId)] *)
Definition addAttendance (today time : string) (newId : Z)
    (memberId : Z) (d : data) : data :=
  set_attendance (mkAttendance newId memberId today time :: attendance d) d.

Definition typeName (t : membershipType) : string :=
  match t with
  | student => "student"%string
  | regular => "regular"%string
  | senior => "senior"%string
  end.

(** [priceSettings[`${type}_monthly`]] *)
Definition monthlyPrice (t : membershipType) (p : PriceSettings) : number :=
  match t with
  | student => student_monthly p
  | regular => regular_monthly p
  | senior => senior_monthly p
  end.

(** [renewSubscription(memberId)].  [members] and [prices] are what the
    closure of the render holds; [endDate] is today plus one month as the
    Date object computes it; [saleDate] is the date [addSale] reads from
    the clock afterwards. *)
Definition renewSubscription (today endDate saleDate : string) (saleId : Z)
    (memberId : Z) (d : data) : data :=
  match find (fun m => id m =? memberId) (members d) with
  | None => d
  | Some member =>
      let d1 := updateMember memberId
                  (mkUpdate None None None None None None None None None None
                            None None (Some (Some today)) (Some (Some endDate))) d in
      addSale saleDate saleId
        ("monthly_" ++ typeName (membership_type member))%string
        (monthlyPrice (membership_type member) (priceSettings d))
        ("Monthly subscription for " ++ firstname member ++ " " ++ lastname member)%string
        d1
  end.

(** [paySession(memberId, isMember)] *)
Definition paySession (saleDate attDate time : string) (saleId attId : Z)
    (memberId : Z) (isMember : bool) (d : data) : data :=
  let member := find (fun m => id m =? memberId) (members d) in
  let amt := if isMember then session_member (priceSettings d)
             else session_nonmember (priceSettings d) in
  let ty := (if isMember then "session_member" else "session_nonmember")%string in
  let nt := (match member with
             | Some m => "Session for " ++ firstname m ++ " " ++ lastname m
             | None => "Walk-in session"
             end)%string in
  let d1 := addSale saleDate saleId ty amt nt d in
  if 0 <? memberId then addAttendance attDate time attId memberId d1 else d1.

(** ScanQRScreen's [isSubscriptionActive(member)]. *)
Definition isSubscriptionActive (today : string) (m : Member) : bool :=
  if negb (present (subscription_end m)) then false
  else match subscription_end m with
       | Some e => strGe e today
       | None => false
       end.

(** ** ScanQRScreen *)

Inductive alert : Type := InvalidQR | NotFound.

Definition NO_QR_RESET_DELAY : Z := 3000.

(** The state of the component: the scan result, the time of the last
    scan that was let through, the "no QR detected" hint, and the timeout
    that [noQRTimeoutRef] holds while it is pending, by its due time. *)
Record scanner : Type := mkScanner {
  scannedMember : option Member;
  showResult : bool;
  lastScanTime : Z;
  noQRDetected : bool;
  noQRTimeout : option Z
}.

Definition initialScanner : scanner := mkScanner None false 0 true None.

(** [resetNoQRMessage()] at time [now]: a pending timeout is cleared and a
    new one is set. *)
Definition resetNoQRMessage (now : Z) (s : scanner) : scanner :=
  mkScanner (scannedMember s) (showResult s) (lastScanTime s) (noQRDetected s)
            (Some (now + NO_QR_RESET_DELAY)).


(** [handleBarCodeScanned({ data })]; [now] is [Date.now()].  The hint is
    hidden and its timeout restarted before anything is tested. *)
Definition handleBarCodeScanned (now : Z) (code : string) (d : data)
    (s : scanner) : scanner * option alert :=
  let s0 := resetNoQRMessage now
              (mkScanner (scannedMember s) (showResult s) (lastScanTime s)
                         false (noQRTimeout s)) in
  if now - lastScanTime s <? 5000 then (s0, None)
  else
    let s1 := mkScanner (scannedMember s0) (showResult s0) now
                        (noQRDetected s0) (noQRTimeout s0) in
    if negb (String.prefix "GYM-" code) then (s1, Some InvalidQR)
    else match getMemberByQR code d with
         | None => (s1, Some NotFound)
         | Some member =>
             (mkScanner (Some member) true now
                        (noQRDetected s0) (noQRTimeout s0), None)
         end.

(** The camera delivers codes only while no result is shown:
    [onBarcodeScanned={showResult ? undefined : handleBarCodeScanned}]. *)
Definition onBarcodeScanned (now : Z) (code : string) (d : data)
    (s : scanner) : scanner * option alert :=
  if showResult s then (s, None) else handleBarCodeScanned now code d s.

(** [handlePaySession()] *)
Definition handlePaySession (saleDate attDate time : string) (saleId attId : Z)
    (s : scanner) (d : data) : scanner * data :=
  match scannedMember s with
  | Some m => (mkScanner None false (lastScanTime s)
                          (noQRDetected s) (noQRTimeout s),
               paySession saleDate attDate time saleId attId (id m) true d)
  | None => (s, d)
  end.

(** [handleClose()] *)
Definition handleClose (s : scanner) : scanner :=
  mkScanner None false (lastScanTime s) true (noQRTimeout s).

(** [handleWalkIn()] *)
Definition handleWalkIn (saleDate attDate time : string) (saleId attId : Z)
    (s : scanner) (d : data) : scanner * data :=
  (s, paySession saleDate attDate time saleId attId 0 false d).

(** [id.toString()] for the integers an id can be. *)
Definition numberToString (z : Z) : string :=
  DecimalString.NilZero.string_of_int (Z.to_int z).

Fixpoint zeros (n : nat) : string :=
  match n with
  | O => EmptyString
  | S k => String "0" (zeros k)
  end.

(** [s.padStart(6, "0")] *)
Definition padStart6 (s : string) : string :=
  (zeros (6 - String.length s) ++ s)%string.

(** [generateQRCode(id)] *)
Definition generateQRCode (i : Z) : string :=
  ("GYM-" ++ padStart6 (numberToString i))%string.

(** [addMember(memberData)]; [newId] is what insertMember returns.  The
    three fields that memberData does not have are filled in here. *)
Definition addMember (newId : Z) (memberData : Member) (d : data) : Member * data :=
  let newMember :=
    merge memberData
      (mkUpdate (Some newId) None None None None None None None
                (Some (generateQRCode newId)) (Some EmptyString)
                None None None None) in
  (newMember, set_members (newMember :: members d) d).

(** ** Active and expired members *)

Lemma strLt_not_strGe (a b : string) : strLt a b = negb (strGe a b).
Proof.
  unfold strLt, strGe, String.ltb, String.leb.
  rewrite (String.compare_antisym b a).
  destruct (String.compare a b); reflexivity.
Qed.

Lemma filter_negb_length {A} (f : A -> bool) (l : list A) :
  (List.length (filter f l) + List.length (filter (fun x => negb (f x)) l)
   = List.length l)%nat.
Proof.
  induction l as [|a l IH]; cbn; [reflexivity|].
  destruct (f a); cbn; lia.
Qed.

(** On any day, the lists of active and of expired members split the
    members: each member is in exactly one of them (a missing or empty end
    date counts as expired), the two lengths add up, and the badge that
    MemberDetailScreen computes for a member says "Active" exactly when the
    member is in the active list, as does the one of ScanQRScreen. *)
Theorem active_and_expired_split_members (today : string) (d : data) :
  getActiveMembers today d = filter (isActive today) (members d) /\
  getExpiredMembers today d
    = filter (fun m => negb (isActive today m)) (members d) /\
  (List.length (getActiveMembers today d)
   + List.length (getExpiredMembers today d) = List.length (members d))%nat /\
  (forall m, In m (members d) ->
     (In m (getActiveMembers today d) <-> isActive today m = true) /\
     (In m (getExpiredMembers today d) <-> isActive today m = false)) /\
  (forall m, subscription_end m = None \/ subscription_end m = Some EmptyString ->
     isActive today m = false) /\
  (forall m, isSubscriptionActive today m = isActive today m).
Proof.
  assert (EA : getActiveMembers today d = filter (isActive today) (members d)).
  { unfold getActiveMembers. apply filter_ext. intros m. unfold isActive.
    destruct (subscription_end m) as [e|]; [|reflexivity].
    destruct (present (Some e)); reflexivity. }
  assert (EE : getExpiredMembers today d
               = filter (fun m => negb (isActive today m)) (members d)).
  { unfold getExpiredMembers. apply filter_ext. intros m. unfold isActive.
    destruct (subscription_end m) as [e|]; [|reflexivity].
    rewrite strLt_not_strGe. destruct (present (Some e)); reflexivity. }
  split; [exact EA|]. split; [exact EE|]. split; [|split; [|split]].
  - rewrite EA, EE. apply filter_negb_length.
  - intros m Hm. rewrite EA, EE, !filter_In. split; split.
    + now intros [_ H].
    + now intros H.
    + intros [_ H]. now apply negb_true_iff in H.
    + intros H. split; [exact Hm|]. now rewrite H.
  - intros m [H|H]; unfold isActive; rewrite H; reflexivity.
  - intros m. unfold isSubscriptionActive, isActive.
    destruct (subscription_end m); reflexivity.
Qed.

(** ** Looking members up *)

Lemma find_filter_other (i j : Z) (ms : list Member) :
  j <> i ->
  find (fun m => id m =? j) (filter (fun m => negb (id m =? i)) ms)
  = find (fun m => id m =? j) ms.
Proof.
  intros Hji. induction ms as [|a ms IH]; cbn; [reflexivity|].
  destruct (id a =? i) eqn:Ei; cbn.
  - apply Z.eqb_eq in Ei.
    rewrite (proj2 (Z.eqb_neq (id a) j)) by congruence. exact IH.
  - destruct (id a =? j); [reflexivity | exact IH].
Qed.

(** After [deleteMember(id)] no member is found under that id, every other
    id is looked up as before, and the attendance and sales lists are the
    same: records of the deleted member stay in memory. *)
Theorem delete_then_lookup (i : Z) (d : data) :
  getMember i (deleteMember i d) = None /\
  (forall j, j <> i -> getMember j (deleteMember i d) = getMember j d) /\
  attendance (deleteMember i d) = attendance d /\
  sales (deleteMember i d) = sales d.
Proof.
  split; [|split; [|split; reflexivity]].
  - unfold getMember, deleteMember; cbn.
    induction (members d) as [|a ms IH]; cbn; [reflexivity|].
    destruct (id a =? i) eqn:Ei; cbn; [exact IH|]. now rewrite Ei.
  - intros j Hj. unfold getMember, deleteMember; cbn.
    now apply find_filter_other.
Qed.

(** [updateMember(id, updates)] for an id that no member has changes
    nothing; otherwise, as long as the update does not rename the id, the
    member found under that id afterwards is the one found before with the
    update merged in, every other id is looked up as before, and the
    number of members is the same. *)
Theorem update_then_lookup (i : Z) (u : MemberUpdate) (d : data) :
  (getMember i d = None -> updateMember i u d = d) /\
  (u_id u = None ->
   getMember i (updateMember i u d)
     = option_map (fun m => merge m u) (getMember i d) /\
   (forall j, j <> i -> getMember j (updateMember i u d) = getMember j d)) /\
  List.length (members (updateMember i u d)) = List.length (members d).
Proof.
  split; [|split].
  - unfold getMember, updateMember. destruct d as [ms att sl pr]; cbn.
    intros H. unfold set_members; cbn. f_equal.
    induction ms as [|a ms IH]; cbn in *; [reflexivity|].
    destruct (id a =? i); [discriminate|]. now rewrite IH.
  - intros Hu. unfold getMember, updateMember; cbn. split.
    + induction (members d) as [|a ms IH]; cbn; [reflexivity|].
      destruct (id a =? i) eqn:Ei; cbn.
      * unfold pick at 1. rewrite Hu, Ei. reflexivity.
      * rewrite Ei. exact IH.
    + intros j Hj. induction (members d) as [|a ms IH]; cbn; [reflexivity|].
      destruct (id a =? i) eqn:Ei; cbn.
      * unfold pick at 1. rewrite Hu.
        apply Z.eqb_eq in Ei.
        rewrite (proj2 (Z.eqb_neq (id a) j)) by congruence. exact IH.
      * destruct (id a =? j); [reflexivity | exact IH].
  - unfold updateMember; cbn. apply length_map.
Qed.

(** ** QR codes *)

(** Reading the number back out of a code.  The application never does
    this (it looks codes up with [getMemberByQR]); it is used below to show
    that a code determines the id it was generated from. *)
Definition qrNumber (code : string) : option Z :=
  match code with
  | String "G" (String "Y" (String "M" (String "-" rest))) =>
      option_map Z.of_uint (DecimalString.NilEmpty.uint_of_string rest)
  | _ => None
  end.

(** Every member carries the code generated from its own id, as
    [addMember] sets it up. *)
Definition qrConsistent (d : data) : Prop :=
  forall m, In m (members d) -> 0 <= id m /\ qr_code m = generateQRCode (id m).

Lemma uint_of_string_zeros (k : nat) (s : string) :
  DecimalString.NilEmpty.uint_of_string (zeros k ++ s)
  = option_map (Nat.iter k Decimal.D0) (DecimalString.NilEmpty.uint_of_string s).
Proof.
  induction k as [|k IH]; cbn.
  - now destruct (DecimalString.NilEmpty.uint_of_string s).
  - rewrite IH. now destruct (DecimalString.NilEmpty.uint_of_string s).
Qed.

Lemma of_uint_zeros (k : nat) (u : Decimal.uint) :
  Z.of_uint (Nat.iter k Decimal.D0 u) = Z.of_uint u.
Proof.
  induction k as [|k IH]; [reflexivity|]. cbn. exact IH.
Qed.

Lemma numberToString_nonneg (i : Z) :
  0 <= i ->
  exists u, numberToString i = DecimalString.NilEmpty.string_of_uint u /\
            Z.of_uint u = i.
Proof.
  intros Hi. unfold numberToString.
  pose proof (DecimalZ.of_to i) as Hot.
  destruct i as [|p|p]; [| |lia].
  - exists (Decimal.D0 Decimal.Nil). split; reflexivity.
  - exists (Pos.to_uint p). split; [|exact Hot].
    cbn. unfold DecimalString.NilZero.string_of_uint.
    pose proof (DecimalPos.Unsigned.to_uint_nonnil p) as Hn.
    destruct (Pos.to_uint p); [congruence|reflexivity..].
Qed.

Lemma qrNumber_generateQRCode (i : Z) :
  0 <= i -> qrNumber (generateQRCode i) = Some i.
Proof.
  intros Hi. destruct (numberToString_nonneg i Hi) as [u [Hs Hu]].
  unfold generateQRCode, padStart6. rewrite Hs. cbn [qrNumber append].
  rewrite uint_of_string_zeros, DecimalString.NilEmpty.usu. cbn [option_map].
  now rewrite of_uint_zeros, Hu.
Qed.

Lemma generateQRCode_eqb (i j : Z) :
  0 <= i -> 0 <= j ->
  String.eqb (generateQRCode j) (generateQRCode i) = (j =? i).
Proof.
  intros Hi Hj. destruct (Z.eqb_spec j i) as [->|Hne].
  - apply String.eqb_refl.
  - apply String.eqb_neq. intros E.
    apply (f_equal qrNumber) in E.
    rewrite !qrNumber_generateQRCode in E by assumption. congruence.
Qed.

Lemma qrConsistent_lookup (d : data) (i : Z) :
  qrConsistent d -> 0 <= i ->
  getMemberByQR (generateQRCode i) d = getMember i d.
Proof.
  unfold qrConsistent, getMemberByQR, getMember. intros Hc Hi.
  induction (members d) as [|a ms IH]; cbn [find]; [reflexivity|].
  destruct (Hc a (or_introl eq_refl)) as [Ha Hq].
  rewrite Hq, generateQRCode_eqb by assumption.
  destruct (id a =? i); [reflexivity|].
  apply IH. intros m Hm. apply Hc. now right.
Qed.

(** Codes generated for two ids (not negative, as database ids are) are
    equal only when the ids are. *)
Theorem qr_code_determines_id (i j : Z) :
  0 <= i -> 0 <= j -> generateQRCode i = generateQRCode j -> i = j.
Proof.
  intros Hi Hj E. apply (f_equal qrNumber) in E.
  rewrite !qrNumber_generateQRCode in E by assumption. congruence.
Qed.

(** In a store where every member carries the code of its own id,
    [addMember] keeps it so, the member it returns is the one found both
    by its new id and by scanning its code, and for every id scanning the
    generated code finds exactly the member that [getMember] finds. *)
Theorem scanning_finds_the_added_member
  (newId : Z) (memberData : Member) (d : data) :
  qrConsistent d -> 0 <= newId ->
  let (m, d') := addMember newId memberData d in
  qrConsistent d' /\
  id m = newId /\
  getMember newId d' = Some m /\
  getMemberByQR (qr_code m) d' = Some m /\
  (forall i, 0 <= i -> getMemberByQR (generateQRCode i) d' = getMember i d').
Proof.
  intros Hc Hn. unfold addMember.
  set (m := merge memberData _).
  assert (Hid : id m = newId) by reflexivity.
  assert (Hqr : qr_code m = generateQRCode newId) by reflexivity.
  assert (Hc' : qrConsistent (set_members (m :: members d) d)).
  { intros x [<-|Hx]; [now rewrite Hid, Hqr | now apply Hc]. }
  split; [exact Hc'|]. split; [exact Hid|].
  assert (Hg : getMember newId (set_members (m :: members d) d) = Some m).
  { unfold getMember; cbn [members set_members find].
    now rewrite Hid, Z.eqb_refl. }
  split; [exact Hg|]. split.
  - rewrite Hqr, qrConsistent_lookup by assumption. exact Hg.
  - intros i Hi. now apply qrConsistent_lookup.
Qed.

(** ** Renewal and session payments *)

Lemma find_some_id (i : Z) (ms : list Member) (m : Member) :
  find (fun x => id x =? i) ms = Some m -> id m = i.
Proof.
  intros H. apply find_some in H. now apply Z.eqb_eq.
Qed.

(** [renewSubscription(id)] for an id that no member has does nothing: no
    sale is recorded.  For a member it finds, one sale is added, of type
    "monthly_<type>" and at the monthly price of that member's type; the
    member found under the id afterwards has the new start and end dates
    and everything else as before, and is shown as active on every day up
    to a (non-empty) end date. *)
Theorem renewal_extends_and_charges
  (today endDate saleDate : string) (saleId i : Z) (d : data) :
  let d' := renewSubscription today endDate saleDate saleId i d in
  (getMember i d = None -> d' = d) /\
  (forall m, getMember i d = Some m ->
     sales d'
       = mkSale saleId ("monthly_" ++ typeName (membership_type m))%string
                (monthlyPrice (membership_type m) (priceSettings d)) saleDate
                ("Monthly subscription for " ++ firstname m ++ " "
                 ++ lastname m)%string
         :: sales d /\
     attendance d' = attendance d /\
     exists m',
       getMember i d' = Some m' /\
       subscription_start m' = Some today /\
       subscription_end m' = Some endDate /\
       id m' = id m /\ firstname m' = firstname m /\ lastname m' = lastname m /\
       qr_code m' = qr_code m /\ membership_type m' = membership_type m /\
       photo m' = photo m /\
       (forall day, endDate <> EmptyString -> strGe endDate day = true ->
          In m' (getActiveMembers day d'))).
Proof.
  cbv zeta. unfold renewSubscription, getMember. split.
  - intros H. now rewrite H.
  - intros m H. rewrite H. split; [reflexivity|]. split; [reflexivity|].
    set (u := mkUpdate _ _ _ _ _ _ _ _ _ _ _ _ _ _).
    exists (merge m u).
    assert (Hg : find (fun x => id x =? i)
                   (map (fun x => if id x =? i then merge x u else x) (members d))
                 = Some (merge m u)).
    { pose proof (update_then_lookup i u d) as [_ [Hu _]].
      destruct (Hu eq_refl) as [Hu1 _].
      unfold getMember, updateMember in Hu1; cbn [members set_members] in Hu1.
      now rewrite Hu1, H. }
    split; [exact Hg|].
    repeat (split; [reflexivity|]).
    intros day Hne Hge. unfold getActiveMembers. apply filter_In. split.
    + apply find_some in Hg. exact (proj1 Hg).
    + cbn. rewrite Hge, andb_true_r. apply negb_true_iff.
      now apply String.eqb_neq.
Qed.

(** ** Scanning *)

Lemma generateQRCode_prefix (i : Z) :
  String.prefix "GYM-" (generateQRCode i) = true.
Proof.
  unfold generateQRCode. cbn -[padStart6].
  now destruct (padStart6 (numberToString i)).
Qed.

(** In a store where every member carries the code of its own id, a scan
    of a member's code that comes at least five seconds after the last
    accepted one shows that very member, without an alert. *)
Theorem scan_shows_registered_member
  (now : Z) (d : data) (s : scanner) (m : Member) :
  qrConsistent d -> getMember (id m) d = Some m ->
  showResult s = false -> 5000 <= now - lastScanTime s ->
  onBarcodeScanned now (qr_code m) d s
  = (mkScanner (Some m) true now false (Some (now + NO_QR_RESET_DELAY)), None).
Proof.
  intros Hc Hg Hs Ht.
  assert (Hin : In m (members d)) by (apply find_some in Hg; exact (proj1 Hg)).
  unfold onBarcodeScanned, handleBarCodeScanned.
  rewrite Hs. rewrite (proj2 (Z.ltb_ge _ _) Ht).
  destruct (Hc m Hin) as [H0 Hq]. rewrite Hq, generateQRCode_prefix.
  cbn [negb]. rewrite qrConsistent_lookup by assumption. now rewrite Hg.
Qed.


(** Paying a session for the scanned member records one sale at the
    member session price, whose note names the member, and one attendance
    row for the member (ids being positive), and closes the result.  A
    walk-in records one sale at the non-member price and no attendance.
    Neither changes the members. *)
Theorem session_payments_recorded
  (saleDate attDate time : string) (saleId attId : Z)
  (s : scanner) (d : data) (m : Member) :
  scannedMember s = Some m -> getMember (id m) d = Some m ->
  (forall x, In x (members d) -> 0 < id x) ->
  let (s1, d1) := handlePaySession saleDate attDate time saleId attId s d in
  let (s2, d2) := handleWalkIn saleDate attDate time saleId attId s d in
  scannedMember s1 = None /\ showResult s1 = false /\
  sales d1 = mkSale saleId "session_member" (session_member (priceSettings d))
                    saleDate
                    ("Session for " ++ firstname m ++ " " ++ lastname m)%string
             :: sales d /\
  attendance d1 = mkAttendance attId (id m) attDate time :: attendance d /\
  members d1 = members d /\
  s2 = s /\
  sales d2 = mkSale saleId "session_nonmember"
                    (session_nonmember (priceSettings d)) saleDate
                    "Walk-in session" :: sales d /\
  attendance d2 = attendance d /\
  members d2 = members d.
Proof.
  intros Hs Hg Hall.
  assert (Hpos : 0 < id m).
  { apply Hall. apply find_some in Hg. exact (proj1 Hg). }
  unfold handlePaySession, handleWalkIn, paySession.
  rewrite Hs. unfold getMember in Hg. rewrite Hg.
  rewrite (proj2 (Z.ltb_lt _ _) Hpos).
  assert (H0 : find (fun x => id x =? 0) (members d) = None).
  { destruct (find (fun x => id x =? 0) (members d)) as [x|] eqn:E; [|reflexivity].
    pose proof (find_some_id _ _ _ E) as Hx. apply find_some in E.
    specialize (Hall x (proj1 E)). lia. }
  rewrite H0. cbn. repeat split.
Qed.

(** ** RegisterScreen *)

(** [String.prototype.trim] and [parseInt], as the runtime provides them. *)
Variable trim : string -> string.
Variable parseInt : string -> number.
(** The number 1. *)
Variable one : number.

Inductive registrationOption : Type :=
  member_only | member_monthly | member_session.

Record form : Type := mkForm {
  firstName : string;
  lastName : string;
  ageText : string;
  genderText : string;
  emailText : string;
  phoneText : string;
  photoUri : string;
  membershipChoice : membershipType;
  registrationChoice : registrationOption
}.

(** [resetForm()] *)
Definition resetForm : form :=
  mkForm "" "" "" "" "" "" "" regular member_only.

Inductive registerAlert : Type :=
  MissingInformation | PhotoRequired | Registered.

(** What the clock and the database hand to one run of [handleRegister]:
    today's date and the date a month on, the id of the inserted member,
    and id and date of each sale and attendance row. *)
Record registerEnv : Type := mkEnv {
  r_today : string;
  r_endDate : string;
  r_memberId : Z;
  r_feeId : Z;
  r_feeDate : string;
  r_saleId : Z;
  r_saleDate : string;
  r_attId : Z;
  r_attDate : string;
  r_attTime : string
}.

Definition empty (s : string) : bool := String.eqb s "".

(** [handleRegister()].  The sales are inserted in the order of the
    calls. *)
Definition handleRegister (e : registerEnv) (f : form) (d : data)
    : form * data * registerAlert :=
  if empty (trim (firstName f)) || empty (trim (lastName f))
     || empty (ageText f) || empty (genderText f)
  then (f, d, MissingInformation)
  else if empty (photoUri f) then (f, d, PhotoRequired)
  else
    let monthly := match registrationChoice f with
                   | member_monthly => true
                   | _ => false
                   end in
    let subscriptionStart := if monthly then Some (r_today e) else None in
    let subscriptionEnd := if monthly then Some (r_endDate e) else None in
    let (newMember, d1) :=
      addMember (r_memberId e)
        (mkMember 0 (trim (firstName f)) (trim (lastName f))
                  (parseInt (ageText f)) (genderText f) (trim (emailText f))
                  (trim (phoneText f)) (photoUri f) "" ""
                  (membershipChoice f) one
                  subscriptionStart subscriptionEnd) d in
    let d2 := addSale (r_feeDate e) (r_feeId e) "membership_fee"
                (membership (priceSettings d))
                ("Membership for " ++ firstName f ++ " " ++ lastName f)%string
                d1 in
    let d3 :=
      match registrationChoice f with
      | member_monthly =>
          addSale (r_saleDate e) (r_saleId e)
            ("monthly_" ++ typeName (membershipChoice f))%string
            (monthlyPrice (membershipChoice f) (priceSettings d))
            ("Monthly subscription for " ++ firstName f ++ " "
             ++ lastName f)%string d2
      | member_session =>
          addAttendance (r_attDate e) (r_attTime e) (r_attId e) (id newMember)
            (addSale (r_saleDate e) (r_saleId e) "session_member"
               (session_member (priceSettings d))
               ("Session for " ++ firstName f ++ " " ++ lastName f)%string d2)
      | member_only => d2
      end in
    (resetForm, d3, Registered).

Lemma empty_false (s : string) : s <> EmptyString -> empty s = false.
Proof.
  intros H. now apply String.eqb_neq.
Qed.

(** A registration with a required field missing (a name that is blank
    after trimming, no age, no gender) or without a photo changes nothing:
    no member, no sale, the form as it was, and an alert that is not the
    success one. *)
Theorem incomplete_registration_changes_nothing
  (e : registerEnv) (f : form) (d : data) :
  trim (firstName f) = EmptyString \/ trim (lastName f) = EmptyString \/
  ageText f = EmptyString \/ genderText f = EmptyString \/
  photoUri f = EmptyString ->
  exists a, handleRegister e f d = (f, d, a) /\ a <> Registered.
Proof.
  intros H. unfold handleRegister.
  destruct (empty (trim (firstName f)) || empty (trim (lastName f))
            || empty (ageText f) || empty (genderText f)) eqn:E1.
  - exists MissingInformation. split; [reflexivity | discriminate].
  - destruct (empty (photoUri f)) eqn:E2.
    + exists PhotoRequired. split; [reflexivity | discriminate].
    + exfalso. apply orb_false_elim in E1. destruct E1 as [E1 Eg].
      apply orb_false_elim in E1. destruct E1 as [E1 Ea].
      apply orb_false_elim in E1. destruct E1 as [Ef El].
      unfold empty in *.
      destruct H as [H|[H|[H|[H|H]]]]; rewrite H in *; discriminate.
Qed.

(** A complete registration, in a store where every member carries the
    code of its own id, keeps it so and adds a member that is found under
    the new id and shown when its code is scanned.  The membership fee is
    always recorded; the monthly and the session option record a second
    sale, the session option also one attendance row.  Only with the
    monthly option is the new member active (up to the end date);
    otherwise it is listed as expired from the start. *)
Theorem registration_adds_scannable_member
  (e : registerEnv) (f : form) (d : data) :
  qrConsistent d -> 0 <= r_memberId e ->
  trim (firstName f) <> EmptyString -> trim (lastName f) <> EmptyString ->
  ageText f <> EmptyString -> genderText f <> EmptyString ->
  photoUri f <> EmptyString ->
  exists m d',
    handleRegister e f d = (resetForm, d', Registered) /\
    qrConsistent d' /\
    getMember (r_memberId e) d' = Some m /\
    firstname m = trim (firstName f) /\
    (forall s now, showResult s = false -> 5000 <= now - lastScanTime s ->
       onBarcodeScanned now (generateQRCode (r_memberId e)) d' s
       = (mkScanner (Some m) true now false
                    (Some (now + NO_QR_RESET_DELAY)), None)) /\
    In (mkSale (r_feeId e) "membership_fee" (membership (priceSettings d))
               (r_feeDate e)
               ("Membership for " ++ firstName f ++ " " ++ lastName f)%string)
       (sales d') /\
    List.length (sales d')
    = (List.length (sales d)
       + match registrationChoice f with member_only => 1 | _ => 2 end)%nat /\
    attendance d'
    = match registrationChoice f with
      | member_session =>
          mkAttendance (r_attId e) (r_memberId e) (r_attDate e) (r_attTime e)
          :: attendance d
      | _ => attendance d
      end /\
    (forall day,
       isActive day m
       = match registrationChoice f with
         | member_monthly => negb (empty (r_endDate e)) && strGe (r_endDate e) day
         | _ => false
         end).
Proof.
  intros Hc Hn Hf Hl Ha Hg Hp. unfold handleRegister.
  rewrite (empty_false _ Hf), (empty_false _ Hl), (empty_false _ Ha),
    (empty_false _ Hg), (empty_false _ Hp). cbn [orb].
  unfold addMember.
  set (m := merge _ _).
  assert (Hid : id m = r_memberId e) by reflexivity.
  assert (Hqr : qr_code m = generateQRCode (r_memberId e)) by reflexivity.
  assert (Hc1 : qrConsistent (set_members (m :: members d) d)).
  { intros x [<-|Hx]; [now rewrite Hid, Hqr | now apply Hc]. }
  assert (Hscan : forall d', members d' = m :: members d ->
            qrConsistent d' /\ getMember (r_memberId e) d' = Some m /\
            forall s now, showResult s = false -> 5000 <= now - lastScanTime s ->
              onBarcodeScanned now (generateQRCode (r_memberId e)) d' s
              = (mkScanner (Some m) true now false
                           (Some (now + NO_QR_RESET_DELAY)), None)).
  { intros d' Hm.
    assert (Hc' : qrConsistent d').
    { unfold qrConsistent. rewrite Hm. exact Hc1. }
    assert (Hg' : getMember (r_memberId e) d' = Some m).
    { unfold getMember. rewrite Hm. cbn [find]. now rewrite Hid, Z.eqb_refl. }
    split; [exact Hc'|]. split; [exact Hg'|].
    intros s now Hs Ht. unfold onBarcodeScanned, handleBarCodeScanned.
    rewrite Hs, (proj2 (Z.ltb_ge _ _) Ht), generateQRCode_prefix. cbn [negb].
    rewrite qrConsistent_lookup by assumption. now rewrite Hg'. }
  exists m.
  destruct (registrationChoice f) eqn:Ec; eexists; (split; [reflexivity|]).
  - match goal with |- qrConsistent ?D /\ _ =>
      destruct (Hscan D eq_refl) as (Q1 & Q2 & Q3) end.
    split; [exact Q1|]. split; [exact Q2|]. split; [reflexivity|].
    split; [exact Q3|]. split; [now left|]. split; [cbn; lia|].
    split; reflexivity.
  - match goal with |- qrConsistent ?D /\ _ =>
      destruct (Hscan D eq_refl) as (Q1 & Q2 & Q3) end.
    split; [exact Q1|]. split; [exact Q2|]. split; [reflexivity|].
    split; [exact Q3|]. split; [right; now left|]. split; [cbn; lia|].
    split; [reflexivity|]. intros day. unfold isActive, empty. cbn.
    now destruct (String.eqb (r_endDate e) "").
  - match goal with |- qrConsistent ?D /\ _ =>
      destruct (Hscan D eq_refl) as (Q1 & Q2 & Q3) end.
    split; [exact Q1|]. split; [exact Q2|]. split; [reflexivity|].
    split; [exact Q3|]. split; [right; now left|]. split; [cbn; lia|].
    split; reflexivity.
Qed.

End Store.

Arguments mkMember {number}.
Arguments mkUpdate {number}.
Arguments mkSale {number}.
Arguments mkPrices {number}.
Arguments mkData {number}.
Arguments mkScanner {number}.
Arguments noUpdate {number}.

(** *** A small store to run the statements on *)

Definition sampleMember (i : Z) (e : option string) : Member Z :=
  mkMember i "Ana" "Cruz" 30 "F" "" "" "" (generateQRCode i) "" regular 1
           (Some "2025-01-01"%string) e.

Definition samplePrices : PriceSettings Z := mkPrices 1500 500 700 400 50 80.

Definition sampleData : data Z :=
  mkData [sampleMember 2 (Some "2025-03-01"%string); sampleMember 1 None]
         [] [] samplePrices.

Lemma sampleData_qrConsistent : qrConsistent Z sampleData.
Proof.
  intros m [<-|[<-|[]]]; (split; [cbn; lia | reflexivity]).
Defined.

Lemma active_and_expired_split_members_witness :
  (List.length (getActiveMembers Z "2025-02-01" sampleData)
   + List.length (getExpiredMembers Z "2025-02-01" sampleData) = 2)%nat.
Proof.
  exact (proj1 (proj2 (proj2
    (active_and_expired_split_members Z "2025-02-01" sampleData)))).
Defined.

Lemma delete_then_lookup_witness :
  2 <> 1 /\
  getMember Z 1 (deleteMember Z 1 sampleData) = None /\
  getMember Z 2 (deleteMember Z 1 sampleData) = getMember Z 2 sampleData.
Proof.
  pose proof (delete_then_lookup Z 1 sampleData) as [H1 [H2 _]].
  split; [lia|]. split; [exact H1|]. apply H2. lia.
Defined.

Lemma update_then_lookup_witness :
  getMember Z 7 sampleData = None /\
  updateMember Z 7 noUpdate sampleData = sampleData.
Proof.
  split; [reflexivity|].
  apply (proj1 (update_then_lookup Z 7 noUpdate sampleData)). reflexivity.
Defined.

Lemma qr_code_determines_id_witness :
  0 <= 12 /\ 0 <= 12 /\ generateQRCode 12 = generateQRCode 12 /\ 12 = 12.
Proof.
  split; [lia|]. split; [lia|]. split; [reflexivity|].
  apply (qr_code_determines_id 12 12); [lia | lia | reflexivity].
Defined.

Lemma scanning_finds_the_added_member_witness :
  qrConsistent Z sampleData /\ 0 <= 3 /\
  let (m, d') := addMember Z 3 (sampleMember 0 None) sampleData in
  qrConsistent Z d' /\
  id Z m = 3 /\
  getMember Z 3 d' = Some m /\
  getMemberByQR Z (qr_code Z m) d' = Some m /\
  (forall i, 0 <= i -> getMemberByQR Z (generateQRCode i) d' = getMember Z i d').
Proof.
  split; [exact sampleData_qrConsistent|]. split; [lia|].
  apply (scanning_finds_the_added_member Z 3 (sampleMember 0 None) sampleData);
    [exact sampleData_qrConsistent | lia].
Defined.

Lemma renewal_extends_and_charges_witness :
  getMember Z 1 sampleData = Some (sampleMember 1 None) /\
  sales Z (renewSubscription Z "2025-04-01" "2025-05-01" "2025-04-01" 9 1
             sampleData)
  = [mkSale 9 "monthly_regular" 700 "2025-04-01"
            "Monthly subscription for Ana Cruz"].
Proof.
  split; [reflexivity|].
  exact (proj1 (proj2 (renewal_extends_and_charges Z "2025-04-01" "2025-05-01"
                         "2025-04-01" 9 1 sampleData) (sampleMember 1 None)
                         eq_refl)).
Defined.

Lemma scan_shows_registered_member_witness :
  qrConsistent Z sampleData /\
  getMember Z (id Z (sampleMember 1 None)) sampleData
    = Some (sampleMember 1 None) /\
  showResult Z (initialScanner Z) = false /\
  5000 <= 60000 - lastScanTime Z (initialScanner Z) /\
  onBarcodeScanned Z 60000 (qr_code Z (sampleMember 1 None)) sampleData
    (initialScanner Z)
  = (mkScanner (Some (sampleMember 1 None)) true 60000 false (Some 63000),
     None).
Proof.
  split; [exact sampleData_qrConsistent|]. split; [reflexivity|].
  split; [reflexivity|]. split; [cbn; lia|].
  apply (scan_shows_registered_member Z 60000 sampleData (initialScanner Z)
           (sampleMember 1 None));
    [exact sampleData_qrConsistent | reflexivity | reflexivity | cbn; lia].
Defined.


Lemma session_payments_recorded_witness :
  let s := mkScanner (Some (sampleMember 1 None)) true 60000 false None in
  scannedMember Z s = Some (sampleMember 1 None) /\
  getMember Z 1 sampleData = Some (sampleMember 1 None) /\
  attendance Z (snd (handlePaySession Z "2025-04-01" "2025-04-01" "08:00:00"
                       5 6 s sampleData))
  = [mkAttendance 6 1 "2025-04-01" "08:00:00"] /\
  attendance Z (snd (handleWalkIn Z "2025-04-01" "2025-04-01" "08:00:00"
                       5 6 s sampleData)) = [].
Proof.
  cbv zeta. split; [reflexivity|]. split; [reflexivity|].
  pose proof (session_payments_recorded Z "2025-04-01" "2025-04-01" "08:00:00"
                5 6 (mkScanner (Some (sampleMember 1 None)) true 60000 false None)
                sampleData (sampleMember 1 None) eq_refl eq_refl) as H.
  assert (Ha : forall x, In x (members Z sampleData) -> 0 < id Z x).
  { intros x [<-|[<-|[]]]; cbn; lia. }
  specialize (H Ha).
  destruct (handlePaySession Z _ _ _ _ _ _ _) as [s1 d1].
  destruct (handleWalkIn Z _ _ _ _ _ _ _) as [s2 d2].
  destruct H as (_ & _ & _ & H4 & _ & _ & _ & H8 & _).
  split; [exact H4 | exact H8].
Defined.

Arguments mkForm : clear implicits.
Arguments mkEnv : clear implicits.

Definition sampleEnv : registerEnv :=
  mkEnv "2025-04-01" "2025-05-01" 3 10 "2025-04-01" 11 "2025-04-01"
        4 "2025-04-01" "08:00:00".

Definition sampleForm (photo : string) : form :=
  mkForm "Ben" "Reyes" "41" "male" "" "" photo senior member_monthly.

Lemma incomplete_registration_changes_nothing_witness :
  photoUri (sampleForm "") = EmptyString /\
  exists a,
    handleRegister Z (fun s => s) (fun _ => 41) 1 sampleEnv (sampleForm "")
      sampleData
    = (sampleForm "", sampleData, a) /\ a <> Registered.
Proof.
  split; [reflexivity|].
  apply (incomplete_registration_changes_nothing Z (fun s => s) (fun _ => 41) 1
           sampleEnv (sampleForm "") sampleData).
  right; right; right; right; reflexivity.
Defined.

Lemma registration_adds_scannable_member_witness :
  qrConsistent Z sampleData /\ 0 <= r_memberId sampleEnv /\
  exists m d',
    handleRegister Z (fun s => s) (fun _ => 41) 1 sampleEnv
      (sampleForm "file:///p.jpg") sampleData
    = (resetForm, d', Registered) /\
    getMember Z 3 d' = Some m /\
    List.length (sales Z d') = 2%nat.
Proof.
  split; [exact sampleData_qrConsistent|]. split; [cbn; lia|].
  destruct (registration_adds_scannable_member Z (fun s => s) (fun _ => 41) 1
              sampleEnv (sampleForm "file:///p.jpg") sampleData
              sampleData_qrConsistent)
    as (m & d' & H1 & _ & H3 & _ & _ & _ & H7 & _);
    [cbn; lia | discriminate | discriminate | discriminate | discriminate
    | discriminate |].
  exists m, d'. split; [exact H1|]. split; [exact H3 | exact H7].
Defined.

End Members.

(** * The provider with a lifecycle listener of its own

    The AppContext revision of src/unnamed/part_002 subscribes to AppState
    itself, next to SessionManager. *)

Module Lifecycle.

Record provider : Type := mkProvider {
  session : state;
  appWentToBackground : bool
}.

(** What the provider's listener hands to [setState]. *)
Inductive update : Type :=
| MarkBackground    (* prev => ({ ...prev, appWentToBackground: true }) *)
| RequirePin.       (* prev => ({ ...prev, isAuthenticated: false,
                                  appWentToBackground: false }) *)

(** The provider's listener: it only queues an update.  (The reload of
    members, attendance and sales that follows on "active" does not touch
    the session.) *)
Definition providerListener (st : appStatus) : option update :=
  match st with
  | Background => Some MarkBackground
  | Active => Some RequirePin
  | Inactive => None
  end.

(** The commit of [RequirePin]: [isAuthenticated] becomes false and the
    effects that depend on it run again. *)
Definition requirePin (p : provider) : provider :=
  let s := session p in
  mkProvider (if isAuthenticated s
              then sessionEffect true (set_isAuthenticated false s)
              else s)
             false.

(** The commit of a queued update. *)
Definition commit (u : option update) (p : provider) : provider :=
  match u with
  | Some MarkBackground => mkProvider (session p) true
  | Some RequirePin => requirePin p
  | None => p
  end.

(** SessionManager's listener, subscribed while the committed
    [isAuthenticated] is true. *)
Definition sessionListener (rev : revision) (st : appStatus) (p : provider)
    : provider :=
  mkProvider (onAppStateChange rev st (session p)) (appWentToBackground p).

(** Delivery of one AppState change.  Both listeners are called in the
    same dispatch; the update that the provider's listener queues is
    committed only after both have returned, so SessionManager's listener
    runs on the session as it was, whichever of the two is called first. *)
Definition deliver (rev : revision) (st : appStatus) (p : provider) : provider :=
  commit (providerListener st) (sessionListener rev st p).

Lemma requirePin_cancels (p : provider) :
  isAuthenticated (session p) = true ->
  isAuthenticated (session (requirePin p)) = false /\
  idleArmed (session (requirePin p)) = false /\
  countdownRunning (session (requirePin p)) = false.
Proof.
  intros Ha. unfold requirePin. cbn [session]. rewrite Ha.
  assert (Hf : isAuthenticated (set_isAuthenticated false (session p)) = false)
    by reflexivity.
  split; [now rewrite sessionEffect_auth|].
  destruct (sessionEffect_cancels _ (or_introl Hf)) as (H1 & H2 & _).
  now split.
Qed.

Lemma requirePin_frame (p : provider) :
  photoFlag (session (requirePin p)) = photoFlag (session p) /\
  trace (session (requirePin p)) = trace (session p).
Proof.
  unfold requirePin. cbn [session].
  destruct (isAuthenticated (session p)); [|now split].
  now rewrite sessionEffect_flag, sessionEffect_trace.
Qed.

Lemma In_clearRef_other (r : option nat) (t : timer) (s : state) :
  In t (timers s) -> (forall i, r = Some i -> t_id t <> i) ->
  In t (timers (clearRef r s)).
Proof.
  intros Hin Hr. destruct r as [i|]; [|exact Hin].
  cbn [clearRef clearTimer timers set_timers]. apply filter_In.
  split; [exact Hin|]. unfold keep_other. apply negb_true_iff.
  apply Nat.eqb_neq. now apply Hr.
Qed.

Lemma requirePin_keeps_timer (p : provider) (t : timer) :
  isAuthenticated (session p) = true ->
  In t (timers (session p)) ->
  (forall i, idleTimer (session p) = Some i -> t_id t <> i) ->
  (forall i, countdownTimer (session p) = Some i -> t_id t <> i) ->
  In t (timers (session (requirePin p))).
Proof.
  intros Ha Hin Hi Hc. unfold requirePin. cbn [session]. rewrite Ha.
  unfold sessionEffect.
  set (q := clearRef _ (clearRef _ (set_isAuthenticated false (session p)))).
  assert (Hq : In t (timers q)).
  { subst q. apply In_clearRef_other; [apply In_clearRef_other|]; auto. }
  assert (Eq : idleTimer q = idleTimer (session p)
               /\ countdownTimer q = countdownTimer (session p)
               /\ isAuthenticated q = false).
  { subst q. now autorewrite with frame. }
  destruct Eq as (E1 & E2 & E3). rewrite E3. cbn [negb].
  apply In_clearRef_other; [apply In_clearRef_other|]; rewrite ?E1, ?E2; auto.
Qed.

(** With this provider, a logged-in user who returns to the foreground is
    logged out, whatever SessionManager's revision and whatever the photo
    flag says; no idle timeout and no countdown is left running.
    SessionManager's listener has run all the same: in the
    photoOperationRef revision a pending flag is used up, and in both
    revisions with a flag, when it is not set, the modal is hidden once
    more and the 0 ms timeout of [safeLogout] is in the queue (the handles
    in the two refs being ones issued earlier).  Going to the background
    only sets the mark and leaves the user logged in. *)
Theorem foreground_return_requires_pin (rev : revision) (p : provider) :
  isAuthenticated (session p) = true ->
  (isAuthenticated (session (deliver rev Active p)) = false /\
   idleArmed (session (deliver rev Active p)) = false /\
   countdownRunning (session (deliver rev Active p)) = false /\
   appWentToBackground (deliver rev Active p) = false) /\
  (rev = RevPhotoOp -> photoFlag (session (deliver rev Active p)) = false) /\
  (rev <> RevIdleOnly -> photoFlag (session p) = false ->
   trace (session (deliver rev Active p))
   = trace (session p) ++ [FxShowModal false] /\
   ((forall i, idleTimer (session p) = Some i -> (i < nextId (session p))%nat) ->
    (forall i, countdownTimer (session p) = Some i ->
               (i < nextId (session p))%nat) ->
    In (mkTimer (nextId (session p)) (now (session p) + 0) None CbClearAuth)
       (timers (session (deliver rev Active p))))) /\
  (isAuthenticated (session (deliver rev Background p)) = true /\
   appWentToBackground (deliver rev Background p) = true).
Proof.
  intros Ha. unfold deliver. cbn [providerListener commit].
  assert (Ha' : forall st,
            isAuthenticated (session (sessionListener rev st p)) = true).
  { intros st. unfold sessionListener. cbn [session].
    now rewrite onAppStateChange_auth. }
  split; [|split; [|split]].
  - destruct (requirePin_cancels _ (Ha' Active)) as (H1 & H2 & H3).
    now repeat split.
  - intros ->. rewrite (proj1 (requirePin_frame _)).
    unfold sessionListener. cbn [session onAppStateChange]. rewrite Ha.
    cbn [negb listenerPhotoOp].
    destruct (photoFlag (session p)) eqn:Hf; [reflexivity|exact Hf].
  - intros Hrev Hf.
    assert (E : onAppStateChange rev Active (session p) = safeLogout (session p)).
    { destruct rev; [congruence | |]; cbn [onAppStateChange]; rewrite Ha;
        cbn [negb listenerScreenFlag listenerPhotoOp]; now rewrite Hf. }
    split.
    + rewrite (proj2 (requirePin_frame _)).
      unfold sessionListener. cbn [session]. now rewrite E.
    + intros Hi Hc.
      apply requirePin_keeps_timer; [exact (Ha' Active) | | | ];
        unfold sessionListener; cbn [session]; rewrite E.
      * rewrite safeLogout_timers. apply in_or_app. right. now left.
      * intros i Hr. change (idleTimer (safeLogout (session p)))
          with (idleTimer (session p)) in Hr.
        specialize (Hi i Hr). cbn [t_id]. lia.
      * intros i Hr. change (countdownTimer (safeLogout (session p)))
          with (countdownTimer (session p)) in Hr.
        specialize (Hc i Hr). cbn [t_id]. lia.
  - split; [exact (Ha' Background) | reflexivity].
Qed.

Lemma foreground_return_requires_pin_witness :
  isAuthenticated (setPhotoOperationInProgress true loggedIn) = true /\
  photoFlag (setPhotoOperationInProgress true loggedIn) = true /\
  isAuthenticated
    (session (deliver RevPhotoOp Active
                (mkProvider (setPhotoOperationInProgress true loggedIn) true)))
  = false /\
  photoFlag
    (session (deliver RevPhotoOp Active
                (mkProvider (setPhotoOperationInProgress true loggedIn) true)))
  = false.
Proof.
  split; [reflexivity|]. split; [reflexivity|].
  destruct (foreground_return_requires_pin RevPhotoOp
              (mkProvider (setPhotoOperationInProgress true loggedIn) true)
              eq_refl) as ((H1 & _) & H2 & _).
  split; [exact H1 | exact (H2 eq_refl)].
Defined.

End Lifecycle.
